(** * libcctools network monitor: a shallow embedding of [network.c]

    The development follows the layout of the C file.  The private struct
    [NetworkMonitor] becomes a record, every C function becomes a
    computation in a small state-and-trace monad [M], and every call that
    leaves the program (sockets, [ioctl], [/proc/net/route], sleeping, the
    clock, the mutex) is answered by an environment [Env] and recorded as an
    [event].  The trace is what the lock-discipline and retry/backoff
    statements are about; the final monitor state is what the status and
    configuration statements are about.

    The file has two parts: first the model of the code and the vocabulary
    in which its properties are stated, then the lemmas and theorems. *)

From Stdlib Require Import ZArith Lia Ascii String.
From stdpp Require Import base list strings.

Local Open Scope Z_scope.

(** ** Constants of the C file and of the system headers it uses *)

(** [#define MAX_WAN_SERVERS 4] *)
Definition MAX_WAN_SERVERS : Z := 4.

(** [IF_NAMESIZE] of <net/if.h>. *)
Definition IF_NAMESIZE : nat := 16.

(** [IFF_UP] and [IFF_RUNNING] of <net/if.h>. *)
Definition IFF_UP : Z := 0x1.
Definition IFF_RUNNING : Z := 0x40.

(** [RTF_UP] and [RTF_GATEWAY] of <linux/route.h>. *)
Definition RTF_UP : Z := 0x0001.
Definition RTF_GATEWAY : Z := 0x0002.

(** Size of the [host] and [proxy_url] arrays. *)
Definition HOST_SIZE : nat := 256.

(** ** Data model *)

(** [typedef struct { char host[256]; int port; } WanServer;] *)
Record WanServer : Type := mkWanServer {
  host : string;
  port : Z
}.

(** The private [NetworkMonitor] struct.  C strings are [string]s (the bytes
    before the terminating NUL), [int] and [time_t] are [Z] (no arithmetic
    of the file can leave the range of [int]).  The thread handle and the
    mutex are not data: locking shows up as events of the trace. *)
Record NetworkMonitor : Type := mkMonitor {
  timeout_ms : Z;
  check_interval_sec : Z;
  proxy_url : string;
  wan_servers : list WanServer;
  num_wan_servers : Z;
  lan_interface : string;
  wan_up : bool;
  lan_up : bool;
  last_check_time : Z;
  last_error : Z;
  running : bool
}.

(** The public [NetworkConfig] struct of [network.h]; a [const char*] that
    may be [NULL] is an [option string]. *)
Record NetworkConfig : Type := mkConfig {
  cfg_timeout_ms : Z;
  cfg_check_interval_sec : Z;
  cfg_proxy_url : option string;
  cfg_wan_test_host : option string;
  cfg_wan_test_port : Z;
  cfg_lan_interface : option string
}.

(** Field updates ([mon->f = v]). *)
Definition with_timeout_ms (v : Z) (m : NetworkMonitor) : NetworkMonitor :=
  mkMonitor v (check_interval_sec m) (proxy_url m) (wan_servers m)
    (num_wan_servers m) (lan_interface m) (wan_up m) (lan_up m)
    (last_check_time m) (last_error m) (running m).
Definition with_check_interval_sec (v : Z) (m : NetworkMonitor) : NetworkMonitor :=
  mkMonitor (timeout_ms m) v (proxy_url m) (wan_servers m)
    (num_wan_servers m) (lan_interface m) (wan_up m) (lan_up m)
    (last_check_time m) (last_error m) (running m).
Definition with_proxy_url (v : string) (m : NetworkMonitor) : NetworkMonitor :=
  mkMonitor (timeout_ms m) (check_interval_sec m) v (wan_servers m)
    (num_wan_servers m) (lan_interface m) (wan_up m) (lan_up m)
    (last_check_time m) (last_error m) (running m).
Definition with_wan_servers (v : list WanServer) (m : NetworkMonitor) : NetworkMonitor :=
  mkMonitor (timeout_ms m) (check_interval_sec m) (proxy_url m) v
    (num_wan_servers m) (lan_interface m) (wan_up m) (lan_up m)
    (last_check_time m) (last_error m) (running m).
Definition with_num_wan_servers (v : Z) (m : NetworkMonitor) : NetworkMonitor :=
  mkMonitor (timeout_ms m) (check_interval_sec m) (proxy_url m) (wan_servers m)
    v (lan_interface m) (wan_up m) (lan_up m)
    (last_check_time m) (last_error m) (running m).
Definition with_lan_interface (v : string) (m : NetworkMonitor) : NetworkMonitor :=
  mkMonitor (timeout_ms m) (check_interval_sec m) (proxy_url m) (wan_servers m)
    (num_wan_servers m) v (wan_up m) (lan_up m)
    (last_check_time m) (last_error m) (running m).
Definition with_wan_up (v : bool) (m : NetworkMonitor) : NetworkMonitor :=
  mkMonitor (timeout_ms m) (check_interval_sec m) (proxy_url m) (wan_servers m)
    (num_wan_servers m) (lan_interface m) v (lan_up m)
    (last_check_time m) (last_error m) (running m).
Definition with_lan_up (v : bool) (m : NetworkMonitor) : NetworkMonitor :=
  mkMonitor (timeout_ms m) (check_interval_sec m) (proxy_url m) (wan_servers m)
    (num_wan_servers m) (lan_interface m) (wan_up m) v
    (last_check_time m) (last_error m) (running m).
Definition with_last_check_time (v : Z) (m : NetworkMonitor) : NetworkMonitor :=
  mkMonitor (timeout_ms m) (check_interval_sec m) (proxy_url m) (wan_servers m)
    (num_wan_servers m) (lan_interface m) (wan_up m) (lan_up m)
    v (last_error m) (running m).
Definition with_last_error (v : Z) (m : NetworkMonitor) : NetworkMonitor :=
  mkMonitor (timeout_ms m) (check_interval_sec m) (proxy_url m) (wan_servers m)
    (num_wan_servers m) (lan_interface m) (wan_up m) (lan_up m)
    (last_check_time m) v (running m).
Definition with_running (v : bool) (m : NetworkMonitor) : NetworkMonitor :=
  mkMonitor (timeout_ms m) (check_interval_sec m) (proxy_url m) (wan_servers m)
    (num_wan_servers m) (lan_interface m) (wan_up m) (lan_up m)
    (last_check_time m) (last_error m) v.

(** [strncpy(dst, src, n - 1); dst[n - 1] = '\0';] for a destination array
    of [n] bytes: the destination ends up holding the first [n - 1] bytes of
    [src] (all of it when it is shorter). *)
Definition strncpy_term (n : nat) (src : string) : string :=
  String.substring 0 (n - 1) src.

(** ** Events and environment *)

(** Names of the struct fields, for the access events. *)
Inductive field : Type :=
| Ftimeout_ms | Fcheck_interval_sec | Fproxy_url
| Fwan_host (i : nat) | Fwan_port (i : nat) | Fnum_wan_servers
| Flan_interface | Fwan_up | Flan_up | Flast_check_time | Flast_error
| Frunning.

Inductive sock_type : Type := SOCK_STREAM | SOCK_DGRAM.
Inductive sock_opt : Type := SO_SNDTIMEO | SO_RCVTIMEO.

(** Result of a system call: a value, or failure with the [errno] it sets. *)
Inductive sysres (A : Type) : Type :=
| Ok (a : A)
| Fail (code : Z).
Arguments Ok {A} a.
Arguments Fail {A} code.

(** What one execution of a function does that is visible outside it, in
    program order.  [EvConnect] carries the index of the server and the
    value of [retry] along with the arguments of the call. *)
Inductive event : Type :=
| EvLock                                   (* pthread_mutex_lock(&mon->lock) *)
| EvUnlock                                 (* pthread_mutex_unlock(&mon->lock) *)
| EvLoad (f : field)                       (* a read of mon->f *)
| EvStore (f : field)                      (* a write of mon->f *)
| EvSocket (ty : sock_type) (r : sysres N) (* socket(AF_INET, ty, 0) *)
| EvSetsockopt (fd : Z) (opt : sock_opt) (tv_sec tv_usec : Z)
| EvInetPton (src : string) (ret : Z)      (* inet_pton(AF_INET, src, ..) *)
| EvConnect (srv retry : nat) (fd : Z) (sin_port : Z) (r : sysres unit)
| EvIoctl (fd : Z) (ifr_name : string) (r : sysres Z)   (* SIOCGIFFLAGS *)
| EvClose (fd : Z)
| EvUsleep (usec : Z)
| EvSleep (sec : Z)
| EvFopen (r : sysres unit)                (* fopen("/proc/net/route","r") *)
| EvFgets (line : string)
| EvFclose
| EvTime (t : Z)                           (* time(NULL) *)
| EvMutexDestroy                           (* pthread_mutex_destroy(&mon->lock) *)
| EvFree.                                  (* free(mon) *)

(** The answers of the operating system and of the C library during one
    check cycle.  [env_wan_socket i] and [env_wan_connect i r] answer the
    [socket] call made for server [i] and its [r]-th [connect]; each is
    asked at most once per run of [check_wan].  [env_route_scan] stands for
    [sscanf(line, "%s %lx %lx %lx", ..) == 4] together with the four values
    it stores. *)
Record Env : Type := mkEnv {
  env_wan_socket : nat -> sysres N;
  env_inet_pton : string -> bool;
  env_wan_connect : nat -> nat -> sysres unit;
  env_lan_socket : sysres N;
  env_ioctl_flags : string -> sysres Z;
  env_route_file : sysres (list string);
  env_route_scan : string -> option (string * Z * Z * Z);
  env_time : Z
}.

(** ** The monad: monitor state, thread-local [errno], trace *)

Record cpu : Type := mkCpu {
  mon : NetworkMonitor;
  errno : Z
}.

Record outcome (A : Type) : Type := mkOut {
  val : A;
  post : cpu;
  trace : list event
}.
Arguments mkOut {A} val post trace.
Arguments val {A} _.
Arguments post {A} _.
Arguments trace {A} _.

Definition M (A : Type) : Type := cpu -> outcome A.

Definition ret {A : Type} (a : A) : M A := fun s => mkOut a s [].

Definition bind {A B : Type} (m : M A) (k : A -> M B) : M B :=
  fun s =>
    match m s with
    | mkOut a s1 t1 =>
        match k a s1 with
        | mkOut b s2 t2 => mkOut b s2 (t1 ++ t2)
        end
    end.

Declare Scope cmd_scope.
Delimit Scope cmd_scope with cmd.
Notation "x <- m ;; k" := (bind m (fun x => k))
  (at level 20, m at level 99, k at level 200, only parsing) : cmd_scope.
Notation "m ;; k" := (bind m (fun _ => k))
  (at level 100, k at level 200, only parsing, right associativity) : cmd_scope.
Local Open Scope cmd_scope.

Definition emit (e : event) : M unit := fun s => mkOut tt s [e].

(** [mon->f] as an rvalue. *)
Definition load {A : Type} (f : field) (get : NetworkMonitor -> A) : M A :=
  fun s => mkOut (get (mon s)) s [EvLoad f].

(** [mon->f = v]. *)
Definition store (f : field) (upd : NetworkMonitor -> NetworkMonitor) : M unit :=
  fun s => mkOut tt (mkCpu (upd (mon s)) (errno s)) [EvStore f].

(** [errno] as an rvalue (thread-local, not a field of the monitor). *)
Definition get_errno : M Z := fun s => mkOut (errno s) s [].

Definition set_errno (e : Z) : M unit :=
  fun s => mkOut tt (mkCpu (mon s) e) [].

Definition pthread_mutex_lock : M unit := emit EvLock.
Definition pthread_mutex_unlock : M unit := emit EvUnlock.

(** ** System calls

    A failing call returns -1 and sets [errno]; a call that succeeds leaves
    [errno] alone.  A file descriptor is a natural number.  [close], [setsockopt], [usleep] and [sleep] have their
    results ignored by the C code and are taken to succeed. *)

Definition sys_socket (ty : sock_type) (r : sysres N) : M Z :=
  match r with
  | Ok fd => emit (EvSocket ty (Ok fd)) ;; ret (Z.of_N fd)
  | Fail e => set_errno e ;; emit (EvSocket ty (Fail e)) ;; ret (-1)
  end.

Definition sys_setsockopt (fd : Z) (opt : sock_opt) (tv : Z * Z) : M unit :=
  emit (EvSetsockopt fd opt (fst tv) (snd tv)).

(** [inet_pton(AF_INET, src, ..)] returns 1 on success and 0 when [src] is
    not a dotted quad; in the latter case it does not touch [errno].  (The
    result -1 is for an unknown address family only.) *)
Definition sys_inet_pton (env : Env) (src : string) : M Z :=
  let r := if env_inet_pton env src then 1 else 0 in
  emit (EvInetPton src r) ;; ret r.

(** [htons(srv->port)]: the port as a 16-bit value. *)
Definition htons (p : Z) : Z := p mod 65536.

Definition sys_connect (env : Env) (i retry : nat) (fd sin_port : Z) : M Z :=
  match env_wan_connect env i retry with
  | Ok _ => emit (EvConnect i retry fd sin_port (Ok tt)) ;; ret 0
  | Fail e => set_errno e ;; emit (EvConnect i retry fd sin_port (Fail e)) ;; ret (-1)
  end.

(** [ioctl(sock, SIOCGIFFLAGS, &ifr)]: on success the flags word. *)
Definition sys_ioctl_flags (env : Env) (fd : Z) (name : string) : M (option Z) :=
  match env_ioctl_flags env name with
  | Ok flags => emit (EvIoctl fd name (Ok flags)) ;; ret (Some flags)
  | Fail e => set_errno e ;; emit (EvIoctl fd name (Fail e)) ;; ret None
  end.

Definition sys_close (fd : Z) : M unit := emit (EvClose fd).
Definition sys_usleep (usec : Z) : M unit := emit (EvUsleep usec).
Definition sys_sleep (sec : Z) : M unit := emit (EvSleep sec).
Definition sys_time (env : Env) : M Z :=
  emit (EvTime (env_time env)) ;; ret (env_time env).

(** ** Internal helpers of [network.c] *)

(** [mon->wan_servers[i]]; the array has [MAX_WAN_SERVERS] slots and the C
    code never indexes past [num_wan_servers]. *)
Definition server_at (i : nat) (m : NetworkMonitor) : WanServer :=
  default (mkWanServer "" 0) (wan_servers m !! i).

(** [struct timeval tv = { .tv_sec = timeout_ms / 1000,
                           .tv_usec = (timeout_ms % 1000) * 1000 };] *)
Definition timeval_of_ms (ms1 ms2 : Z) : Z * Z :=
  (Z.quot ms1 1000, Z.rem ms2 1000 * 1000).

(** The retry loop of [check_wan]:
    [for (int retry = 0; retry < 3; retry++) { ... }], with [n] the number
    of iterations left.  [true] means the function returned [true] from
    inside the loop; [false] means the loop ran to its end. *)
Fixpoint connect_retries (env : Env) (i : nat) (fd sin_port : Z)
    (n retry : nat) : M bool :=
  match n with
  | O => ret false
  | S n' =>
      r <- sys_connect env i retry fd sin_port ;;
      if r =? 0 then
        sys_close fd ;;
        store Flast_error (with_last_error 0) ;;
        ret true
      else
        e <- get_errno ;;
        store Flast_error (with_last_error e) ;;
        sys_usleep (Z.shiftl 100000 (Z.of_nat retry)) ;;
        connect_retries env i fd sin_port n' (S retry)
  end.

(** One iteration of the server loop of [check_wan].  [true]: the function
    returned [true]; [false]: [continue] or fall through to the next
    server. *)
Definition probe_server (env : Env) (i : nat) : M bool :=
  fd <- sys_socket SOCK_STREAM (env_wan_socket env i) ;;
  if fd <? 0 then
    e <- get_errno ;;
    store Flast_error (with_last_error e) ;;
    ret false
  else
    ms1 <- load Ftimeout_ms timeout_ms ;;
    ms2 <- load Ftimeout_ms timeout_ms ;;
    let tv := timeval_of_ms ms1 ms2 in
    sys_setsockopt fd SO_SNDTIMEO tv ;;
    sys_setsockopt fd SO_RCVTIMEO tv ;;
    p <- load (Fwan_port i) (fun m => port (server_at i m)) ;;
    h <- load (Fwan_host i) (fun m => host (server_at i m)) ;;
    r <- sys_inet_pton env h ;;
    if r <=? 0 then
      e <- get_errno ;;
      store Flast_error (with_last_error e) ;;
      sys_close fd ;;
      ret false
    else
      hit <- connect_retries env i fd (htons p) 3 0 ;;
      if hit then ret true
      else sys_close fd ;; ret false.

(** [for (int i = 0; i < mon->num_wan_servers; i++)], with [n] the number
    of iterations left; the loop condition reads the field every time. *)
Fixpoint wan_loop (env : Env) (n i : nat) : M bool :=
  _ <- load Fnum_wan_servers num_wan_servers ;;
  match n with
  | O => ret false
  | S n' =>
      hit <- probe_server env i ;;
      if hit then ret true else wan_loop env n' (S i)
  end.

(** [static bool check_wan(NetworkMonitor* mon)].  Nothing in the function
    writes [num_wan_servers], so the trip count of the server loop is the
    value the field has on entry. *)
Definition check_wan (env : Env) : M bool :=
  fun s => wan_loop env (Z.to_nat (num_wan_servers (mon s))) 0 s.

(** [static bool check_lan(NetworkMonitor* mon)]. *)
Definition check_lan (env : Env) : M bool :=
  fd <- sys_socket SOCK_DGRAM (env_lan_socket env) ;;
  if fd <? 0 then
    e <- get_errno ;;
    store Flast_error (with_last_error e) ;;
    ret false
  else
    name <- load Flan_interface lan_interface ;;
    r <- sys_ioctl_flags env fd (strncpy_term IF_NAMESIZE name) ;;
    match r with
    | None =>
        e <- get_errno ;;
        store Flast_error (with_last_error e) ;;
        sys_close fd ;;
        ret false
    | Some flags =>
        sys_close fd ;;
        let up := negb (Z.land flags IFF_UP =? 0)
                  && negb (Z.land flags IFF_RUNNING =? 0) in
        v <- (if up then ret 0 else load Flast_error last_error) ;;
        store Flast_error (with_last_error v) ;;
        ret up
    end.

(** The test of [detect_lan_interface] on a scanned line:
    [dest == 0 && (flags & RTF_GATEWAY) && (flags & RTF_UP) && gw != 0]. *)
Definition is_default_route (dest gw flags : Z) : bool :=
  (dest =? 0)
  && negb (Z.land flags RTF_GATEWAY =? 0)
  && negb (Z.land flags RTF_UP =? 0)
  && negb (gw =? 0).

(** The [while (fgets(line, sizeof(line), fp))] loop over the lines that are
    left in the file.  The result is [Some iface] when the loop left through
    [break] ([found = true]) and [None] when [fgets] ran out of lines.  The
    second [sscanf(line, "%s", iface)] stores the same first token that the
    first call stored in [dummy]. *)
Fixpoint scan_routes (env : Env) (lines : list string) : M (option string) :=
  match lines with
  | [] => ret None
  | line :: rest =>
      emit (EvFgets line) ;;
      match env_route_scan env line with
      | None => scan_routes env rest
      | Some (name, dest, gw, flags) =>
          if is_default_route dest gw flags then ret (Some name)
          else scan_routes env rest
      end
  end.

(** [static bool detect_lan_interface(NetworkMonitor* mon)]. *)
Definition detect_lan_interface (env : Env) : M bool :=
  match env_route_file env with
  | Fail e =>
      set_errno e ;;
      emit (EvFopen (Fail e)) ;;
      e' <- get_errno ;;
      store Flast_error (with_last_error e') ;;
      ret false
  | Ok lines =>
      emit (EvFopen (Ok tt)) ;;
      found <- scan_routes env lines ;;
      emit EvFclose ;;
      match found with
      | Some iface =>
          store Flan_interface (with_lan_interface (strncpy_term IF_NAMESIZE iface)) ;;
          store Flast_error (with_last_error 0) ;;
          ret true
      | None =>
          store Flast_error (with_last_error 0) ;;
          ret false
      end
  end.

(** ** The background loop, [monitor_thread_func]

    One turn of [while (true)] is cut at the places where the mutex is
    released, so that the pieces can be looked at one by one; the
    interleaving model further down cuts the checks again, at every
    sleep. *)

(** Top of the loop: the flag check under the lock.  [None] is [break]. *)
Definition loop_flag_check : M (option Z) :=
  pthread_mutex_lock ;;
  r <- load Frunning running ;;
  if negb r then
    pthread_mutex_unlock ;;
    ret None
  else
    interval <- load Fcheck_interval_sec check_interval_sec ;;
    pthread_mutex_unlock ;;
    ret (Some interval).

(** [bool new_wan = check_wan(mon); bool new_lan = check_lan(mon);] *)
Definition loop_run_checks (env : Env) : M (bool * bool) :=
  new_wan <- check_wan env ;;
  new_lan <- check_lan env ;;
  ret (new_wan, new_lan).

(** The update of the status under the lock. *)
Definition loop_publish (env : Env) (new_wan new_lan : bool) : M unit :=
  pthread_mutex_lock ;;
  store Fwan_up (with_wan_up new_wan) ;;
  store Flan_up (with_lan_up new_lan) ;;
  t <- sys_time env ;;
  store Flast_check_time (with_last_check_time t) ;;
  pthread_mutex_unlock.

(** One turn of the loop; [false] when the loop was left. *)
Definition monitor_iteration (env : Env) : M bool :=
  r <- loop_flag_check ;;
  match r with
  | None => ret false
  | Some interval =>
      st <- loop_run_checks env ;;
      loop_publish env (fst st) (snd st) ;;
      sys_sleep interval ;;
      ret true
  end.

(** The loop run against one environment per cycle; it ends when the flag
    is found cleared or when the cycles that are described run out. *)
Fixpoint monitor_thread_func (envs : list Env) : M unit :=
  match envs with
  | [] => ret tt
  | env :: rest =>
      again <- monitor_iteration env ;;
      if again then monitor_thread_func rest else ret tt
  end.

(** ** Public API

    The accessors and mutators of [network.h].  The debug dump
    [network_monitor_to_string] only formats fields that it reads under the
    lock and is left out. *)

Definition get_wan_status : M bool :=
  pthread_mutex_lock ;;
  status <- load Fwan_up wan_up ;;
  pthread_mutex_unlock ;;
  ret status.

Definition get_lan_status : M bool :=
  pthread_mutex_lock ;;
  status <- load Flan_up lan_up ;;
  pthread_mutex_unlock ;;
  ret status.

Definition get_last_check_time : M Z :=
  pthread_mutex_lock ;;
  timestamp <- load Flast_check_time last_check_time ;;
  pthread_mutex_unlock ;;
  ret timestamp.

Definition get_last_error : M Z :=
  pthread_mutex_lock ;;
  err <- load Flast_error last_error ;;
  pthread_mutex_unlock ;;
  ret err.

Definition set_timeout_ms (ms : Z) : M unit :=
  pthread_mutex_lock ;;
  store Ftimeout_ms (with_timeout_ms (if ms >? 0 then ms else 1000)) ;;
  pthread_mutex_unlock.

Definition set_check_interval_sec (sec : Z) : M unit :=
  pthread_mutex_lock ;;
  store Fcheck_interval_sec (with_check_interval_sec (if sec >? 0 then sec else 5)) ;;
  pthread_mutex_unlock.

Definition set_proxy (proxy : option string) : M unit :=
  pthread_mutex_lock ;;
  store Fproxy_url (with_proxy_url (strncpy_term HOST_SIZE (default "" proxy))) ;;
  pthread_mutex_unlock.

(** [mon->wan_servers[i].host = h] and [mon->wan_servers[i].port = p]. *)
Definition with_wan_host (i : nat) (h : string) (m : NetworkMonitor) : NetworkMonitor :=
  with_wan_servers (alter (fun s => mkWanServer h (port s)) i (wan_servers m)) m.
Definition with_wan_port (i : nat) (p : Z) (m : NetworkMonitor) : NetworkMonitor :=
  with_wan_servers (alter (fun s => mkWanServer (host s) p) i (wan_servers m)) m.

Definition set_wan_test_host (h : option string) : M unit :=
  pthread_mutex_lock ;;
  store (Fwan_host 0)
    (with_wan_host 0 (strncpy_term HOST_SIZE (default "8.8.8.8" h))) ;;
  pthread_mutex_unlock.

Definition set_wan_test_port (p : Z) : M unit :=
  pthread_mutex_lock ;;
  store (Fwan_port 0) (with_wan_port 0 (if p >? 0 then p else 53)) ;;
  pthread_mutex_unlock.

Definition set_lan_interface (iface : option string) : M unit :=
  pthread_mutex_lock ;;
  store Flan_interface
    (with_lan_interface (strncpy_term IF_NAMESIZE (default "eth0" iface))) ;;
  pthread_mutex_unlock.

(** [network_monitor_destroy] on a non-NULL handle. *)
Definition network_monitor_destroy : M unit :=
  pthread_mutex_lock ;;
  store Frunning (with_running false) ;;
  pthread_mutex_unlock ;;
  sys_usleep 100000 ;;
  emit EvMutexDestroy ;;
  emit EvFree.

(** ** The constructor, [network_monitor_new] *)

(** What the constructor asks of the system besides the calls of
    [detect_lan_interface] and [check_lan]. *)
Record CtorEnv : Type := mkCtorEnv {
  ctor_malloc_ok : bool;
  ctor_socket : sysres N;
  ctor_mutex_init_ok : bool;
  ctor_thread_create_ok : bool
}.

(** [const WanServer defaults[]]. *)
Definition defaults : list WanServer :=
  [ mkWanServer "8.8.8.8" 53;
    mkWanServer "1.1.1.1" 53;
    mkWanServer "9.9.9.9" 53;
    mkWanServer "208.67.222.222" 53 ].

(** [mon->wan_servers[i] = v] (struct assignment). *)
Definition with_wan_server (i : nat) (v : WanServer) (m : NetworkMonitor) : NetworkMonitor :=
  with_wan_servers (<[i := v]> (wan_servers m)) m.

(** [for (int i = 0; i < mon->num_wan_servers; i++)
       mon->wan_servers[i] = defaults[i];] with [n] iterations left. *)
Fixpoint seed_defaults (n i : nat) : M unit :=
  _ <- load Fnum_wan_servers num_wan_servers ;;
  match n with
  | O => ret tt
  | S n' =>
      store (Fwan_host i)
        (with_wan_server i (default (mkWanServer "" 0) (defaults !! i))) ;;
      seed_defaults n' (S i)
  end.

(** [*s] is non-NUL: the C string is not empty. *)
Definition nonempty (s : string) : bool :=
  match s with
  | EmptyString => false
  | String _ _ => true
  end.

(** The constructor, block by block as the C function is laid out.

    "Initialize config with defaults or provided values" and "Initialize
    WAN servers". *)
Definition init_config (initial_cfg : option NetworkConfig) : M unit :=
  store Ftimeout_ms (with_timeout_ms
    (match initial_cfg with
     | Some c => if cfg_timeout_ms c >? 0 then cfg_timeout_ms c else 1000
     | None => 1000
     end)) ;;
  store Fcheck_interval_sec (with_check_interval_sec
    (match initial_cfg with
     | Some c => if cfg_check_interval_sec c >? 0
                 then cfg_check_interval_sec c else 5
     | None => 5
     end)) ;;
  store Fproxy_url (with_proxy_url (strncpy_term HOST_SIZE
    (match initial_cfg with
     | Some c => default "" (cfg_proxy_url c)
     | None => ""
     end))) ;;
  store Fnum_wan_servers (with_num_wan_servers 4) ;;
  seed_defaults 4 0 ;;
  match initial_cfg with
  | Some (mkConfig _ _ _ (Some h) p _) =>
      if p >? 0 then
        store (Fwan_host 0) (with_wan_host 0 (strncpy_term HOST_SIZE h)) ;;
        store (Fwan_port 0) (with_wan_port 0 p)
      else ret tt
  | _ => ret tt
  end.

(** The [else] branch of "Initialize LAN interface": detection, with the
    fallback to ["lo"]. *)
Definition detect_or_loopback (env : Env) : M unit :=
  found <- detect_lan_interface env ;;
  if found then ret tt
  else store Flan_interface (with_lan_interface (strncpy_term IF_NAMESIZE "lo")).

(** "Initialize LAN interface (auto-detect if not provided)". *)
Definition init_lan_interface (env : Env) (initial_cfg : option NetworkConfig) : M unit :=
  match initial_cfg with
  | Some (mkConfig _ _ _ _ _ (Some iface)) =>
      if nonempty iface then
        store Flan_interface (with_lan_interface (strncpy_term IF_NAMESIZE iface))
      else detect_or_loopback env
  | _ => detect_or_loopback env
  end.

(** "Validate LAN interface; fail early if invalid":
    [sock < 0 || !check_lan(mon)], then the [close] that both branches do.
    [check_lan] is not called when the socket did not open. *)
Definition validate_lan_interface (sys : CtorEnv) (env : Env) : M bool :=
  sock <- sys_socket SOCK_DGRAM (ctor_socket sys) ;;
  usable <- (if sock <? 0 then ret false else check_lan env) ;;
  (if sock >=? 0 then sys_close sock else ret tt) ;;
  ret usable.

(** "Initialize state". *)
Definition init_state : M unit :=
  store Fwan_up (with_wan_up false) ;;
  store Flan_up (with_lan_up false) ;;
  store Flast_check_time (with_last_check_time 0) ;;
  store Flast_error (with_last_error 0) ;;
  store Frunning (with_running true).

(** "Initialize mutex" and "Start background thread"; [false] is the
    [return NULL] of either failure. *)
Definition start_thread (sys : CtorEnv) : M bool :=
  if negb (ctor_mutex_init_ok sys) then
    emit EvFree ;; ret false
  else if negb (ctor_thread_create_ok sys) then
    emit EvMutexDestroy ;; emit EvFree ;; ret false
  else ret true.

(** [NetworkMonitorHandle network_monitor_new(const NetworkConfig *initial_cfg)],
    run on the uninitialised block that [malloc] returned (the monitor of
    the start state).  The result is [true] when a handle is returned and
    [false] for [NULL]. *)
Definition network_monitor_new (sys : CtorEnv) (env : Env)
    (initial_cfg : option NetworkConfig) : M bool :=
  if negb (ctor_malloc_ok sys) then ret false
  else
    init_config initial_cfg ;;
    init_lan_interface env initial_cfg ;;
    usable <- validate_lan_interface sys env ;;
    if negb usable then
      emit EvFree ;;
      ret false
    else
      init_state ;;
      start_thread sys.

(** ** Running a computation on a monitor *)

(** The monitor after [m], started on monitor [mo] with [errno = e]. *)
Definition exec {A : Type} (m : M A) (mo : NetworkMonitor) (e : Z) : NetworkMonitor :=
  mon (post (m (mkCpu mo e))).

(** The value, and the trace, of the same run. *)
Definition result {A : Type} (m : M A) (mo : NetworkMonitor) (e : Z) : A :=
  val (m (mkCpu mo e)).
Definition events {A : Type} (m : M A) (mo : NetworkMonitor) (e : Z) : list event :=
  trace (m (mkCpu mo e)).

(** ** A concrete environment

    [inet_pton4] follows the C library's parser for [AF_INET]: four decimal
    octets of at most 255, separated by single dots, no leading zero in a
    multi-digit octet. *)
Definition digit_of (c : ascii) : option Z :=
  let n := Z.of_N (Ascii.N_of_ascii c) in
  if (48 <=? n) && (n <=? 57) then Some (n - 48) else None.

Fixpoint inet_pton4_from (s : string) (saw_digit : bool) (octets : nat) (cur : Z) : bool :=
  match s with
  | EmptyString => negb (octets <? 4)%nat
  | String c rest =>
      match digit_of c with
      | Some d =>
          let new := cur * 10 + d in
          if saw_digit && (cur =? 0) then false
          else if new >? 255 then false
          else if saw_digit then inet_pton4_from rest true octets new
          else if (4 <? S octets)%nat then false
          else inet_pton4_from rest true (S octets) new
      | None =>
          if Ascii.eqb c "."%char && saw_digit then
            if (octets =? 4)%nat then false
            else inet_pton4_from rest false octets 0
          else false
      end
  end.

Definition inet_pton4 (src : string) : bool :=
  inet_pton4_from src false 0 0.

(** One line of [/proc/net/route] as [sscanf] reads it, for the lines used
    in the examples below: the header, a default route through [eth0], and a
    link-local route. *)
Definition route_header : string :=
  "Iface Destination Gateway Flags RefCnt Use Metric Mask MTU Window IRTT".
Definition route_default_eth0 : string :=
  "eth0 00000000 0101A8C0 0003 0 0 100 00000000 0 0 0".
Definition route_local_eth0 : string :=
  "eth0 0001A8C0 00000000 0001 0 0 100 00FFFFFF 0 0 0".

Definition scan_known_lines (line : string) : option (string * Z * Z * Z) :=
  if String.eqb line route_default_eth0 then Some ("eth0", 0x0, 0x0101A8C0, 0x3)
  else if String.eqb line route_local_eth0 then Some ("eth0", 0x0001A8C0, 0x0, 0x1)
  else None.

(** A host whose network is unreachable: every [connect] fails with
    [ENETUNREACH] (101); the interface [lo] is up and running
    ([IFF_UP | IFF_LOOPBACK | IFF_RUNNING] = 0x49), any other name is
    unknown ([ENODEV], 19). *)
Definition env_offline : Env :=
  mkEnv (fun i => Ok (3 + N.of_nat i)%N)
        inet_pton4
        (fun _ _ => Fail 101)
        (Ok 7%N)
        (fun name => if String.eqb name "lo" then Ok 0x49 else Fail 19)
        (Ok [route_header; route_local_eth0])
        scan_known_lines
        1760000000.

(** The same host with a default route through [eth0] (up and running,
    flags 0x1043), where the first server refuses the first connection
    attempt ([ECONNREFUSED], 111) and accepts the second. *)
Definition env_online : Env :=
  mkEnv (fun i => Ok (3 + N.of_nat i)%N)
        inet_pton4
        (fun i r => match i, r with O, O => Fail 111 | _, _ => Ok tt end)
        (Ok 7%N)
        (fun name => if String.eqb name "lo" then Ok 0x49
                     else if String.eqb name "eth0" then Ok 0x1043
                     else Fail 19)
        (Ok [route_header; route_local_eth0; route_default_eth0])
        scan_known_lines
        1760000000.

Definition ctor_ok : CtorEnv := mkCtorEnv true (Ok 5%N) true true.

(** An uninitialised block: four server slots with arbitrary content. *)
Definition raw_block : NetworkMonitor :=
  mkMonitor (-7) 0 "??" (replicate 4 (mkWanServer "garbage" (-1))) 99 "x"
    true true 12345 77 false.

(** The configuration of [test_network.c]. *)
Definition test_cfg : NetworkConfig :=
  mkConfig 500 2 None (Some "8.8.8.8") 53 (Some "lo").

(** The monitor that [network_monitor_new(&cfg)] of the test program
    returns on the off-line host. *)
Definition test_monitor : NetworkMonitor :=
  exec (network_monitor_new ctor_ok env_offline (Some test_cfg)) raw_block 0.

(** * Vocabulary of the statements *)

(** ** Framing: what the checks leave untouched *)

(** [m'] differs from [m] at most in [last_error]. *)
Definition only_last_error (m m' : NetworkMonitor) : Prop :=
  m' = with_last_error (last_error m') m.

(** A computation that writes no field of the monitor except
    [last_error], from any start state. *)
Definition frames {A : Type} (c : M A) : Prop :=
  forall s, only_last_error (mon s) (mon (post (c s))).

(** ** The LAN check *)

(** The name that [check_lan] hands to [ioctl]. *)
Definition ifr_name_of (s : cpu) : string :=
  strncpy_term IF_NAMESIZE (lan_interface (mon s)).

(** A cable unplugged from [eth0]: the interface is up but not running
    (flags 0x1003), and every connection attempt fails with [ENETUNREACH]. *)
Definition env_unplugged : Env :=
  mkEnv (fun i => Ok (3 + N.of_nat i)%N)
        inet_pton4
        (fun _ _ => Fail 101)
        (Ok 7%N)
        (fun name => if String.eqb name "eth0" then Ok 0x1003 else Fail 19)
        (Ok [route_header])
        scan_known_lines
        1760000000.

Definition monitor_eth0 : NetworkMonitor :=
  exec (set_lan_interface (Some "eth0")) test_monitor 0.

(** ** [errno] and the trace *)

(** The [errno] that an event leaves behind, for the calls that can fail. *)
Definition failure_code (ev : event) : option Z :=
  match ev with
  | EvSocket _ (Fail e) => Some e
  | EvConnect _ _ _ _ (Fail e) => Some e
  | EvIoctl _ _ (Fail e) => Some e
  | EvFopen (Fail e) => Some e
  | _ => None
  end.

(** The code of the most recent failed call of a trace. *)
Fixpoint last_failure (tr : list event) : option Z :=
  match tr with
  | [] => None
  | ev :: rest =>
      match last_failure rest with
      | Some e => Some e
      | None => failure_code ev
      end
  end.

(** After [c], [errno] is the code of the last failed call of [c], or what
    it was before when no call failed. *)
Definition tracks_errno {A : Type} (c : M A) : Prop :=
  forall s, errno (post (c s)) = default (errno s) (last_failure (trace (c s))).

(** ** The WAN check *)

(** The [r]-th connection attempt to server [i] is accepted. *)
Definition accepts (env : Env) (i r : nat) : bool :=
  match env_wan_connect env i r with
  | Ok _ => true
  | Fail _ => false
  end.

(** Server [i] gets as far as [connect]: its socket opens and its host is
    an address that [inet_pton] takes. *)
Definition can_connect (env : Env) (m : NetworkMonitor) (i : nat) : bool :=
  match env_wan_socket env i with
  | Ok _ => env_inet_pton env (host (server_at i m))
  | Fail _ => false
  end.

(** A [connect] that returned 0. *)
Definition connect_ok (ev : event) : bool :=
  match ev with
  | EvConnect _ _ _ _ (Ok _) => true
  | _ => false
  end.

(** The events with which a successful check ends: the accepted [connect]
    of server [j] at retry [r], the [close], and [mon->last_error = 0]. *)
Definition success_tail (j r : nat) (fd p : Z) : list event :=
  [EvConnect j r fd p (Ok tt); EvClose fd; EvStore Flast_error].

(** The calls that [probe_server] makes on a socket before the first
    [connect]: the two timeouts, and the parse of the address. *)
Definition setup_events (env : Env) (m : NetworkMonitor) (i : nat) (fd : N) : list event :=
  let tv := timeval_of_ms (timeout_ms m) (timeout_ms m) in
  [ EvSocket SOCK_STREAM (Ok fd);
    EvLoad Ftimeout_ms; EvLoad Ftimeout_ms;
    EvSetsockopt (Z.of_N fd) SO_SNDTIMEO (fst tv) (snd tv);
    EvSetsockopt (Z.of_N fd) SO_RCVTIMEO (fst tv) (snd tv);
    EvLoad (Fwan_port i); EvLoad (Fwan_host i);
    EvInetPton (host (server_at i m))
      (if env_inet_pton env (host (server_at i m)) then 1 else 0) ].

(** A trace in which some call failed. *)
Definition has_failure (tr : list event) : Prop := is_Some (last_failure tr).

(** ** Retries and backoff *)

(** The calls that leave the program, as opposed to lock operations and
    accesses to the fields of the monitor. *)
Definition is_syscall (ev : event) : bool :=
  match ev with
  | EvLock | EvUnlock | EvLoad _ | EvStore _ => false
  | _ => true
  end.

Definition syscalls (tr : list event) : list event := List.filter is_syscall tr.

(** The calls made for server [j] when its socket [fd] opens, its address
    parses, and its three connection attempts fail with [e0], [e1], [e2]:
    three [connect]s, each followed by a sleep of 100, 200 and 400
    milliseconds (in microseconds), then the [close]. *)
Definition failed_server_calls (env : Env) (m : NetworkMonitor) (j : nat)
    (fd : N) (e0 e1 e2 : Z) : list event :=
  let tv := timeval_of_ms (timeout_ms m) (timeout_ms m) in
  let p := htons (port (server_at j m)) in
  [ EvSocket SOCK_STREAM (Ok fd);
    EvSetsockopt (Z.of_N fd) SO_SNDTIMEO (fst tv) (snd tv);
    EvSetsockopt (Z.of_N fd) SO_RCVTIMEO (fst tv) (snd tv);
    EvInetPton (host (server_at j m))
      (if env_inet_pton env (host (server_at j m)) then 1 else 0);
    EvConnect j 0 (Z.of_N fd) p (Fail e0); EvUsleep 100000;
    EvConnect j 1 (Z.of_N fd) p (Fail e1); EvUsleep 200000;
    EvConnect j 2 (Z.of_N fd) p (Fail e2); EvUsleep 400000;
    EvClose (Z.of_N fd) ].

(** A [connect] event is for a server before, at, or after index [j]. *)
Definition connects_below (j : nat) (ev : event) : Prop :=
  match ev with
  | EvConnect k _ _ _ _ => (k < j)%nat
  | _ => True
  end.
Definition connects_at (j : nat) (ev : event) : Prop :=
  match ev with
  | EvConnect k _ _ _ _ => k = j
  | _ => True
  end.
Definition connects_from (j : nat) (ev : event) : Prop :=
  match ev with
  | EvConnect k _ _ _ _ => (j <= k)%nat
  | _ => True
  end.

(** ** Interface detection *)

(** A line of the routing table is a default route through a gateway: it
    scans as four fields, the destination is 0.0.0.0, the gateway flag
    (bit 1) and the up flag (bit 0) are set, and the gateway is not
    0.0.0.0.  [name] is the interface of the line. *)
Definition default_route_via (env : Env) (line name : string) : Prop :=
  exists dest gw flags,
    env_route_scan env line = Some (name, dest, gw, flags) /\
    dest = 0 /\ Z.testbit flags 1 = true /\ Z.testbit flags 0 = true /\ gw <> 0.

Definition is_default_route_line (env : Env) (line : string) : Prop :=
  exists name, default_route_via env line name.

(** ** Reachable monitors *)

(** The steps that change a live monitor: the calls of the public API, and
    the pieces of the background loop between two releases of the mutex. *)
Inductive op : Type :=
| OpGetWanStatus
| OpGetLanStatus
| OpGetLastCheckTime
| OpGetLastError
| OpSetTimeoutMs (ms : Z)
| OpSetCheckIntervalSec (sec : Z)
| OpSetProxy (proxy : option string)
| OpSetWanTestHost (h : option string)
| OpSetWanTestPort (p : Z)
| OpSetLanInterface (iface : option string)
| OpLoopFlagCheck
| OpLoopRunChecks (env : Env)
| OpLoopPublish (env : Env) (new_wan new_lan : bool)
| OpDestroy.

Definition run_op (o : op) : M unit :=
  match o with
  | OpGetWanStatus => get_wan_status ;; ret tt
  | OpGetLanStatus => get_lan_status ;; ret tt
  | OpGetLastCheckTime => get_last_check_time ;; ret tt
  | OpGetLastError => get_last_error ;; ret tt
  | OpSetTimeoutMs ms => set_timeout_ms ms
  | OpSetCheckIntervalSec sec => set_check_interval_sec sec
  | OpSetProxy proxy => set_proxy proxy
  | OpSetWanTestHost h => set_wan_test_host h
  | OpSetWanTestPort p => set_wan_test_port p
  | OpSetLanInterface iface => set_lan_interface iface
  | OpLoopFlagCheck => loop_flag_check ;; ret tt
  | OpLoopRunChecks env => loop_run_checks env ;; ret tt
  | OpLoopPublish env new_wan new_lan => loop_publish env new_wan new_lan
  | OpDestroy => network_monitor_destroy
  end.

(** The monitors that a program can hold: what [network_monitor_new]
    returned (run on a block with room for [MAX_WAN_SERVERS] servers), and
    whatever the steps above make of it. *)
Inductive Reachable : NetworkMonitor -> Prop :=
| Reach_new sys env cfg raw e :
    length (wan_servers raw) = Z.to_nat MAX_WAN_SERVERS ->
    result (network_monitor_new sys env cfg) raw e = true ->
    Reachable (exec (network_monitor_new sys env cfg) raw e)
| Reach_op m o e :
    Reachable m ->
    Reachable (exec (run_op o) m e).

(** Both numeric settings are strictly positive. *)
Definition valid_config (m : NetworkMonitor) : Prop :=
  0 < timeout_ms m /\ 0 < check_interval_sec m.

(** An entry that [check_wan] can use: a dotted-quad host and a port. *)
Definition valid_server (srv : WanServer) : Prop :=
  inet_pton4 (host srv) = true /\ 0 < port srv < 65536.

(** The part of the configuration that the constructor fixes before it
    turns to the LAN interface. *)
Definition config_of (m : NetworkMonitor) : Z * Z * string * list WanServer * Z :=
  (timeout_ms m, check_interval_sec m, proxy_url m, wan_servers m, num_wan_servers m).

(** [c] leaves the projection [proj] of the monitor as it was. *)
Definition keeps {A B : Type} (proj : NetworkMonitor -> B) (c : M A) : Prop :=
  forall s, proj (mon (post (c s))) = proj (mon s).

(** What every reachable monitor satisfies. *)
Definition monitor_inv (m : NetworkMonitor) : Prop :=
  valid_config m /\
  num_wan_servers m = MAX_WAN_SERVERS /\
  exists first, wan_servers m = first :: drop 1 defaults.

(** A monitor with a proxy, a first server and an interface of its own. *)
Definition configured_monitor : NetworkMonitor :=
  exec (run_op (OpSetWanTestPort 443))
    (exec (run_op (OpSetWanTestHost (Some "1.1.1.1")))
       (exec (run_op (OpSetProxy (Some "http://example-proxy:8080")))
          test_monitor 0) 0) 0.

(** ** Lock discipline *)

(** An access to a field of the monitor. *)
Definition is_access (ev : event) : bool :=
  match ev with
  | EvLoad _ | EvStore _ => true
  | _ => false
  end.

(** Network I/O and sleeping: sockets, [connect], [ioctl], [usleep],
    [sleep]. *)
Definition is_network_io (ev : event) : bool :=
  match ev with
  | EvSocket _ _ | EvSetsockopt _ _ _ _ | EvConnect _ _ _ _ _
  | EvIoctl _ _ _ | EvClose _ | EvUsleep _ | EvSleep _ => true
  | _ => false
  end.

(** Whether the thread holds the mutex after [ev], given that it held it
    ([held]) before. *)
Definition held_after (held : bool) (ev : event) : bool :=
  match ev with
  | EvLock => true
  | EvUnlock => false
  | _ => held
  end.

(** The field accesses of a trace that happen while the mutex is not held,
    and the network I/O that happens while it is. *)
Fixpoint unlocked_accesses (held : bool) (tr : list event) : list event :=
  match tr with
  | [] => []
  | ev :: rest =>
      (if is_access ev && negb held then [ev] else [])
      ++ unlocked_accesses (held_after held ev) rest
  end.

Fixpoint locked_io (held : bool) (tr : list event) : list event :=
  match tr with
  | [] => []
  | ev :: rest =>
      (if is_network_io ev && held then [ev] else [])
      ++ locked_io (held_after held ev) rest
  end.

(** The two rules of the shared-resource policy, for a function that is
    entered without the mutex. *)
Definition accesses_under_lock (tr : list event) : Prop :=
  unlocked_accesses false tr = [].
Definition no_io_under_lock (tr : list event) : Prop :=
  locked_io false tr = [].

(** A trace that does not touch the mutex. *)
Definition lock_free (tr : list event) : Prop :=
  Forall (fun ev => held_after true ev = true /\ held_after false ev = false) tr.

(** The calls of the public API (as opposed to the pieces of the loop). *)
Definition is_api_call (o : op) : bool :=
  match o with
  | OpLoopFlagCheck | OpLoopRunChecks _ | OpLoopPublish _ _ _ => false
  | _ => true
  end.

(** A computation that never touches the mutex. *)
Definition never_locks {A : Type} (c : M A) : Prop :=
  forall s, lock_free (trace (c s)).

(** ** The loop thread and the destructor, interleaved

    The loop thread runs [monitor_thread_func] one segment at a time: a
    segment is the code between two places where the thread can be held
    up, which are the two acquisitions of the mutex, the [usleep] after a
    refused connection and the [sleep] at the end of a turn.  What a
    segment stores in the monitor is there for the other threads as soon
    as the segment is over: [check_wan] stores [last_error] after each
    failed attempt, long before the turn publishes its results.

    The thread that calls [network_monitor_destroy] clears the flag,
    sleeps through its grace period, and then destroys the mutex and
    frees the block without joining the loop thread (which
    [network_monitor_new] detached).  From then on every access of the
    monitor is an access to freed memory, and the model stops there with
    the verdict [UseAfterFree].

    Time is a clock in microseconds: a thread that went to sleep cannot
    take its next step before the clock has advanced by that much; it can
    take it any time later.  (Nothing below depends on a segment being
    one step: a finer cut would only add interleavings, and the
    statements are about the accesses that come after the release.) *)

(** The time a trace spends in [usleep] and [sleep], in microseconds. *)
Fixpoint slept_usec (tr : list event) : Z :=
  match tr with
  | [] => 0
  | EvUsleep us :: rest => us + slept_usec rest
  | EvSleep sec :: rest => sec * 1000000 + slept_usec rest
  | _ :: rest => slept_usec rest
  end.

(** [network_monitor_destroy] in its two parts: up to the end of the grace
    period, and the release. *)
Definition destroy_signal : M unit :=
  pthread_mutex_lock ;;
  store Frunning (with_running false) ;;
  pthread_mutex_unlock ;;
  sys_usleep 100000.

Definition destroy_release : M unit :=
  emit EvMutexDestroy ;;
  emit EvFree.

(** One iteration of the server loop of [check_wan] up to the retry loop:
    [socket], the two [setsockopt] and the address.  [Some (sock,
    addr.sin_port)]: the retry loop is next; [None]: [continue]. *)
Definition server_setup (env : Env) (i : nat) : M (option (Z * Z)) :=
  fd <- sys_socket SOCK_STREAM (env_wan_socket env i) ;;
  if fd <? 0 then
    e <- get_errno ;;
    store Flast_error (with_last_error e) ;;
    ret None
  else
    ms1 <- load Ftimeout_ms timeout_ms ;;
    ms2 <- load Ftimeout_ms timeout_ms ;;
    let tv := timeval_of_ms ms1 ms2 in
    sys_setsockopt fd SO_SNDTIMEO tv ;;
    sys_setsockopt fd SO_RCVTIMEO tv ;;
    p <- load (Fwan_port i) (fun m => port (server_at i m)) ;;
    h <- load (Fwan_host i) (fun m => host (server_at i m)) ;;
    r <- sys_inet_pton env h ;;
    if r <=? 0 then
      e <- get_errno ;;
      store Flast_error (with_last_error e) ;;
      sys_close fd ;;
      ret None
    else ret (Some (fd, htons p)).

(** The body of the retry loop, once: [connect], and either [close],
    [last_error = 0] and [return true], or [last_error = errno] and the
    [usleep].  [true]: the function returned [true]. *)
Definition connect_attempt (env : Env) (i retry : nat) (fd sin_port : Z) : M bool :=
  r <- sys_connect env i retry fd sin_port ;;
  if r =? 0 then
    sys_close fd ;;
    store Flast_error (with_last_error 0) ;;
    ret true
  else
    e <- get_errno ;;
    store Flast_error (with_last_error e) ;;
    sys_usleep (Z.shiftl 100000 (Z.of_nat retry)) ;;
    ret false.

(** Where the loop thread is, with the locals it holds there ([interval],
    [i], [retry], [sock], [addr.sin_port], [new_wan], [new_lan]):
    at the top of [while (true)], before the lock;
    in [check_wan] at the test [i < mon->num_wan_servers];
    in [check_wan] at the test [retry < 3];
    back in the loop, before the call of [check_lan];
    before the lock of the update;
    returned. *)
Inductive loop_pc : Type :=
| AtFlagCheck
| AtServer (interval : Z) (i : nat)
| AtConnect (interval : Z) (i retry : nat) (fd sin_port : Z)
| AtLan (interval : Z) (new_wan : bool)
| AtPublish (interval : Z) (new_wan new_lan : bool)
| Exited.

(** The segment that starts at [pc], and where it leaves the thread. *)
Definition segment (env : Env) (pc : loop_pc) : M loop_pc :=
  match pc with
  | AtFlagCheck =>
      r <- loop_flag_check ;;
      ret (match r with
           | Some interval => AtServer interval 0
           | None => Exited
           end)
  | AtServer interval i =>
      n <- load Fnum_wan_servers num_wan_servers ;;
      if Z.of_nat i <? n then
        r <- server_setup env i ;;
        ret (match r with
             | Some (fd, sin_port) => AtConnect interval i 0 fd sin_port
             | None => AtServer interval (S i)
             end)
      else ret (AtLan interval false)
  | AtConnect interval i retry fd sin_port =>
      if (retry <? 3)%nat then
        hit <- connect_attempt env i retry fd sin_port ;;
        ret (if hit then AtLan interval true
             else AtConnect interval i (S retry) fd sin_port)
      else
        sys_close fd ;;
        ret (AtServer interval (S i))
  | AtLan interval new_wan =>
      new_lan <- check_lan env ;;
      ret (AtPublish interval new_wan new_lan)
  | AtPublish interval new_wan new_lan =>
      loop_publish env new_wan new_lan ;;
      sys_sleep interval ;;
      ret AtFlagCheck
  | Exited => ret Exited
  end.

(** Segments run one after the other by the thread alone: from [pc] in
    state [s] the thread gets to [pc'] in state [s'], and [tr] is what it
    did on the way. *)
Inductive runs_to (env : Env) : loop_pc -> cpu -> list event -> loop_pc -> cpu -> Prop :=
| runs_here pc s : runs_to env pc s [] pc s
| runs_on pc s tr pc' s' :
    runs_to env (val (segment env pc s)) (post (segment env pc s)) tr pc' s' ->
    runs_to env pc s (trace (segment env pc s) ++ tr) pc' s'.

(** Where [network_monitor_destroy] is: not called; flag cleared and
    sleeping until [until]; mutex destroyed and block freed. *)
Inductive destroy_pc : Type :=
| NotCalled
| InGrace (until : Z)
| Released.

(** [shared] is the block of the monitor; once [destroy_at] is [Released]
    it is freed memory, and its contents here are what was last stored.
    [loop_errno] is the [errno] of the loop thread and [loop_ready] the
    time before which it sleeps. *)
Record world : Type := mkWorld {
  shared : NetworkMonitor;
  loop_errno : Z;
  loop_at : loop_pc;
  loop_ready : Z;
  destroy_at : destroy_pc;
  clock : Z
}.

Inductive action : Type :=
| Tick (usec : Z)
| LoopStep (env : Env)
| DestroyStep
| Call (o : op).

Inductive thread : Type := LoopThread | Caller.

(** What an action makes of a world: the next world; nothing, because the
    action cannot happen there; or undefined behaviour, [who] making the
    access [ev] to the freed block. *)
Inductive verdict : Type :=
| Fine (w : world)
| Stuck
| UseAfterFree (who : thread) (ev : event).

(** The events that access the block of the monitor (the mutex is a
    member of it). *)
Definition accesses_monitor (ev : event) : bool :=
  match ev with
  | EvLock | EvUnlock | EvLoad _ | EvStore _ => true
  | _ => false
  end.

(** [time(NULL)] read off the clock. *)
Definition with_time (t : Z) (env : Env) : Env :=
  mkEnv (env_wan_socket env) (env_inet_pton env) (env_wan_connect env)
    (env_lan_socket env) (env_ioctl_flags env) (env_route_file env)
    (env_route_scan env) t.

(** The loop thread runs its next segment.  On a freed block the segment
    gets as far as its first access of the monitor. *)
Definition loop_step (env : Env) (w : world) : verdict :=
  match loop_at w with
  | Exited => Stuck
  | _ =>
      if loop_ready w <=? clock w then
        let r := segment (with_time (clock w / 1000000) env) (loop_at w)
                   (mkCpu (shared w) (loop_errno w)) in
        match destroy_at w, List.find accesses_monitor (trace r) with
        | Released, Some ev => UseAfterFree LoopThread ev
        | _, _ =>
            Fine (mkWorld (mon (post r)) (errno (post r)) (val r)
                    (clock w + slept_usec (trace r)) (destroy_at w) (clock w))
        end
      else Stuck
  end.

Definition destroy_step (w : world) : verdict :=
  match destroy_at w with
  | NotCalled =>
      let r := destroy_signal (mkCpu (shared w) 0) in
      Fine (mkWorld (mon (post r)) (loop_errno w) (loop_at w) (loop_ready w)
              (InGrace (clock w + slept_usec (trace r))) (clock w))
  | InGrace until =>
      if until <=? clock w then
        Fine (mkWorld (shared w) (loop_errno w) (loop_at w) (loop_ready w)
                Released (clock w))
      else Stuck
  | Released => Stuck
  end.

(** A call of the API from another thread, on a handle that may have
    been destroyed meanwhile. *)
Definition call_step (o : op) (w : world) : verdict :=
  match o with
  | OpDestroy => Stuck
  | _ =>
      if is_api_call o then
        let r := run_op o (mkCpu (shared w) 0) in
        match destroy_at w, List.find accesses_monitor (trace r) with
        | Released, Some ev => UseAfterFree Caller ev
        | _, _ =>
            Fine (mkWorld (mon (post r)) (loop_errno w) (loop_at w) (loop_ready w)
                    (destroy_at w) (clock w))
        end
      else Stuck
  end.

Definition step (a : action) (w : world) : verdict :=
  match a with
  | Tick d =>
      if 0 <? d then
        Fine (mkWorld (shared w) (loop_errno w) (loop_at w) (loop_ready w)
                (destroy_at w) (clock w + d))
      else Stuck
  | LoopStep env => loop_step env w
  | DestroyStep => destroy_step w
  | Call o => call_step o w
  end.

Fixpoint run (acts : list action) (w : world) : verdict :=
  match acts with
  | [] => Fine w
  | a :: rest =>
      match step a w with
      | Fine w' => run rest w'
      | v => v
      end
  end.

(** What the four status accessors return; there is nothing to read
    once the block is released. *)
Definition read_status (w : world) : option (bool * bool * Z * Z) :=
  match destroy_at w with
  | Released => None
  | _ =>
      Some (result get_wan_status (shared w) 0, result get_lan_status (shared w) 0,
            result get_last_check_time (shared w) 0,
            result get_last_error (shared w) 0)
  end.

(** A freshly constructed monitor with its loop thread about to start. *)
Definition started (m : NetworkMonitor) (t0 : Z) : world :=
  mkWorld m 0 AtFlagCheck t0 NotCalled t0.

(** The segments that cannot run without an access of the monitor: all
    but the [close] after the third refused attempt. *)
Definition needs_monitor (pc : loop_pc) : bool :=
  match pc with
  | Exited => false
  | AtConnect _ _ retry _ _ => (retry <? 3)%nat
  | _ => true
  end.

(** The loop thread has returned. *)
Definition exited (w : world) : Prop := loop_at w = Exited.

Definition boot_clock : Z := 1760000000000000.

(** Stop requested during a cycle on the off-line host: the loop has
    opened the socket of the first server when the flag is cleared, its
    first [connect] is refused and it sleeps 100 ms; the grace period ends
    at the same moment. *)
Definition stop_during_cycle : list action :=
  [LoopStep env_offline; LoopStep env_offline; DestroyStep; LoopStep env_offline;
   Tick 100000].

(** Stop requested while the loop sleeps after a cycle on the on-line
    host (the second attempt is accepted 100 ms into the cycle) with two
    seconds of sleep ahead of it; the block is released 100 ms later. *)
Definition stop_during_sleep : list action :=
  [LoopStep env_online; LoopStep env_online; LoopStep env_online; Tick 100000;
   LoopStep env_online; LoopStep env_online; LoopStep env_online;
   DestroyStep; Tick 100000; DestroyStep; Tick 1900000].

(** Stop requested 1.95 s into the same sleep: the loop wakes up within
    the grace period. *)
Definition stop_before_wakeup : list action :=
  [LoopStep env_online; LoopStep env_online; LoopStep env_online; Tick 100000;
   LoopStep env_online; LoopStep env_online; LoopStep env_online;
   Tick 1950000; DestroyStep; Tick 50000; LoopStep env_online;
   Tick 50000; DestroyStep].

(** * Further vocabulary *)

(** ** Descriptors *)

(** What an event does to the one descriptor that a check has open:
    [socket] needs none open and opens one; [setsockopt], [connect] and
    [ioctl] need theirs to be the open one; [close] needs the same and
    leaves none open.  [None] is a violation. *)
Definition fd_step (open : option Z) (ev : event) : option (option Z) :=
  match ev with
  | EvSocket _ (Ok fd) =>
      match open with
      | None => Some (Some (Z.of_N fd))
      | Some _ => None
      end
  | EvSetsockopt fd _ _ _ | EvConnect _ _ fd _ _ | EvIoctl fd _ _ =>
      match open with
      | Some fd' => if fd =? fd' then Some open else None
      | None => None
      end
  | EvClose fd =>
      match open with
      | Some fd' => if fd =? fd' then Some None else None
      | None => None
      end
  | _ => Some open
  end.

Fixpoint fd_run (open : option Z) (tr : list event) : option (option Z) :=
  match tr with
  | [] => Some open
  | ev :: rest =>
      match fd_step open ev with
      | Some open' => fd_run open' rest
      | None => None
      end
  end.

(** A trace that starts and ends with no descriptor open and never uses a
    descriptor that is not open. *)
Definition descriptors_balanced (tr : list event) : Prop :=
  fd_run None tr = Some None.

(** ** Counting *)

Definition is_connect (ev : event) : bool :=
  match ev with
  | EvConnect _ _ _ _ _ => true
  | _ => false
  end.

(** The number of [connect] calls of a trace. *)
Definition connect_count (tr : list event) : nat :=
  length (List.filter is_connect tr).

(** A [connect] event for server [i] goes to port [p]; one for another
    server is not constrained. *)
Definition connects_to_port (i : nat) (p : Z) (ev : event) : Prop :=
  match ev with
  | EvConnect k _ _ q _ => k = i -> q = p
  | _ => True
  end.

(** No [connect] event is for server [j]. *)
Definition never_connects (j : nat) (ev : event) : Prop :=
  match ev with
  | EvConnect k _ _ _ _ => k <> j
  | _ => True
  end.

(** A [setsockopt] event carries the timeout [ms] (milliseconds) as a
    well-formed [timeval]: non-negative seconds, microseconds below one
    million, and the same duration. *)
Definition timeval_is (ms : Z) (ev : event) : Prop :=
  match ev with
  | EvSetsockopt _ _ tv_sec tv_usec =>
      0 <= tv_sec /\ 0 <= tv_usec < 1000000 /\
      tv_sec * 1000000 + tv_usec = ms * 1000
  | _ => True
  end.

(** A monitor whose first server is a host name, not an address. *)
Definition hostname_monitor : NetworkMonitor :=
  exec (run_op (OpSetWanTestHost (Some "dns.google"))) test_monitor 0.

(** Every connection attempt is accepted. *)
Definition env_all_accept : Env :=
  mkEnv (fun i => Ok (3 + N.of_nat i)%N)
        inet_pton4
        (fun _ _ => Ok tt)
        (Ok 7%N)
        (fun name => if String.eqb name "lo" then Ok 0x49 else Fail 19)
        (Ok [route_header; route_local_eth0])
        scan_known_lines
        1760000000.

(** ** The loop *)

(** The store that ends a cycle. *)
Definition is_publish (ev : event) : bool :=
  match ev with
  | EvStore Flast_check_time => true
  | _ => false
  end.

(** The number of cycles that a trace completes. *)
Definition cycle_count (tr : list event) : nat :=
  length (List.filter is_publish tr).


(** Some attempt to some usable server of the list is accepted. *)
Definition some_server_accepts (env : Env) (m : NetworkMonitor) : Prop :=
  exists j r,
    (j < Z.to_nat (num_wan_servers m))%nat /\ (r < 3)%nat /\
    can_connect env m j = true /\ accepts env j r = true.

(** ** The constructor *)

(** The interface that the configuration names, if it names one:
    [initial_cfg && initial_cfg->lan_interface && *initial_cfg->lan_interface]. *)
Definition explicit_interface (cfg : option NetworkConfig) : option string :=
  match cfg with
  | Some c =>
      match cfg_lan_interface c with
      | Some iface => if nonempty iface then Some iface else None
      | None => None
      end
  | None => None
  end.

(** The state in which the constructor validates the interface: after the
    configuration and the interface have been set. *)
Definition configured (env : Env) (cfg : option NetworkConfig) (s : cpu) : cpu :=
  post (init_lan_interface env cfg (post (init_config cfg s))).

Definition is_free (ev : event) : bool :=
  match ev with EvFree => true | _ => false end.
Definition is_mutex_destroy (ev : event) : bool :=
  match ev with EvMutexDestroy => true | _ => false end.
Definition is_fopen (ev : event) : bool :=
  match ev with EvFopen _ => true | _ => false end.

(** How often a trace frees the monitor, and destroys the mutex. *)
Definition free_count (tr : list event) : nat := length (List.filter is_free tr).
Definition mutex_destroy_count (tr : list event) : nat :=
  length (List.filter is_mutex_destroy tr).

(** A block as [malloc] returns it: room for [MAX_WAN_SERVERS] servers. *)
Definition block_ok (s : cpu) : Prop :=
  length (wan_servers (mon s)) = Z.to_nat MAX_WAN_SERVERS.

(** A host where [eth0] carries the default route but its cable is
    unplugged. *)
Definition env_eth0_unplugged : Env :=
  mkEnv (fun i => Ok (3 + N.of_nat i)%N)
        inet_pton4
        (fun _ _ => Fail 101)
        (Ok 7%N)
        (fun name => if String.eqb name "lo" then Ok 0x49
                     else if String.eqb name "eth0" then Ok 0x1003
                     else Fail 19)
        (Ok [route_header; route_default_eth0])
        scan_known_lines
        1760000000.

(** Thread creation fails. *)
Definition ctor_no_thread : CtorEnv := mkCtorEnv true (Ok 5%N) true false.

(** The events of the routing-table file. *)
Definition is_file_event (ev : event) : bool :=
  match ev with
  | EvFopen _ | EvFgets _ | EvFclose => true
  | _ => false
  end.

(** The routing table cannot be opened, or holds no default route. *)
Definition no_default_route (env : Env) : Prop :=
  (exists e, env_route_file env = Fail e) \/
  (exists lines, env_route_file env = Ok lines /\
                 Forall (fun l => ~ is_default_route_line env l) lines).

(** A routing table whose default route comes before a further line. *)
Definition env_default_first : Env :=
  mkEnv (fun i => Ok (3 + N.of_nat i)%N)
        inet_pton4
        (fun _ _ => Ok tt)
        (Ok 7%N)
        (fun name => if String.eqb name "eth0" then Ok 0x1043 else Fail 19)
        (Ok ([route_header] ++ route_default_eth0 :: [route_local_eth0]))
        scan_known_lines
        1760000000.

(** A host whose routing table cannot be opened ([EACCES], 13). *)
Definition env_no_route_file : Env :=
  mkEnv (fun i => Ok (3 + N.of_nat i)%N)
        inet_pton4
        (fun _ _ => Fail 101)
        (Ok 7%N)
        (fun name => if String.eqb name "lo" then Ok 0x49 else Fail 19)
        (Fail 13)
        scan_known_lines
        1760000000.

(** A configuration with invalid numbers, a proxy, and nothing else. *)
Definition sparse_cfg : NetworkConfig :=
  mkConfig 0 (-3) (Some "http://proxy:3128") None 0 None.

(** A host is given but the port is left at 0. *)
Definition host_only_cfg : NetworkConfig :=
  mkConfig 500 2 None (Some "192.0.2.7") 0 (Some "lo").

(** An event that releases nothing. *)
Definition releases_nothing (ev : event) : Prop :=
  is_free ev = false /\ is_mutex_destroy ev = false.

(** ** Strings *)

(** Every string of the monitor fits its array with the terminating NUL:
    the interface in [IF_NAMESIZE] bytes, the proxy and each host in 256. *)
Definition strings_fit (m : NetworkMonitor) : Prop :=
  (String.length (lan_interface m) < IF_NAMESIZE)%nat /\
  (String.length (proxy_url m) < HOST_SIZE)%nat /\
  Forall (fun srv => (String.length (host srv) < HOST_SIZE)%nat) (wan_servers m).

(** A monitor that was given an interface name of 20 bytes. *)
Definition long_name_monitor : NetworkMonitor :=
  exec (run_op (OpSetLanInterface (Some "enx0123456789abcdef0"))) test_monitor 0.

(** * Properties *)

(** ** Concrete runs *)

Example inet_pton4_samples :
  map inet_pton4
    ["8.8.8.8"; "1.1.1.1"; "9.9.9.9"; "208.67.222.222"; "127.0.0.1";
     "256.1.1.1"; "1.1.1"; "01.1.1.1"; "1.1.1.1."; "example.com"; ""]
  = [true; true; true; true; true; false; false; false; false; false; false].
Proof. vm_compute. reflexivity. Qed.

Example test_monitor_fields :
  test_monitor = mkMonitor 500 2 "" defaults 4 "lo" false false 0 0 true.
Proof. vm_compute. reflexivity. Qed.

Example constructor_detects_eth0 :
  result (network_monitor_new ctor_ok env_online None) raw_block 0 = true /\
  exec (network_monitor_new ctor_ok env_online None) raw_block 0
    = mkMonitor 1000 5 "" defaults 4 "eth0" false false 0 0 true.
Proof. split; vm_compute; reflexivity. Qed.

Example constructor_falls_back_to_lo :
  exec (network_monitor_new ctor_ok env_offline None) raw_block 0
    = mkMonitor 1000 5 "" defaults 4 "lo" false false 0 0 true.
Proof. vm_compute. reflexivity. Qed.

Example constructor_rejects_unknown_interface :
  result (network_monitor_new ctor_ok env_offline
            (Some (mkConfig 0 0 None None 0 (Some "wlan9")))) raw_block 0 = false.
Proof. vm_compute. reflexivity. Qed.

Example check_wan_second_attempt_accepted :
  check_wan env_online (mkCpu test_monitor 0) =
    mkOut true (mkCpu test_monitor 111)
      [ EvLoad Fnum_wan_servers;
        EvSocket SOCK_STREAM (Ok 3%N);
        EvLoad Ftimeout_ms; EvLoad Ftimeout_ms;
        EvSetsockopt 3 SO_SNDTIMEO 0 500000;
        EvSetsockopt 3 SO_RCVTIMEO 0 500000;
        EvLoad (Fwan_port 0); EvLoad (Fwan_host 0);
        EvInetPton "8.8.8.8" 1;
        EvConnect 0 0 3 53 (Fail 111); EvStore Flast_error; EvUsleep 100000;
        EvConnect 0 1 3 53 (Ok tt); EvClose 3; EvStore Flast_error ].
Proof. vm_compute. reflexivity. Qed.

Example check_wan_offline :
  val (check_wan env_offline (mkCpu test_monitor 0)) = false /\
  last_error (mon (post (check_wan env_offline (mkCpu test_monitor 0)))) = 101 /\
  List.filter (fun ev => match ev with EvConnect _ _ _ _ _ => true | _ => false end)
    (trace (check_wan env_offline (mkCpu test_monitor 0)))
  = [ EvConnect 0 0 3 53 (Fail 101); EvConnect 0 1 3 53 (Fail 101);
      EvConnect 0 2 3 53 (Fail 101);
      EvConnect 1 0 4 53 (Fail 101); EvConnect 1 1 4 53 (Fail 101);
      EvConnect 1 2 4 53 (Fail 101);
      EvConnect 2 0 5 53 (Fail 101); EvConnect 2 1 5 53 (Fail 101);
      EvConnect 2 2 5 53 (Fail 101);
      EvConnect 3 0 6 53 (Fail 101); EvConnect 3 1 6 53 (Fail 101);
      EvConnect 3 2 6 53 (Fail 101) ].
Proof. repeat split; vm_compute; reflexivity. Qed.

Example check_lan_loopback :
  check_lan env_offline (mkCpu test_monitor 101) =
    mkOut true (mkCpu test_monitor 101)
      [ EvSocket SOCK_DGRAM (Ok 7%N); EvLoad Flan_interface;
        EvIoctl 7 "lo" (Ok 0x49); EvClose 7; EvStore Flast_error ].
Proof. vm_compute. reflexivity. Qed.

Example two_cycles_then_stop :
  mon (post (bind (monitor_thread_func [env_online; env_offline])
                  (fun _ => destroy_signal) (mkCpu test_monitor 0)))
  = mkMonitor 500 2 "" defaults 4 "lo" false true 1760000000 0 false.
Proof. vm_compute. reflexivity. Qed.

(** ** Framing: what the checks leave untouched *)

Lemma only_last_error_refl m : only_last_error m m.
Proof. by destruct m. Qed.

Lemma only_last_error_trans m1 m2 m3 :
  only_last_error m1 m2 -> only_last_error m2 m3 -> only_last_error m1 m3.
Proof.
  unfold only_last_error. intros H12 H23.
  rewrite H23, H12. by destruct m1.
Qed.

Lemma only_last_error_store v m : only_last_error m (with_last_error v m).
Proof. by destruct m. Qed.

Lemma frames_ret {A} (a : A) : frames (ret a).
Proof. intros s. apply only_last_error_refl. Qed.

(** [bind] in terms of the projections of the two outcomes. *)
Lemma bind_unfold {A B} (c : M A) (k : A -> M B) (s : cpu) :
  bind c k s =
    mkOut (val (k (val (c s)) (post (c s))))
          (post (k (val (c s)) (post (c s))))
          (trace (c s) ++ trace (k (val (c s)) (post (c s)))).
Proof.
  unfold bind. destruct (c s) as [a s1 t1]. cbn [val post trace].
  by destruct (k a s1).
Qed.

Lemma frames_bind {A B} (c : M A) (k : A -> M B) :
  frames c -> (forall a, frames (k a)) -> frames (bind c k).
Proof.
  intros Hc Hk s. rewrite bind_unfold. cbn [post].
  eapply only_last_error_trans; [apply Hc | apply Hk].
Qed.

Lemma frames_emit e : frames (emit e).
Proof. intros s. apply only_last_error_refl. Qed.

Lemma frames_load {A} f (get : NetworkMonitor -> A) : frames (load f get).
Proof. intros s. apply only_last_error_refl. Qed.

Lemma frames_get_errno : frames get_errno.
Proof. intros s. apply only_last_error_refl. Qed.

Lemma frames_set_errno e : frames (set_errno e).
Proof. intros s. apply only_last_error_refl. Qed.

Lemma frames_store_last_error v : frames (store Flast_error (with_last_error v)).
Proof. intros s. apply only_last_error_store. Qed.

Create HintDb frames discriminated.
#[local] Hint Resolve frames_ret frames_emit frames_load frames_get_errno
  frames_set_errno frames_store_last_error : frames.

(** Splits a computation along its binds and branches. *)
Ltac frames_step :=
  match goal with
  | |- frames (bind _ _) => apply frames_bind; [| intros ?]
  | |- frames (if ?b then _ else _) => destruct b
  | |- frames (match ?x with _ => _ end) => destruct x
  | |- frames _ => solve [auto with frames]
  end.
Ltac frames_auto := repeat frames_step.

Lemma frames_sys_socket ty r : frames (sys_socket ty r).
Proof. unfold sys_socket. frames_auto. Qed.

Lemma frames_sys_connect env i r fd p : frames (sys_connect env i r fd p).
Proof. unfold sys_connect. frames_auto. Qed.

Lemma frames_sys_ioctl_flags env fd name : frames (sys_ioctl_flags env fd name).
Proof. unfold sys_ioctl_flags. frames_auto. Qed.

Lemma frames_sys_inet_pton env src : frames (sys_inet_pton env src).
Proof. unfold sys_inet_pton. frames_auto. Qed.

#[local] Hint Resolve frames_sys_socket frames_sys_connect
  frames_sys_ioctl_flags frames_sys_inet_pton : frames.
#[local] Hint Extern 1 (frames (sys_close _)) => apply frames_emit : frames.
#[local] Hint Extern 1 (frames (sys_usleep _)) => apply frames_emit : frames.
#[local] Hint Extern 1 (frames (sys_setsockopt _ _ _)) => apply frames_emit : frames.

Lemma frames_connect_retries env i fd p n retry :
  frames (connect_retries env i fd p n retry).
Proof.
  revert retry. induction n as [|n IH]; intros retry; simpl; frames_auto.
Qed.
#[local] Hint Resolve frames_connect_retries : frames.

Lemma frames_probe_server env i : frames (probe_server env i).
Proof. unfold probe_server. frames_auto. Qed.
#[local] Hint Resolve frames_probe_server : frames.

Lemma frames_wan_loop env n i : frames (wan_loop env n i).
Proof.
  revert i. induction n as [|n IH]; intros i; simpl; frames_auto.
Qed.

Lemma frames_check_wan env : frames (check_wan env).
Proof. intros s. unfold check_wan. apply frames_wan_loop. Qed.

Lemma frames_check_lan env : frames (check_lan env).
Proof. unfold check_lan. frames_auto. Qed.
#[local] Hint Resolve frames_check_wan frames_check_lan : frames.

Lemma frames_loop_run_checks env : frames (loop_run_checks env).
Proof. unfold loop_run_checks. frames_auto. Qed.

(** ** Flag tests *)

(** [x & 2^n] is non-zero exactly when bit [n] of [x] is set. *)
Lemma land_pow2_eqb (x n : Z) :
  0 <= n -> (Z.land x (2 ^ n) =? 0) = negb (Z.testbit x n).
Proof.
  intros Hn.
  assert (Hland : Z.land x (2 ^ n) = if Z.testbit x n then 2 ^ n else 0).
  { apply Z.bits_inj'. intros k Hk.
    rewrite Z.land_spec, Z.pow2_bits_eqb by lia.
    destruct (Z.eqb_spec n k) as [->|Hne].
    - destruct (Z.testbit x k) eqn:E; simpl.
      + by rewrite Z.pow2_bits_eqb, Z.eqb_refl by lia.
      + by rewrite Z.bits_0.
    - rewrite andb_false_r.
      destruct (Z.testbit x n).
      + rewrite Z.pow2_bits_eqb by lia. symmetry. by apply Z.eqb_neq.
      + by rewrite Z.bits_0. }
  rewrite Hland. destruct (Z.testbit x n); simpl.
  - apply Z.eqb_neq. pose proof (Z.pow_pos_nonneg 2 n). lia.
  - reflexivity.
Qed.

Lemma iff_up_bit (flags : Z) :
  negb (Z.land flags IFF_UP =? 0) = Z.testbit flags 0.
Proof.
  change IFF_UP with (2 ^ 0). rewrite land_pow2_eqb by lia. apply negb_involutive.
Qed.

Lemma iff_running_bit (flags : Z) :
  negb (Z.land flags IFF_RUNNING =? 0) = Z.testbit flags 6.
Proof.
  change IFF_RUNNING with (2 ^ 6). rewrite land_pow2_eqb by lia. apply negb_involutive.
Qed.

(** ** The LAN check *)

(** The three ways through [check_lan], by the answers of the system. *)
Lemma check_lan_socket_fails env s e :
  env_lan_socket env = Fail e ->
  val (check_lan env s) = false /\
  last_error (mon (post (check_lan env s))) = e.
Proof. intros H. unfold check_lan, bind. simpl. by rewrite H. Qed.

Lemma check_lan_ioctl_fails env s fd e :
  env_lan_socket env = Ok fd ->
  env_ioctl_flags env (ifr_name_of s) = Fail e ->
  val (check_lan env s) = false /\
  last_error (mon (post (check_lan env s))) = e.
Proof.
  intros H1 H2. unfold check_lan, bind, ifr_name_of in *. simpl. rewrite H1. simpl.
  destruct (Z.ltb_spec (Z.of_N fd) 0) as [Hneg|_]; [lia|].
  simpl. unfold sys_ioctl_flags. by rewrite H2.
Qed.

Lemma check_lan_flags env s fd flags :
  env_lan_socket env = Ok fd ->
  env_ioctl_flags env (ifr_name_of s) = Ok flags ->
  val (check_lan env s) = Z.testbit flags 0 && Z.testbit flags 6 /\
  last_error (mon (post (check_lan env s))) =
    (if Z.testbit flags 0 && Z.testbit flags 6 then 0 else last_error (mon s)).
Proof.
  intros H1 H2. unfold check_lan, bind, ifr_name_of in *.
  cbn -[Z.testbit Z.land strncpy_term]. rewrite H1. cbn -[Z.testbit Z.land strncpy_term].
  destruct (Z.ltb_spec (Z.of_N fd) 0) as [Hneg|_]; [lia|].
  cbn -[Z.testbit Z.land strncpy_term]. unfold sys_ioctl_flags. rewrite H2.
  cbn -[Z.testbit Z.land strncpy_term].
  rewrite iff_up_bit, iff_running_bit.
  by destruct (Z.testbit flags 0 && Z.testbit flags 6).
Qed.

(** C6: [check_lan] returns [true] if and only if the socket for the query
    opens, the [SIOCGIFFLAGS] query on the monitored interface succeeds, and
    the returned flags have both the [IFF_UP] bit (bit 0) and the
    [IFF_RUNNING] bit (bit 6) set; a missing flag, a failed [socket] or a
    failed [ioctl] each give [false]. *)
Theorem check_lan_up_iff_both_flags (env : Env) (s : cpu) :
  val (check_lan env s) = true <->
  exists (fd : N) (flags : Z),
    env_lan_socket env = Ok fd /\
    env_ioctl_flags env (ifr_name_of s) = Ok flags /\
    Z.testbit flags 0 = true /\ Z.testbit flags 6 = true.
Proof.
  split.
  - intros Hup.
    destruct (env_lan_socket env) as [fd|e] eqn:Hsock.
    2:{ destruct (check_lan_socket_fails env s e Hsock) as [Hv _]. congruence. }
    destruct (env_ioctl_flags env (ifr_name_of s)) as [flags|e] eqn:Hio.
    2:{ destruct (check_lan_ioctl_fails env s fd e Hsock Hio) as [Hv _]. congruence. }
    destruct (check_lan_flags env s fd flags Hsock Hio) as [Hv _].
    rewrite Hv in Hup. apply andb_true_iff in Hup.
    exists fd, flags. tauto.
  - intros (fd & flags & Hsock & Hio & Hb0 & Hb6).
    destruct (check_lan_flags env s fd flags Hsock Hio) as [Hv _].
    by rewrite Hv, Hb0, Hb6.
Qed.

(** C7: when the flags query of [check_lan] succeeds, [last_error] becomes 0
    if the result is up and keeps the value it had before the check if the
    result is down; so within one cycle the error code that a failed
    [check_wan] recorded is still there after a [check_lan] that found the
    link down. *)
Theorem check_lan_keeps_stale_error (env : Env) (s : cpu) (fd : N) (flags : Z) :
  env_lan_socket env = Ok fd ->
  env_ioctl_flags env (ifr_name_of s) = Ok flags ->
  last_error (mon (post (check_lan env s))) =
    (if val (check_lan env s) then 0 else last_error (mon s)) /\
  (val (check_lan env (post (check_wan env s))) = false ->
   last_error (mon (post (loop_run_checks env s))) =
     last_error (mon (post (check_wan env s)))).
Proof.
  intros Hsock Hio. split.
  - destruct (check_lan_flags env s fd flags Hsock Hio) as [Hv He].
    by rewrite Hv, He.
  - intros Hdown.
    assert (Hname : ifr_name_of (post (check_wan env s)) = ifr_name_of s).
    { unfold ifr_name_of. pose proof (frames_check_wan env s) as Hf.
      unfold only_last_error in Hf. by rewrite Hf. }
    rewrite <- Hname in Hio.
    destruct (check_lan_flags env _ fd flags Hsock Hio) as [Hv He].
    unfold loop_run_checks. rewrite !bind_unfold. cbn [post mon val ret].
    rewrite He. rewrite Hv in Hdown. by rewrite Hdown.
Qed.

Lemma check_lan_keeps_stale_error_witness :
  env_lan_socket env_unplugged = Ok 7%N /\
  env_ioctl_flags env_unplugged (ifr_name_of (mkCpu monitor_eth0 0)) = Ok 0x1003 /\
  val (check_lan env_unplugged (post (check_wan env_unplugged (mkCpu monitor_eth0 0)))) = false /\
  last_error (mon (post (loop_run_checks env_unplugged (mkCpu monitor_eth0 0)))) = 101.
Proof.
  split; [reflexivity|]. split; [reflexivity|]. split; [reflexivity|].
  rewrite (proj2 (check_lan_keeps_stale_error env_unplugged (mkCpu monitor_eth0 0)
                    7%N 0x1003 eq_refl eq_refl) eq_refl).
  reflexivity.
Defined.

(** ** [errno] and the trace *)

Lemma last_failure_app (t1 t2 : list event) :
  last_failure (t1 ++ t2) =
    match last_failure t2 with
    | Some e => Some e
    | None => last_failure t1
    end.
Proof.
  induction t1 as [|ev t1 IH]; simpl.
  - by destruct (last_failure t2).
  - rewrite IH. by destruct (last_failure t2).
Qed.

Lemma tracks_ret {A} (a : A) : tracks_errno (ret a).
Proof. by intros s. Qed.

Lemma tracks_bind {A B} (c : M A) (k : A -> M B) :
  tracks_errno c -> (forall a, tracks_errno (k a)) -> tracks_errno (bind c k).
Proof.
  intros Hc Hk s. rewrite bind_unfold. cbn [post trace].
  rewrite last_failure_app, Hk, Hc.
  by destruct (last_failure (trace (k (val (c s)) (post (c s))))).
Qed.

Lemma tracks_load {A} f (get : NetworkMonitor -> A) : tracks_errno (load f get).
Proof. by intros s. Qed.

Lemma tracks_store f upd : tracks_errno (store f upd).
Proof. by intros s. Qed.

Lemma tracks_get_errno : tracks_errno get_errno.
Proof. by intros s. Qed.

Lemma tracks_sys_socket ty r : tracks_errno (sys_socket ty r).
Proof. intros s. by destruct r. Qed.

Lemma tracks_sys_connect env i r fd p : tracks_errno (sys_connect env i r fd p).
Proof. intros s. unfold sys_connect. by destruct (env_wan_connect env i r). Qed.

Lemma tracks_sys_ioctl_flags env fd name : tracks_errno (sys_ioctl_flags env fd name).
Proof. intros s. unfold sys_ioctl_flags. by destruct (env_ioctl_flags env name). Qed.

Lemma tracks_sys_inet_pton env src : tracks_errno (sys_inet_pton env src).
Proof. by intros s. Qed.

Lemma tracks_sys_close fd : tracks_errno (sys_close fd).
Proof. by intros s. Qed.

Lemma tracks_sys_usleep us : tracks_errno (sys_usleep us).
Proof. by intros s. Qed.

Lemma tracks_sys_setsockopt fd o tv : tracks_errno (sys_setsockopt fd o tv).
Proof. by intros s. Qed.

Create HintDb tracks discriminated.
#[local] Hint Resolve tracks_ret tracks_load tracks_store tracks_get_errno
  tracks_sys_socket tracks_sys_connect tracks_sys_ioctl_flags
  tracks_sys_inet_pton tracks_sys_close tracks_sys_usleep
  tracks_sys_setsockopt : tracks.

Ltac tracks_step :=
  match goal with
  | |- tracks_errno (bind _ _) => apply tracks_bind; [| intros ?]
  | |- tracks_errno (if ?b then _ else _) => destruct b
  | |- tracks_errno (match ?x with _ => _ end) => destruct x
  | |- tracks_errno _ => solve [auto with tracks]
  end.
Ltac tracks_auto := repeat tracks_step.

Lemma tracks_connect_retries env i fd p n retry :
  tracks_errno (connect_retries env i fd p n retry).
Proof.
  revert retry. induction n as [|n IH]; intros retry; simpl; tracks_auto.
Qed.
#[local] Hint Resolve tracks_connect_retries : tracks.

Lemma tracks_probe_server env i : tracks_errno (probe_server env i).
Proof. unfold probe_server. tracks_auto. Qed.
#[local] Hint Resolve tracks_probe_server : tracks.

Lemma tracks_wan_loop env n i : tracks_errno (wan_loop env n i).
Proof.
  revert i. induction n as [|n IH]; intros i; simpl; tracks_auto.
Qed.

Lemma tracks_check_wan env : tracks_errno (check_wan env).
Proof. intros s. unfold check_wan. apply tracks_wan_loop. Qed.

(** ** The WAN check *)

Lemma can_connect_frame env m m' i :
  only_last_error m m' -> can_connect env m' i = can_connect env m i.
Proof. intros ->. reflexivity. Qed.

(** The two ways through one turn of the retry loop. *)
Lemma connect_retries_accept env i fd p n retry s :
  env_wan_connect env i retry = Ok tt ->
  connect_retries env i fd p (S n) retry s =
    mkOut true (mkCpu (with_last_error 0 (mon s)) (errno s))
      (success_tail i retry fd p).
Proof.
  intros H. cbn [connect_retries]. unfold bind, sys_connect. by rewrite H.
Qed.

Lemma connect_retries_reject env i fd p n retry s e :
  env_wan_connect env i retry = Fail e ->
  connect_retries env i fd p (S n) retry s =
    let out := connect_retries env i fd p n (S retry)
                 (mkCpu (with_last_error e (mon s)) e) in
    mkOut (val out) (post out)
      (EvConnect i retry fd p (Fail e) :: EvStore Flast_error
       :: EvUsleep (Z.shiftl 100000 (Z.of_nat retry)) :: trace out).
Proof.
  intros H. cbn [connect_retries]. unfold bind, sys_connect. rewrite H.
  cbn -[connect_retries Z.shiftl].
  by destruct (connect_retries _ _ _ _ _ _ _).
Qed.

(** What a run of the retry loop amounts to. *)
Lemma connect_retries_spec env i fd p n retry s :
  let out := connect_retries env i fd p n retry s in
  if val out then
    exists r pre,
      (retry <= r < retry + n)%nat /\
      accepts env i r = true /\
      (forall r', (retry <= r' < r)%nat -> accepts env i r' = false) /\
      trace out = pre ++ success_tail i r fd p /\
      Forall (fun ev => connect_ok ev = false) pre /\
      last_error (mon (post out)) = 0
  else
    (forall r, (retry <= r < retry + n)%nat -> accepts env i r = false) /\
    Forall (fun ev => connect_ok ev = false) (trace out) /\
    (n <> O -> last_error (mon (post out)) = errno (post out)).
Proof.
  revert retry s. induction n as [|n IH]; intros retry s; cbn zeta.
  - simpl. split; [intros; lia|]. split; [constructor|]. done.
  - destruct (env_wan_connect env i retry) as [[]|e] eqn:Hc.
    + rewrite (connect_retries_accept _ _ _ _ _ _ _ Hc). cbn [val post trace mon].
      exists retry, []. unfold accepts. rewrite Hc.
      repeat split; try lia; try done.
    + rewrite (connect_retries_reject _ _ _ _ _ _ _ _ Hc). cbn zeta.
      cbn [val post trace mon].
      specialize (IH (S retry) (mkCpu (with_last_error e (mon s)) e)).
      cbn zeta in IH.
      destruct (val (connect_retries env i fd p n (S retry) _)).
      * destruct IH as (r & pre & Hr & Hacc & Hleast & Htr & Hpre & Herr).
        exists r, (EvConnect i retry fd p (Fail e) :: EvStore Flast_error
                   :: EvUsleep (Z.shiftl 100000 (Z.of_nat retry)) :: pre).
        repeat split; try lia; try done.
        -- intros r' Hr'. destruct (decide (r' = retry)) as [->|Hne].
           ++ unfold accepts. by rewrite Hc.
           ++ apply Hleast. lia.
        -- by rewrite Htr.
        -- by repeat constructor.
      * destruct IH as (Hall & Htr & Herr). repeat split.
        -- intros r Hr. destruct (decide (r = retry)) as [->|Hne].
           ++ unfold accepts. by rewrite Hc.
           ++ apply Hall. lia.
        -- by repeat constructor.
        -- intros _. destruct n as [|n']; [done|by apply Herr].
Qed.

(** The three ways through one turn of the server loop. *)
Lemma probe_server_no_socket env i s e :
  env_wan_socket env i = Fail e ->
  probe_server env i s =
    mkOut false (mkCpu (with_last_error e (mon s)) e)
      [EvSocket SOCK_STREAM (Fail e); EvStore Flast_error].
Proof. intros H. unfold probe_server, bind. by rewrite H. Qed.

Lemma probe_server_bad_host env i s fd :
  env_wan_socket env i = Ok fd ->
  env_inet_pton env (host (server_at i (mon s))) = false ->
  probe_server env i s =
    mkOut false (mkCpu (with_last_error (errno s) (mon s)) (errno s))
      (setup_events env (mon s) i fd ++ [EvStore Flast_error; EvClose (Z.of_N fd)]).
Proof.
  intros H Hp. unfold probe_server, bind. rewrite H.
  cbn -[connect_retries timeval_of_ms server_at].
  destruct (Z.ltb_spec (Z.of_N fd) 0); [lia|].
  cbn -[connect_retries timeval_of_ms server_at].
  rewrite Hp. reflexivity.
Qed.

Lemma probe_server_connects env i s fd :
  env_wan_socket env i = Ok fd ->
  env_inet_pton env (host (server_at i (mon s))) = true ->
  probe_server env i s =
    let out := connect_retries env i (Z.of_N fd)
                 (htons (port (server_at i (mon s)))) 3 0 s in
    mkOut (val out) (post out)
      (setup_events env (mon s) i fd ++ trace out ++
       (if val out then [] else [EvClose (Z.of_N fd)])).
Proof.
  intros H Hp. unfold probe_server, bind. rewrite H.
  cbn -[connect_retries timeval_of_ms server_at].
  destruct (Z.ltb_spec (Z.of_N fd) 0); [lia|].
  cbn -[connect_retries timeval_of_ms server_at].
  rewrite Hp. cbn -[connect_retries timeval_of_ms server_at].
  destruct s as [m e]. cbn [mon errno].
  destruct (connect_retries env i (Z.of_N fd) _ 3 0 _) as [[] s' t'];
    cbn -[timeval_of_ms server_at]; by rewrite ?app_nil_r.
Qed.

Lemma setup_events_no_success env m i fd :
  Forall (fun ev => connect_ok ev = false) (setup_events env m i fd).
Proof. unfold setup_events. by repeat constructor. Qed.

(** What one turn of the server loop amounts to. *)
Lemma probe_server_spec env i s :
  let out := probe_server env i s in
  if val out then
    can_connect env (mon s) i = true /\
    exists r fd p pre,
      (r < 3)%nat /\
      accepts env i r = true /\
      (forall r', (r' < r)%nat -> accepts env i r' = false) /\
      trace out = pre ++ success_tail i r fd p /\
      Forall (fun ev => connect_ok ev = false) pre /\
      last_error (mon (post out)) = 0
  else
    (can_connect env (mon s) i = false \/
     forall r, (r < 3)%nat -> accepts env i r = false) /\
    Forall (fun ev => connect_ok ev = false) (trace out) /\
    last_error (mon (post out)) = errno (post out).
Proof.
  cbn zeta. unfold can_connect.
  destruct (env_wan_socket env i) as [fd|e] eqn:Hs.
  2:{ rewrite (probe_server_no_socket _ _ _ _ Hs). cbn.
      split; [by left|]. split; [by repeat constructor|done]. }
  destruct (env_inet_pton env (host (server_at i (mon s)))) eqn:Hp.
  2:{ rewrite (probe_server_bad_host _ _ _ _ Hs Hp). cbn [val post trace mon errno].
      split; [by left|]. split; [|by destruct s as [[] ?]].
      apply Forall_app. split; [apply setup_events_no_success|by repeat constructor]. }
  rewrite (probe_server_connects _ _ _ _ Hs Hp). cbn zeta. cbn [val post trace].
  pose proof (connect_retries_spec env i (Z.of_N fd)
                (htons (port (server_at i (mon s)))) 3 0 s) as Hr.
  cbn zeta in Hr.
  destruct (val (connect_retries env i (Z.of_N fd) _ 3 0 s)).
  - destruct Hr as (r & pre & Hr & Hacc & Hleast & Htr & Hpre & Herr).
    split; [done|].
    exists r, (Z.of_N fd), (htons (port (server_at i (mon s)))),
      (setup_events env (mon s) i fd ++ pre).
    repeat split; try lia; try done.
    + intros r' Hr'. apply Hleast. lia.
    + rewrite Htr, app_nil_r. by rewrite app_assoc.
    + apply Forall_app. split; [apply setup_events_no_success|done].
  - destruct Hr as (Hall & Htr & Herr).
    split; [right; intros r Hr; apply Hall; lia|].
    split; [|by apply Herr].
    apply Forall_app. split; [apply setup_events_no_success|].
    apply Forall_app. split; [done|by repeat constructor].
Qed.

(** The two unfoldings of the server loop. *)
Lemma wan_loop_O env i s :
  wan_loop env O i s = mkOut false s [EvLoad Fnum_wan_servers].
Proof. reflexivity. Qed.

Lemma wan_loop_S env n i s :
  wan_loop env (S n) i s =
    let o1 := probe_server env i s in
    if val o1 then mkOut true (post o1) (EvLoad Fnum_wan_servers :: trace o1)
    else
      let o2 := wan_loop env n (S i) (post o1) in
      mkOut (val o2) (post o2) (EvLoad Fnum_wan_servers :: trace o1 ++ trace o2).
Proof.
  cbn [wan_loop]. unfold bind, load. cbn zeta.
  destruct (probe_server env i s) as [[] s1 t1]; cbn [val post trace ret].
  - by rewrite app_nil_r.
  - by destruct (wan_loop env n (S i) s1).
Qed.

(** What a run of the server loop amounts to: it returns [true] at the
    first accepted attempt, in the order of the list and then of the
    retries, and otherwise every server that got as far as [connect] was
    rejected three times. *)
Lemma wan_loop_spec env n i s :
  let out := wan_loop env n i s in
  if val out then
    exists j r fd p pre,
      (i <= j < i + n)%nat /\ (r < 3)%nat /\
      can_connect env (mon s) j = true /\
      accepts env j r = true /\
      (forall j' r', (i <= j' < i + n)%nat -> (r' < 3)%nat ->
         can_connect env (mon s) j' = true -> accepts env j' r' = true ->
         (j < j')%nat \/ (j = j' /\ (r <= r')%nat)) /\
      trace out = pre ++ success_tail j r fd p /\
      Forall (fun ev => connect_ok ev = false) pre /\
      last_error (mon (post out)) = 0
  else
    (forall j, (i <= j < i + n)%nat ->
       can_connect env (mon s) j = false \/
       forall r, (r < 3)%nat -> accepts env j r = false) /\
    Forall (fun ev => connect_ok ev = false) (trace out) /\
    (n <> O -> last_error (mon (post out)) = errno (post out)).
Proof.
  revert i s. induction n as [|n IH]; intros i s; cbn zeta.
  - rewrite wan_loop_O. cbn. split; [intros; lia|]. split; [by repeat constructor|done].
  - rewrite wan_loop_S. cbn zeta.
    pose proof (probe_server_spec env i s) as Hp. cbn zeta in Hp.
    pose proof (frames_probe_server env i s) as Hf.
    destruct (val (probe_server env i s)).
    + cbn [val post trace].
      destruct Hp as (Hcan & r & fd & p & pre & Hr & Hacc & Hleast & Htr & Hpre & Herr).
      exists i, r, fd, p, (EvLoad Fnum_wan_servers :: pre).
      repeat split; try lia; try done.
      * intros j' r' Hj' Hr' Hcan' Hacc'.
        destruct (decide (j' = i)) as [->|Hne]; [|left; lia].
        right. split; [done|].
        destruct (decide (r <= r')%nat) as [|Hlt]; [done|].
        rewrite Hleast in Hacc' by lia. done.
      * by rewrite Htr.
      * by constructor.
    + specialize (IH (S i) (post (probe_server env i s))). cbn zeta in IH.
      destruct Hp as (Hrej & Hnos & Herr).
      destruct (val (wan_loop env n (S i) _)); cbn [val post trace].
      * destruct IH as (j & r & fd & p & pre & Hj & Hr & Hcan & Hacc & Hleast & Htr & Hpre & Herr').
        rewrite (can_connect_frame _ _ _ _ Hf) in Hcan.
        exists j, r, fd, p, (EvLoad Fnum_wan_servers :: trace (probe_server env i s) ++ pre).
        repeat split; try lia; try done.
        -- intros j' r' Hj' Hr' Hcan' Hacc'.
           destruct (decide (j' = i)) as [->|Hne].
           ++ destruct Hrej as [Hrej|Hrej]; [congruence|].
              rewrite Hrej in Hacc' by done. done.
           ++ apply Hleast; try done; try lia.
              by rewrite (can_connect_frame _ _ _ _ Hf).
        -- rewrite Htr. cbn [app]. by rewrite app_assoc.
        -- constructor; [done|]. by apply Forall_app.
      * destruct IH as (Hall & Htr & Herr').
        repeat split.
        -- intros j Hj. destruct (decide (j = i)) as [->|Hne]; [done|].
           rewrite <- (can_connect_frame _ _ _ _ Hf). apply Hall. lia.
        -- constructor; [done|]. by apply Forall_app.
        -- intros _. destruct n as [|n']; [by rewrite wan_loop_O|by apply Herr'].
Qed.

Lemma has_failure_app_r t1 t2 : has_failure t2 -> has_failure (t1 ++ t2).
Proof.
  unfold has_failure. rewrite last_failure_app. by intros [e ->].
Qed.

Lemma has_failure_app_l t1 t2 : has_failure t1 -> has_failure (t1 ++ t2).
Proof.
  unfold has_failure. rewrite last_failure_app.
  intros H. by destruct (last_failure t2).
Qed.

Lemma has_failure_cons ev tr : has_failure tr -> has_failure (ev :: tr).
Proof. apply (has_failure_app_r [ev]). Qed.

Lemma connect_retries_has_failure env i fd p n retry s :
  n <> O ->
  val (connect_retries env i fd p n retry s) = false ->
  has_failure (trace (connect_retries env i fd p n retry s)).
Proof.
  destruct n as [|n]; [done|]. intros _.
  destruct (env_wan_connect env i retry) as [[]|e] eqn:Hc.
  - by rewrite (connect_retries_accept _ _ _ _ _ _ _ Hc).
  - rewrite (connect_retries_reject _ _ _ _ _ _ _ _ Hc). cbn zeta. cbn [val trace].
    intros _. unfold has_failure. cbn [last_failure failure_code].
    by repeat case_match.
Qed.

Lemma wan_loop_has_failure env n i s :
  val (wan_loop env n i s) = false ->
  (exists j, (i <= j < i + n)%nat /\ can_connect env (mon s) j = true) ->
  has_failure (trace (wan_loop env n i s)).
Proof.
  revert i s. induction n as [|n IH]; intros i s Hv (j & Hj & Hcan); [lia|].
  revert Hv. rewrite wan_loop_S. cbn zeta.
  pose proof (frames_probe_server env i s) as Hf.
  destruct (val (probe_server env i s)) eqn:Hp; [done|]. cbn [val trace].
  intros Hv. apply has_failure_cons.
  destruct (decide (j = i)) as [->|Hne].
  - apply has_failure_app_l.
    unfold can_connect in Hcan.
    destruct (env_wan_socket env i) as [fd|] eqn:Hs; [|done].
    revert Hp. rewrite (probe_server_connects _ _ _ _ Hs Hcan). cbn zeta. cbn [val trace].
    intros Hp. apply has_failure_app_r, has_failure_app_l.
    by apply connect_retries_has_failure.
  - apply has_failure_app_r. apply IH; [done|].
    exists j. split; [lia|]. by rewrite (can_connect_frame _ _ _ _ Hf).
Qed.

(** C1: on a server list with at least one server that can be connected to,
    [check_wan] returns [true] if and only if one of the (at most three)
    connection attempts to one of the listed servers is accepted; when it
    does, the accepted attempt is the first one in the order of the list
    and of the retries, [last_error] is 0, and the function returns right
    after it (only the [close] and the store of [last_error] follow, and no
    earlier [connect] of the run succeeded); when it returns [false],
    [last_error] is the code of the most recent failed call of the run. *)
Theorem check_wan_first_success (env : Env) (s : cpu) :
  let n := Z.to_nat (num_wan_servers (mon s)) in
  let out := check_wan env s in
  (exists j, (j < n)%nat /\ can_connect env (mon s) j = true) ->
  (val out = true <->
   exists j r, (j < n)%nat /\ (r < 3)%nat /\
     can_connect env (mon s) j = true /\ accepts env j r = true) /\
  (val out = true ->
   last_error (mon (post out)) = 0 /\
   exists j r fd p pre,
     (j < n)%nat /\ (r < 3)%nat /\
     can_connect env (mon s) j = true /\ accepts env j r = true /\
     (forall j' r', (j' < n)%nat -> (r' < 3)%nat ->
        can_connect env (mon s) j' = true -> accepts env j' r' = true ->
        (j < j')%nat \/ (j = j' /\ (r <= r')%nat)) /\
     trace out = pre ++ success_tail j r fd p /\
     Forall (fun ev => connect_ok ev = false) pre) /\
  (val out = false ->
   last_failure (trace out) = Some (last_error (mon (post out)))).
Proof.
  cbn zeta. intros Hvalid.
  pose proof (wan_loop_spec env (Z.to_nat (num_wan_servers (mon s))) 0 s) as Hspec.
  pose proof (tracks_check_wan env s) as Herrno.
  pose proof (wan_loop_has_failure env (Z.to_nat (num_wan_servers (mon s))) 0 s) as Hfail.
  cbn zeta in Hspec. unfold check_wan in *.
  set (n := Z.to_nat (num_wan_servers (mon s))) in *.
  destruct (val (wan_loop env n 0 s)) eqn:Hv.
  - destruct Hspec as (j & r & fd & p & pre & Hj & Hr & Hcan & Hacc & Hleast & Htr & Hpre & Herr).
    split; [|split]; [| |done].
    + split; [|done]. intros _. exists j, r. repeat split; try lia; done.
    + intros _. split; [done|]. exists j, r, fd, p, pre.
      repeat split; try lia; try done.
      intros j' r' Hj' Hr'. apply Hleast; lia.
  - destruct Hspec as (Hall & Hnos & Herr).
    split; [|split]; [|done|].
    + split; [done|]. intros (j & r & Hj & Hr & Hcan & Hacc).
      destruct (Hall j) as [Hno|Hrej]; [lia|congruence|].
      rewrite Hrej in Hacc by done. done.
    + intros _.
      destruct Hfail as [e He]; [done| |].
      { destruct Hvalid as (j & Hj & Hcan). exists j. split; [lia|done]. }
      rewrite He in Herrno |- *. cbn in Herrno.
      rewrite Herr, Herrno; [done|].
      destruct Hvalid as (j & Hj & _). lia.
Qed.

Lemma check_wan_first_success_witness :
  (exists j, (j < Z.to_nat (num_wan_servers test_monitor))%nat /\
             can_connect env_online test_monitor j = true) /\
  val (check_wan env_online (mkCpu test_monitor 0)) = true /\
  last_error (mon (post (check_wan env_online (mkCpu test_monitor 0)))) = 0 /\
  val (check_wan env_offline (mkCpu test_monitor 0)) = false /\
  last_failure (trace (check_wan env_offline (mkCpu test_monitor 0))) = Some 101 /\
  last_error (mon (post (check_wan env_offline (mkCpu test_monitor 0)))) = 101.
Proof.
  assert (Hvalid : forall env, env_wan_socket env = env_wan_socket env_online ->
            env_inet_pton env = inet_pton4 ->
            exists j, (j < Z.to_nat (num_wan_servers test_monitor))%nat /\
                      can_connect env test_monitor j = true).
  { intros env Hs Hp. exists O. split; [vm_compute; lia|].
    unfold can_connect. rewrite Hs, Hp. reflexivity. }
  split; [apply Hvalid; reflexivity|].
  split; [reflexivity|].
  split.
  { apply (proj1 (proj2 (check_wan_first_success env_online (mkCpu test_monitor 0)
                           (Hvalid env_online eq_refl eq_refl)))).
    reflexivity. }
  split; [reflexivity|].
  split; [|reflexivity].
  rewrite (proj2 (proj2 (check_wan_first_success env_offline (mkCpu test_monitor 0)
                           (Hvalid env_offline eq_refl eq_refl))) eq_refl).
  reflexivity.
Defined.

(** ** Retries and backoff *)

Lemma Forall_syscalls (P : event -> Prop) tr :
  Forall P tr -> Forall P (syscalls tr).
Proof.
  induction 1 as [|ev tr Hev _ IH]; simpl; [constructor|].
  destruct (is_syscall ev); [by constructor|done].
Qed.

Lemma syscalls_app t1 t2 : syscalls (t1 ++ t2) = syscalls t1 ++ syscalls t2.
Proof. apply List.filter_app. Qed.

Lemma connect_retries_connects_at env i fd p n retry s :
  Forall (connects_at i) (trace (connect_retries env i fd p n retry s)).
Proof.
  revert retry s. induction n as [|n IH]; intros retry s; [constructor|].
  destruct (env_wan_connect env i retry) as [[]|e] eqn:Hc.
  - rewrite (connect_retries_accept _ _ _ _ _ _ _ Hc). by repeat constructor.
  - rewrite (connect_retries_reject _ _ _ _ _ _ _ _ Hc). cbn zeta. cbn [trace].
    repeat (constructor; [done|]). apply IH.
Qed.

Lemma probe_server_connects_at env i s :
  Forall (connects_at i) (trace (probe_server env i s)).
Proof.
  destruct (env_wan_socket env i) as [fd|e] eqn:Hs.
  2:{ rewrite (probe_server_no_socket _ _ _ _ Hs). by repeat constructor. }
  destruct (env_inet_pton env (host (server_at i (mon s)))) eqn:Hp.
  2:{ rewrite (probe_server_bad_host _ _ _ _ Hs Hp). by repeat constructor. }
  rewrite (probe_server_connects _ _ _ _ Hs Hp). cbn zeta. cbn [trace].
  apply Forall_app. split; [by repeat constructor|].
  apply Forall_app. split; [apply connect_retries_connects_at|].
  destruct (val _); by repeat constructor.
Qed.

Lemma wan_loop_connects_from env n i s :
  Forall (connects_from i) (trace (wan_loop env n i s)).
Proof.
  revert i s. induction n as [|n IH]; intros i s.
  - rewrite wan_loop_O. by repeat constructor.
  - rewrite wan_loop_S. cbn zeta.
    assert (H1 : Forall (connects_from i) (trace (probe_server env i s))).
    { eapply Forall_impl; [apply probe_server_connects_at|].
      intros []; simpl; try done. lia. }
    destruct (val (probe_server env i s)); cbn [trace].
    + by constructor.
    + constructor; [done|]. apply Forall_app. split; [done|].
      eapply Forall_impl; [apply IH|]. intros []; simpl; try done. lia.
Qed.

(** The calls for a server that is rejected three times. *)
Lemma probe_server_rejected env j s fd e0 e1 e2 :
  env_wan_socket env j = Ok fd ->
  env_inet_pton env (host (server_at j (mon s))) = true ->
  env_wan_connect env j 0 = Fail e0 ->
  env_wan_connect env j 1 = Fail e1 ->
  env_wan_connect env j 2 = Fail e2 ->
  val (probe_server env j s) = false /\
  syscalls (trace (probe_server env j s)) =
    failed_server_calls env (mon s) j fd e0 e1 e2.
Proof.
  intros Hs Hp H0 H1 H2.
  rewrite (probe_server_connects _ _ _ _ Hs Hp). cbn zeta.
  rewrite (connect_retries_reject _ _ _ _ _ _ _ _ H0). cbn zeta.
  rewrite (connect_retries_reject _ _ _ _ _ _ _ _ H1). cbn zeta.
  rewrite (connect_retries_reject _ _ _ _ _ _ _ _ H2). cbn zeta.
  split; reflexivity.
Qed.

Lemma failed_server_calls_frame env m m' j fd e0 e1 e2 :
  only_last_error m m' ->
  failed_server_calls env m' j fd e0 e1 e2 = failed_server_calls env m j fd e0 e1 e2.
Proof. intros ->. reflexivity. Qed.

Lemma wan_loop_failed_server env n i s j fd e0 e1 e2 :
  (i <= j < i + n)%nat ->
  (forall j' r, (i <= j' < j)%nat -> (r < 3)%nat ->
     can_connect env (mon s) j' = true -> accepts env j' r = false) ->
  env_wan_socket env j = Ok fd ->
  env_inet_pton env (host (server_at j (mon s))) = true ->
  env_wan_connect env j 0 = Fail e0 ->
  env_wan_connect env j 1 = Fail e1 ->
  env_wan_connect env j 2 = Fail e2 ->
  exists before after,
    syscalls (trace (wan_loop env n i s)) =
      before ++ failed_server_calls env (mon s) j fd e0 e1 e2 ++ after /\
    Forall (connects_below j) before /\
    Forall (connects_from (S j)) after.
Proof.
  revert i s. induction n as [|n IH]; intros i s Hj Hreach Hs Hp H0 H1 H2; [lia|].
  rewrite wan_loop_S. cbn zeta.
  pose proof (frames_probe_server env i s) as Hf.
  destruct (decide (j = i)) as [->|Hne].
  - destruct (probe_server_rejected _ _ _ _ _ _ _ Hs Hp H0 H1 H2) as [Hv Htr].
    rewrite Hv. cbn [trace].
    exists [], (syscalls (trace (wan_loop env n (S i) (post (probe_server env i s))))).
    split; [|split].
    + change (EvLoad Fnum_wan_servers :: ?l) with ([EvLoad Fnum_wan_servers] ++ l).
      rewrite !syscalls_app, Htr. reflexivity.
    + constructor.
    + apply Forall_syscalls, wan_loop_connects_from.
  - pose proof (probe_server_spec env i s) as Hspec. cbn zeta in Hspec.
    destruct (val (probe_server env i s)).
    { destruct Hspec as (Hcan & r & _ & _ & _ & Hr & Hacc & _).
      rewrite (Hreach i r) in Hacc; [done|lia|lia|done]. }
    cbn [trace].
    destruct (IH (S i) (post (probe_server env i s))) as (before & after & Htr & Hb & Ha).
    + lia.
    + intros j' r Hj' Hr Hcan. apply Hreach; [lia|done|].
      by rewrite <- (can_connect_frame _ _ _ _ Hf).
    + done.
    + unfold only_last_error in Hf. rewrite Hf. exact Hp.
    + done.
    + done.
    + done.
    + rewrite (failed_server_calls_frame _ _ _ _ _ _ _ _ Hf) in Htr.
      exists (syscalls (trace (probe_server env i s)) ++ before), after.
      split; [|split]; [| |done].
      * change (EvLoad Fnum_wan_servers :: ?l) with ([EvLoad Fnum_wan_servers] ++ l).
        rewrite !syscalls_app, Htr. cbn [syscalls List.filter is_syscall app].
        by rewrite <- app_assoc.
      * apply Forall_app. split; [|done].
        apply Forall_syscalls.
        eapply Forall_impl; [apply probe_server_connects_at|].
        intros []; simpl; try done. lia.
Qed.

(** C2: a server of the list that is reached (no earlier server accepted a
    connection), whose socket opens and whose address parses, and whose
    connection attempts all fail, is connected to exactly three times, with
    sleeps of 100 ms, 200 ms and 400 ms after the first, second and third
    attempt; all calls for earlier servers come before and all calls for
    later servers come after. *)
Theorem check_wan_three_attempts_with_backoff
    (env : Env) (s : cpu) (j : nat) (fd : N) (e0 e1 e2 : Z) :
  (j < Z.to_nat (num_wan_servers (mon s)))%nat ->
  (forall j' r, (j' < j)%nat -> (r < 3)%nat ->
     can_connect env (mon s) j' = true -> accepts env j' r = false) ->
  env_wan_socket env j = Ok fd ->
  env_inet_pton env (host (server_at j (mon s))) = true ->
  env_wan_connect env j 0 = Fail e0 ->
  env_wan_connect env j 1 = Fail e1 ->
  env_wan_connect env j 2 = Fail e2 ->
  exists before after,
    syscalls (trace (check_wan env s)) =
      before ++ failed_server_calls env (mon s) j fd e0 e1 e2 ++ after /\
    Forall (connects_below j) before /\
    Forall (connects_from (S j)) after.
Proof.
  intros Hj Hreach Hs Hp H0 H1 H2. unfold check_wan.
  apply wan_loop_failed_server; try done.
  - lia.
  - intros j' r Hj'. apply Hreach. lia.
Qed.

Lemma check_wan_three_attempts_with_backoff_witness :
  exists before after,
    syscalls (trace (check_wan env_offline (mkCpu test_monitor 0))) =
      before ++ failed_server_calls env_offline test_monitor 1 4%N 101 101 101 ++ after /\
    Forall (connects_below 1) before /\
    Forall (connects_from 2) after.
Proof.
  apply (check_wan_three_attempts_with_backoff env_offline (mkCpu test_monitor 0) 1 4%N).
  - vm_compute. lia.
  - intros j' r Hj' Hr _. reflexivity.
  - reflexivity.
  - reflexivity.
  - reflexivity.
  - reflexivity.
  - reflexivity.
Defined.

(** ** Interface detection *)

Lemma is_default_route_bits dest gw flags :
  is_default_route dest gw flags = true <->
  dest = 0 /\ Z.testbit flags 1 = true /\ Z.testbit flags 0 = true /\ gw <> 0.
Proof.
  unfold is_default_route.
  change RTF_GATEWAY with (2 ^ 1). change RTF_UP with (2 ^ 0).
  rewrite !land_pow2_eqb, !negb_involutive by lia.
  rewrite !andb_true_iff, Z.eqb_eq, negb_true_iff, Z.eqb_neq. tauto.
Qed.

Lemma not_default_route_line env line :
  ~ is_default_route_line env line ->
  match env_route_scan env line with
  | Some (_, dest, gw, flags) => is_default_route dest gw flags = false
  | None => True
  end.
Proof.
  intros Hno. destruct (env_route_scan env line) as [[[[name dest] gw] flags]|] eqn:Hscan; [|done].
  destruct (is_default_route dest gw flags) eqn:Hd; [|done].
  exfalso. apply Hno. exists name, dest, gw, flags.
  split; [done|]. by apply is_default_route_bits.
Qed.

(** The scan loop skips lines that are not default routes ... *)
Lemma scan_routes_skip env before rest s :
  Forall (fun l => ~ is_default_route_line env l) before ->
  scan_routes env (before ++ rest) s =
    mkOut (val (scan_routes env rest s)) (post (scan_routes env rest s))
      (map EvFgets before ++ trace (scan_routes env rest s)).
Proof.
  induction 1 as [|line before Hno _ IH]; simpl.
  - by destruct (scan_routes env rest s).
  - apply not_default_route_line in Hno.
    unfold bind. cbn [emit val post trace].
    destruct (env_route_scan env line) as [[[[name dest] gw] flags]|].
    + rewrite Hno, IH. reflexivity.
    + rewrite IH. reflexivity.
Qed.

(** ... and stops at the first that is one. *)
Lemma scan_routes_hit env line name rest s :
  default_route_via env line name ->
  scan_routes env (line :: rest) s = mkOut (Some name) s [EvFgets line].
Proof.
  intros (dest & gw & flags & Hscan & Hd).
  apply is_default_route_bits in Hd.
  simpl. unfold bind. cbn [emit val post trace]. by rewrite Hscan, Hd.
Qed.

Lemma scan_routes_end env s : scan_routes env [] s = mkOut None s [].
Proof. reflexivity. Qed.

Lemma substring_all (s : string) (k : nat) :
  (String.length s <= k)%nat -> String.substring 0 k s = s.
Proof.
  revert k. induction s as [|c s IH]; intros k Hk.
  - by destruct k.
  - destruct k as [|k]; simpl in *; [lia|]. rewrite IH; [done|lia].
Qed.

Lemma strncpy_term_fits (n : nat) (s : string) :
  (String.length s < n)%nat -> strncpy_term n s = s.
Proof. intros H. unfold strncpy_term. apply substring_all. lia. Qed.

(** C5: [detect_lan_interface] stores the interface name of the first line
    of the routing table that is a default route (destination 0.0.0.0,
    gateway flag and up flag set, gateway not 0.0.0.0) and returns [true];
    the name is stored whole when it fits the 16-byte field.  When no line
    qualifies it returns [false], leaves the interface alone, and sets
    [last_error] to 0.  When the table cannot be opened it returns [false]
    with [last_error] set to the [errno] of [fopen]. *)
Theorem detect_lan_interface_first_default_route (env : Env) (s : cpu) :
  let out := detect_lan_interface env s in
  (forall e, env_route_file env = Fail e ->
     val out = false /\
     last_error (mon (post out)) = e /\
     lan_interface (mon (post out)) = lan_interface (mon s)) /\
  (forall before line after name,
     env_route_file env = Ok (before ++ line :: after) ->
     Forall (fun l => ~ is_default_route_line env l) before ->
     default_route_via env line name ->
     val out = true /\
     lan_interface (mon (post out)) = strncpy_term IF_NAMESIZE name /\
     ((String.length name < IF_NAMESIZE)%nat ->
      lan_interface (mon (post out)) = name) /\
     last_error (mon (post out)) = 0) /\
  (forall lines,
     env_route_file env = Ok lines ->
     Forall (fun l => ~ is_default_route_line env l) lines ->
     val out = false /\
     last_error (mon (post out)) = 0 /\
     lan_interface (mon (post out)) = lan_interface (mon s)).
Proof.
  cbn zeta. split; [|split].
  - intros e He. unfold detect_lan_interface. rewrite He. done.
  - intros before line after name Hfile Hbefore Hline.
    assert (Hscan : scan_routes env (before ++ line :: after) s
                    = mkOut (Some name) s (map EvFgets before ++ [EvFgets line])).
    { rewrite (scan_routes_skip _ _ _ _ Hbefore).
      by rewrite (scan_routes_hit _ _ _ _ _ Hline). }
    unfold detect_lan_interface. rewrite Hfile. unfold bind, emit.
    cbn [val post trace]. rewrite Hscan. cbn -[strncpy_term IF_NAMESIZE].
    repeat split; try done.
    intros Hlen. by apply strncpy_term_fits.
  - intros lines Hfile Hnone.
    assert (Hscan : scan_routes env lines s = mkOut None s (map EvFgets lines ++ [])).
    { rewrite <- (app_nil_r lines) at 1.
      by rewrite (scan_routes_skip _ _ _ _ Hnone), scan_routes_end. }
    unfold detect_lan_interface. rewrite Hfile. unfold bind, emit.
    cbn [val post trace]. rewrite Hscan. done.
Qed.

Lemma detect_lan_interface_first_default_route_witness :
  env_route_file env_online = Ok ([route_header; route_local_eth0] ++ route_default_eth0 :: []) /\
  Forall (fun l => ~ is_default_route_line env_online l) [route_header; route_local_eth0] /\
  default_route_via env_online route_default_eth0 "eth0" /\
  val (detect_lan_interface env_online (mkCpu raw_block 5)) = true /\
  lan_interface (mon (post (detect_lan_interface env_online (mkCpu raw_block 5)))) = "eth0" /\
  last_error (mon (post (detect_lan_interface env_online (mkCpu raw_block 5)))) = 0.
Proof.
  assert (Hfile : env_route_file env_online
                  = Ok ([route_header; route_local_eth0] ++ route_default_eth0 :: []))
    by reflexivity.
  assert (Hbefore : Forall (fun l => ~ is_default_route_line env_online l)
                      [route_header; route_local_eth0]).
  { repeat constructor; intros (name & dest & gw & flags & Hscan & Hd & _);
      vm_compute in Hscan; congruence. }
  assert (Hline : default_route_via env_online route_default_eth0 "eth0").
  { exists 0x0, 0x0101A8C0, 0x3. repeat split; done. }
  destruct (proj1 (proj2 (detect_lan_interface_first_default_route env_online
                            (mkCpu raw_block 5)))
                  _ _ _ _ Hfile Hbefore Hline) as (Hv & _ & Hname & Herr).
  split; [exact Hfile|]. split; [exact Hbefore|]. split; [exact Hline|].
  split; [exact Hv|]. split; [|exact Herr].
  apply Hname. vm_compute. lia.
Defined.

(** ** Reachable monitors *)

Lemma keeps_ret {A B} (proj : NetworkMonitor -> B) (a : A) : keeps proj (ret a).
Proof. by intros s. Qed.

Lemma keeps_bind {A B C} (proj : NetworkMonitor -> C) (c : M A) (k : A -> M B) :
  keeps proj c -> (forall a, keeps proj (k a)) -> keeps proj (bind c k).
Proof. intros Hc Hk s. rewrite bind_unfold. cbn [post]. by rewrite Hk, Hc. Qed.

Lemma keeps_emit {B} (proj : NetworkMonitor -> B) ev : keeps proj (emit ev).
Proof. by intros s. Qed.

Lemma keeps_load {A B} (proj : NetworkMonitor -> B) f (get : NetworkMonitor -> A) :
  keeps proj (load f get).
Proof. by intros s. Qed.

Lemma keeps_store {B} (proj : NetworkMonitor -> B) f upd :
  (forall m, proj (upd m) = proj m) -> keeps proj (store f upd).
Proof. intros H s. apply H. Qed.

Lemma keeps_frames {A B} (proj : NetworkMonitor -> B) (c : M A) :
  (forall v m, proj (with_last_error v m) = proj m) ->
  frames c -> keeps proj c.
Proof. intros Hp Hc s. rewrite (Hc s). apply Hp. Qed.

Lemma frames_scan_routes env lines : frames (scan_routes env lines).
Proof.
  induction lines as [|line rest IH]; simpl; frames_auto.
Qed.

Lemma keeps_config_detect env : keeps config_of (detect_lan_interface env).
Proof.
  unfold detect_lan_interface.
  repeat match goal with
  | |- keeps _ (bind _ _) => apply keeps_bind; [| intros ?]
  | |- keeps _ (match ?x with _ => _ end) => destruct x
  | |- keeps _ (scan_routes _ _) => apply keeps_frames; [done|apply frames_scan_routes]
  | |- keeps _ (store _ _) => apply keeps_store; done
  | |- keeps _ _ => first [apply keeps_ret | apply keeps_emit | apply keeps_load
                          | apply keeps_frames; [done|auto with frames] ]
  end.
Qed.

(** Splits a computation along its binds and branches, for [config_of]. *)
Ltac keeps_config :=
  repeat match goal with
  | |- keeps _ (bind _ _) => apply keeps_bind; [| intros ?]
  | |- keeps _ (if ?b then _ else _) => destruct b
  | |- keeps _ (match ?x with _ => _ end) => destruct x
  | |- keeps _ (detect_lan_interface _) => apply keeps_config_detect
  | |- keeps _ (store _ _) => apply keeps_store; done
  | |- keeps _ _ => first [apply keeps_ret | apply keeps_emit | apply keeps_load
                          | apply keeps_frames; [done|auto with frames] ]
  end.

Lemma keeps_config_init_lan_interface env cfg :
  keeps config_of (init_lan_interface env cfg).
Proof. unfold init_lan_interface, detect_or_loopback. keeps_config. Qed.

Lemma keeps_config_validate sys env :
  keeps config_of (validate_lan_interface sys env).
Proof. unfold validate_lan_interface, sys_close. keeps_config. Qed.

Lemma keeps_config_init_state : keeps config_of init_state.
Proof. unfold init_state. keeps_config. Qed.

Lemma keeps_config_start_thread sys : keeps config_of (start_thread sys).
Proof. unfold start_thread. keeps_config. Qed.

(** After the first block of the constructor the numeric settings are
    positive and the server array holds the defaults, except possibly for
    its first slot. *)
Lemma init_config_spec cfg s :
  length (wan_servers (mon s)) = Z.to_nat MAX_WAN_SERVERS ->
  let m := mon (post (init_config cfg s)) in
  valid_config m /\
  num_wan_servers m = MAX_WAN_SERVERS /\
  exists first, wan_servers m = first :: drop 1 defaults.
Proof.
  intros Hlen. destruct s as [raw e]. simpl in Hlen.
  destruct raw as [t i p srvs n l wu lu lc le r]. simpl in Hlen.
  destruct srvs as [|s0 [|s1 [|s2 [|s3 [|s4 srvs]]]]]; try done.
  unfold valid_config.
  destruct cfg as [[ct ci cp [h|] cport cl]|]; cbn -[Z.gtb].
  - destruct (Z.gtb_spec ct 0), (Z.gtb_spec ci 0), (Z.gtb_spec cport 0);
      cbn; (split; [lia|]); (split; [done|]); eauto.
  - destruct (Z.gtb_spec ct 0), (Z.gtb_spec ci 0);
      cbn; (split; [lia|]); (split; [done|]); eauto.
  - (split; [lia|]); (split; [done|]); eauto.
Qed.

Lemma network_monitor_new_config sys env cfg s :
  val (network_monitor_new sys env cfg s) = true ->
  config_of (mon (post (network_monitor_new sys env cfg s))) =
  config_of (mon (post (init_config cfg s))).
Proof.
  unfold network_monitor_new.
  destruct (ctor_malloc_ok sys); cbn [negb]; [|done].
  intros _. rewrite bind_unfold. cbn [post].
  generalize (post (init_config cfg s)).
  match goal with
  | |- forall s1, config_of (mon (post (?c s1))) = _ => change (keeps config_of c)
  end.
  repeat match goal with
  | |- keeps _ (bind _ _) => apply keeps_bind; [| intros ?]
  | |- keeps _ (if ?b then _ else _) => destruct b
  end;
  auto using keeps_config_init_lan_interface, keeps_config_validate,
    keeps_config_init_state, keeps_config_start_thread, keeps_ret, keeps_emit.
Qed.

Lemma monitor_inv_config m m' :
  config_of m' = config_of m -> monitor_inv m -> monitor_inv m'.
Proof.
  unfold config_of, monitor_inv, valid_config. intros [= Ht Hi _ Hs Hn].
  by rewrite Ht, Hi, Hs, Hn.
Qed.

Lemma monitor_inv_new sys env cfg raw e :
  length (wan_servers raw) = Z.to_nat MAX_WAN_SERVERS ->
  result (network_monitor_new sys env cfg) raw e = true ->
  monitor_inv (exec (network_monitor_new sys env cfg) raw e).
Proof.
  intros Hlen Hres. unfold exec, result in *.
  eapply monitor_inv_config; [by apply network_monitor_new_config|].
  by apply (init_config_spec cfg (mkCpu raw e)).
Qed.

Lemma monitor_inv_op m o e : monitor_inv m -> monitor_inv (exec (run_op o) m e).
Proof.
  intros Hinv. pose proof Hinv as (Hvalid & Hnum & first & Hsrv). unfold exec.
  destruct o as [ | | | |ms|sec|proxy|h|p|iface| |env|env w l| ]; cbn [run_op].
  - by eapply monitor_inv_config.
  - by eapply monitor_inv_config.
  - by eapply monitor_inv_config.
  - by eapply monitor_inv_config.
  - (* set_timeout_ms *)
    split; [|by eauto]. destruct Hvalid as [Ht Hi]. split; [|done].
    cbn. destruct (Z.gtb_spec ms 0); lia.
  - (* set_check_interval_sec *)
    split; [|by eauto]. destruct Hvalid as [Ht Hi]. split; [done|].
    cbn. destruct (Z.gtb_spec sec 0); lia.
  - by eapply monitor_inv_config.
  - (* set_wan_test_host *)
    split; [done|]. split; [done|].
    cbn -[strncpy_term]. rewrite Hsrv. cbn -[strncpy_term]. eauto.
  - (* set_wan_test_port *)
    split; [done|]. split; [done|].
    cbn -[Z.gtb]. rewrite Hsrv. cbn -[Z.gtb]. eauto.
  - by eapply monitor_inv_config.
  - (* the flag check of the loop *)
    eapply monitor_inv_config; [|done].
    unfold loop_flag_check, bind, load, pthread_mutex_lock, emit.
    cbn [val post trace mon]. by destruct (running m).
  - (* the checks of the loop *)
    eapply monitor_inv_config; [|done].
    rewrite bind_unfold. cbn [post ret].
    pose proof (frames_loop_run_checks env (mkCpu m e)) as Hf.
    unfold only_last_error in Hf. cbn [mon] in Hf. by rewrite Hf.
  - by eapply monitor_inv_config.
  - by eapply monitor_inv_config.
Qed.

Lemma reachable_inv m : Reachable m -> monitor_inv m.
Proof.
  induction 1 as [sys env cfg raw e Hlen Hres|m o e _ IH].
  - by apply monitor_inv_new.
  - by apply monitor_inv_op.
Qed.

(** The monitor of the test program is reachable. *)
Lemma test_monitor_reachable : Reachable test_monitor.
Proof. apply Reach_new; reflexivity. Defined.

(** ** Mutators *)

(** C8: on every monitor handle, [set_timeout_ms] with an argument that is
    zero or negative leaves [timeout_ms] at 1000 and
    [set_check_interval_sec] with an argument that is zero or negative
    leaves [check_interval_sec] at 5 (a positive argument is stored as it
    is); after either call both settings are strictly positive. *)
Theorem numeric_setters_clamp_to_defaults (m : NetworkMonitor) (e : Z) :
  Reachable m ->
  (forall ms, ms <= 0 -> timeout_ms (exec (set_timeout_ms ms) m e) = 1000) /\
  (forall sec, sec <= 0 ->
     check_interval_sec (exec (set_check_interval_sec sec) m e) = 5) /\
  (forall ms, 0 < ms -> timeout_ms (exec (set_timeout_ms ms) m e) = ms) /\
  (forall sec, 0 < sec ->
     check_interval_sec (exec (set_check_interval_sec sec) m e) = sec) /\
  (forall ms, valid_config (exec (set_timeout_ms ms) m e)) /\
  (forall sec, valid_config (exec (set_check_interval_sec sec) m e)).
Proof.
  intros Hreach. apply reachable_inv in Hreach.
  repeat split.
  - intros ms Hms. cbn. destruct (Z.gtb_spec ms 0); [lia|done].
  - intros sec Hsec. cbn. destruct (Z.gtb_spec sec 0); [lia|done].
  - intros ms Hms. cbn. destruct (Z.gtb_spec ms 0); [done|lia].
  - intros sec Hsec. cbn. destruct (Z.gtb_spec sec 0); [done|lia].
  - apply (monitor_inv_op m (OpSetTimeoutMs ms) e Hreach).
  - apply (monitor_inv_op m (OpSetTimeoutMs ms) e Hreach).
  - apply (monitor_inv_op m (OpSetCheckIntervalSec sec) e Hreach).
  - apply (monitor_inv_op m (OpSetCheckIntervalSec sec) e Hreach).
Qed.

Lemma numeric_setters_clamp_to_defaults_witness :
  Reachable test_monitor /\
  timeout_ms (exec (set_timeout_ms 0) test_monitor 0) = 1000 /\
  timeout_ms (exec (set_timeout_ms (-5)) test_monitor 0) = 1000 /\
  check_interval_sec (exec (set_check_interval_sec 0) test_monitor 0) = 5 /\
  valid_config (exec (set_timeout_ms (-5)) test_monitor 0).
Proof.
  pose proof (numeric_setters_clamp_to_defaults test_monitor 0 test_monitor_reachable)
    as (Ht & Hi & _ & _ & Hvt & _).
  split; [exact test_monitor_reachable|].
  split; [apply Ht; lia|].
  split; [apply Ht; lia|].
  split; [apply Hi; lia|].
  apply Hvt.
Defined.

(** What a step does to the server array and to its count. *)
Lemma run_op_servers m o e :
  num_wan_servers (exec (run_op o) m e) = num_wan_servers m /\
  wan_servers (exec (run_op o) m e) =
    match o with
    | OpSetWanTestHost h =>
        alter (fun s => mkWanServer (strncpy_term HOST_SIZE (default "8.8.8.8" h)) (port s))
          0%nat (wan_servers m)
    | OpSetWanTestPort p =>
        alter (fun s => mkWanServer (host s) (if p >? 0 then p else 53))
          0%nat (wan_servers m)
    | _ => wan_servers m
    end.
Proof.
  unfold exec.
  destruct o as [ | | | |ms|sec|proxy|h|p|iface| |env|env w l| ]; cbn [run_op];
    try done.
  - unfold loop_flag_check, bind, load, pthread_mutex_lock, emit.
    cbn [val post trace mon]. by destruct (running m).
  - rewrite bind_unfold. cbn [post ret].
    pose proof (frames_loop_run_checks env (mkCpu m e)) as Hf.
    unfold only_last_error in Hf. cbn [mon] in Hf. by rewrite Hf.
Qed.

(** C9: on every monitor handle the server count is 4, the array holds 4
    entries, and the entries at indices 1, 2 and 3 are the defaults
    1.1.1.1:53, 9.9.9.9:53 and 208.67.222.222:53; no step changes an
    entry at an index other than 0; so the list always holds an entry that
    [check_wan] can use. *)
Theorem wan_servers_fixed_defaults (m : NetworkMonitor) :
  Reachable m ->
  num_wan_servers m = 4 /\
  length (wan_servers m) = 4%nat /\
  wan_servers m !! 1%nat = Some (mkWanServer "1.1.1.1" 53) /\
  wan_servers m !! 2%nat = Some (mkWanServer "9.9.9.9" 53) /\
  wan_servers m !! 3%nat = Some (mkWanServer "208.67.222.222" 53) /\
  (forall o e i, i <> 0%nat ->
     wan_servers (exec (run_op o) m e) !! i = wan_servers m !! i) /\
  (exists i srv, wan_servers m !! i = Some srv /\ valid_server srv).
Proof.
  intros Hreach. apply reachable_inv in Hreach.
  destruct Hreach as (_ & Hnum & first & Hsrv).
  split; [done|]. rewrite Hsrv.
  split; [done|]. split; [done|]. split; [done|]. split; [done|]. split.
  - intros o e i Hi. destruct (run_op_servers m o e) as [_ Hs].
    rewrite Hs, Hsrv.
    destruct o; try done; by rewrite list_lookup_alter_ne.
  - exists 1%nat, (mkWanServer "1.1.1.1" 53). split; [done|].
    split; [reflexivity|]. cbn. lia.
Qed.

Lemma wan_servers_fixed_defaults_witness :
  Reachable (exec (set_wan_test_host (Some "192.0.2.1")) test_monitor 0) /\
  wan_servers (exec (set_wan_test_host (Some "192.0.2.1")) test_monitor 0) =
    [ mkWanServer "192.0.2.1" 53; mkWanServer "1.1.1.1" 53;
      mkWanServer "9.9.9.9" 53; mkWanServer "208.67.222.222" 53 ] /\
  wan_servers (exec (set_wan_test_host (Some "192.0.2.1")) test_monitor 0) !! 3%nat
    = Some (mkWanServer "208.67.222.222" 53).
Proof.
  assert (Hr : Reachable (exec (set_wan_test_host (Some "192.0.2.1")) test_monitor 0)).
  { apply (Reach_op test_monitor (OpSetWanTestHost (Some "192.0.2.1")) 0).
    exact test_monitor_reachable. }
  split; [exact Hr|]. split; [reflexivity|].
  apply (wan_servers_fixed_defaults _ Hr).
Defined.

(** C10: on every monitor handle, a [NULL] argument to a string mutator
    stores a fixed default: [set_proxy(NULL)] the empty string,
    [set_wan_test_host(NULL)] the host ["8.8.8.8"] in the first server
    entry, and [set_lan_interface(NULL)] the interface ["eth0"], whatever
    was configured or detected before. *)
Theorem null_string_arguments_take_defaults (m : NetworkMonitor) (e : Z) :
  Reachable m ->
  proxy_url (exec (set_proxy None) m e) = "" /\
  host (server_at 0 (exec (set_wan_test_host None) m e)) = "8.8.8.8" /\
  port (server_at 0 (exec (set_wan_test_host None) m e)) = port (server_at 0 m) /\
  lan_interface (exec (set_lan_interface None) m e) = "eth0".
Proof.
  intros Hreach. apply reachable_inv in Hreach.
  destruct Hreach as (_ & _ & first & Hsrv).
  split; [done|]. split; [|split]; [| |done].
  - unfold server_at. cbn -[strncpy_term]. by rewrite Hsrv.
  - unfold server_at. cbn -[strncpy_term]. by rewrite Hsrv.
Qed.

Lemma configured_monitor_reachable : Reachable configured_monitor.
Proof.
  apply (Reach_op _ (OpSetWanTestPort 443) 0).
  apply (Reach_op _ (OpSetWanTestHost (Some "1.1.1.1")) 0).
  apply (Reach_op _ (OpSetProxy (Some "http://example-proxy:8080")) 0).
  exact test_monitor_reachable.
Defined.

Lemma null_string_arguments_take_defaults_witness :
  Reachable configured_monitor /\
  proxy_url configured_monitor = "http://example-proxy:8080" /\
  host (server_at 0 configured_monitor) = "1.1.1.1" /\
  lan_interface configured_monitor = "lo" /\
  proxy_url (exec (set_proxy None) configured_monitor 0) = "" /\
  host (server_at 0 (exec (set_wan_test_host None) configured_monitor 0)) = "8.8.8.8" /\
  lan_interface (exec (set_lan_interface None) configured_monitor 0) = "eth0".
Proof.
  pose proof (null_string_arguments_take_defaults configured_monitor 0
                configured_monitor_reachable) as (Hp & Hh & _ & Hl).
  split; [exact configured_monitor_reachable|].
  split; [reflexivity|]. split; [reflexivity|]. split; [reflexivity|].
  split; [exact Hp|]. split; [exact Hh|exact Hl].
Defined.

(** ** Lock discipline *)

Lemma unlocked_accesses_app held t1 t2 :
  unlocked_accesses held (t1 ++ t2) =
    unlocked_accesses held t1 ++ unlocked_accesses (fold_left held_after t1 held) t2.
Proof.
  revert held. induction t1 as [|ev t1 IH]; intros held; [done|].
  cbn [app unlocked_accesses fold_left]. by rewrite IH, app_assoc.
Qed.

Lemma locked_io_app held t1 t2 :
  locked_io held (t1 ++ t2) =
    locked_io held t1 ++ locked_io (fold_left held_after t1 held) t2.
Proof.
  revert held. induction t1 as [|ev t1 IH]; intros held; [done|].
  cbn [app locked_io fold_left]. by rewrite IH, app_assoc.
Qed.

Lemma lock_free_held held tr : lock_free tr -> fold_left held_after tr held = held.
Proof.
  induction 1 as [|ev tr [Ht Hf] _ IH]; [done|].
  cbn [fold_left]. destruct held; by rewrite ?Ht, ?Hf.
Qed.

Lemma lock_free_no_locked_io tr : lock_free tr -> locked_io false tr = [].
Proof.
  induction 1 as [|ev tr [Ht Hf] _ IH]; [done|].
  cbn [locked_io]. by rewrite andb_false_r, Hf.
Qed.

Lemma lock_free_unlocked_accesses tr :
  lock_free tr -> unlocked_accesses false tr = List.filter is_access tr.
Proof.
  induction 1 as [|ev tr [Ht Hf] _ IH]; [done|].
  cbn [unlocked_accesses List.filter]. rewrite andb_true_r, Hf, IH.
  by destruct (is_access ev).
Qed.

Lemma never_locks_ret {A} (a : A) : never_locks (ret a).
Proof. intros s. constructor. Qed.

Lemma never_locks_bind {A B} (c : M A) (k : A -> M B) :
  never_locks c -> (forall a, never_locks (k a)) -> never_locks (bind c k).
Proof.
  intros Hc Hk s. rewrite bind_unfold. cbn [trace].
  apply Forall_app. split; [apply Hc|apply Hk].
Qed.

Lemma never_locks_emit ev :
  held_after true ev = true -> held_after false ev = false -> never_locks (emit ev).
Proof. intros Ht Hf s. by repeat constructor. Qed.

Lemma never_locks_load {A} f (get : NetworkMonitor -> A) : never_locks (load f get).
Proof. intros s. by repeat constructor. Qed.

Lemma never_locks_store f upd : never_locks (store f upd).
Proof. intros s. by repeat constructor. Qed.

Lemma never_locks_get_errno : never_locks get_errno.
Proof. intros s. constructor. Qed.

Lemma never_locks_set_errno e : never_locks (set_errno e).
Proof. intros s. constructor. Qed.

Ltac never_locks_auto :=
  repeat match goal with
  | |- never_locks (bind _ _) => apply never_locks_bind; [| intros ?]
  | |- never_locks (if ?b then _ else _) => destruct b
  | |- never_locks (match ?x with _ => _ end) => destruct x
  | |- never_locks _ =>
      first [ apply never_locks_ret | apply never_locks_load
            | apply never_locks_store | apply never_locks_get_errno
            | apply never_locks_set_errno
            | apply never_locks_emit; reflexivity
            | assumption ]
  end.

Lemma never_locks_connect_retries env i fd p n retry :
  never_locks (connect_retries env i fd p n retry).
Proof.
  revert retry. induction n as [|n IH]; intros retry; cbn [connect_retries];
    unfold sys_connect, sys_close, sys_usleep; never_locks_auto. apply IH.
Qed.

Lemma never_locks_probe_server env i : never_locks (probe_server env i).
Proof.
  unfold probe_server, sys_socket, sys_setsockopt, sys_inet_pton, sys_close.
  never_locks_auto. apply never_locks_connect_retries.
Qed.

Lemma never_locks_wan_loop env n i : never_locks (wan_loop env n i).
Proof.
  revert i. induction n as [|n IH]; intros i; cbn [wan_loop]; never_locks_auto.
  - apply never_locks_probe_server.
  - apply IH.
Qed.

Lemma never_locks_check_wan env : never_locks (check_wan env).
Proof. intros s. unfold check_wan. apply never_locks_wan_loop. Qed.

Lemma never_locks_check_lan env : never_locks (check_lan env).
Proof.
  unfold check_lan, sys_socket, sys_ioctl_flags, sys_close. never_locks_auto.
Qed.

(** [check_wan] starts by reading the server count. *)
Lemma check_wan_reads_count env s :
  exists rest, trace (check_wan env s) = EvLoad Fnum_wan_servers :: rest.
Proof.
  unfold check_wan. destruct (Z.to_nat (num_wan_servers (mon s))) as [|n].
  - rewrite wan_loop_O. eauto.
  - rewrite wan_loop_S. cbn zeta. destruct (val (probe_server env 0 s)); eauto.
Qed.

(** [check_lan] writes [last_error] on each of its paths. *)
Lemma check_lan_writes_last_error env s :
  In (EvStore Flast_error) (trace (check_lan env s)).
Proof.
  unfold check_lan, bind, sys_socket.
  destruct (env_lan_socket env) as [fd|e]; cbn -[strncpy_term Z.land].
  2:{ tauto. }
  destruct (Z.ltb_spec (Z.of_N fd) 0); [lia|].
  cbn -[strncpy_term Z.land]. unfold sys_ioctl_flags.
  destruct (env_ioctl_flags env _) as [flags|e]; cbn -[strncpy_term Z.land].
  2:{ tauto. }
  destruct (negb (Z.land flags IFF_UP =? 0) && negb (Z.land flags IFF_RUNNING =? 0));
    cbn; tauto.
Qed.

(** The trace of one turn of the loop that passes the flag check. *)
Lemma monitor_iteration_trace env s :
  running (mon s) = true ->
  trace (monitor_iteration env s) =
    [EvLock; EvLoad Frunning; EvLoad Fcheck_interval_sec; EvUnlock]
    ++ trace (check_wan env s)
    ++ trace (check_lan env (post (check_wan env s)))
    ++ [EvLock; EvStore Fwan_up; EvStore Flan_up; EvTime (env_time env);
        EvStore Flast_check_time; EvUnlock;
        EvSleep (check_interval_sec (mon s))].
Proof.
  intros Hrun.
  unfold monitor_iteration, loop_flag_check, loop_run_checks, loop_publish,
    pthread_mutex_lock, pthread_mutex_unlock, sys_time, sys_sleep.
  unfold bind, emit, load, store, ret.
  cbn [val post trace mon]. rewrite Hrun. cbn [negb val post trace mon].
  destruct (check_wan env s) as [w s1 t1]. cbn [val post trace mon].
  destruct (check_lan env s1) as [l s2 t2]. cbn [val post trace mon fst snd app].
  by rewrite app_nil_r, <- !app_assoc.
Qed.

(** C4: the calls of the public API, the flag check and the status update
    of the loop access fields only between [lock] and [unlock], and no
    step does network I/O or sleeps while it holds the mutex; but the
    checks that the loop runs between its two critical sections read the
    configuration ([num_wan_servers] to begin with) and write [last_error]
    without holding the mutex. *)
Theorem checks_access_fields_without_lock (env : Env) (s : cpu) :
  running (mon s) = true ->
  (forall o e,
     (is_api_call o = true \/ o = OpLoopFlagCheck
      \/ exists w l, o = OpLoopPublish env w l) ->
     accesses_under_lock (events (run_op o) (mon s) e) /\
     no_io_under_lock (events (run_op o) (mon s) e)) /\
  no_io_under_lock (trace (monitor_iteration env s)) /\
  In (EvLoad Fnum_wan_servers) (unlocked_accesses false (trace (monitor_iteration env s))) /\
  In (EvStore Flast_error) (unlocked_accesses false (trace (monitor_iteration env s))) /\
  ~ accesses_under_lock (trace (monitor_iteration env s)).
Proof.
  intros Hrun.
  pose proof (monitor_iteration_trace env s Hrun) as Htr.
  set (s1 := post (check_wan env s)) in *.
  pose proof (never_locks_check_wan env s) as Hw.
  pose proof (never_locks_check_lan env s1) as Hl.
  destruct (check_wan_reads_count env s) as [rest Hrest].
  pose proof (check_lan_writes_last_error env s1) as Hstore.
  assert (Hacc : unlocked_accesses false (trace (monitor_iteration env s))
                 = List.filter is_access (trace (check_wan env s))
                   ++ List.filter is_access (trace (check_lan env s1))).
  { rewrite Htr. rewrite !unlocked_accesses_app. cbn [fold_left held_after].
    rewrite !lock_free_held by done.
    rewrite (lock_free_unlocked_accesses _ Hw), (lock_free_unlocked_accesses _ Hl).
    cbn. by rewrite app_nil_r. }
  assert (Hload : In (EvLoad Fnum_wan_servers)
                     (unlocked_accesses false (trace (monitor_iteration env s)))).
  { rewrite Hacc, Hrest. cbn. auto. }
  split; [|split; [|split; [|split]]].
  - intros o e Ho. unfold accesses_under_lock, no_io_under_lock, events.
    destruct Ho as [Ho|[->|(w & l & ->)]].
    + destruct o; try discriminate Ho; done.
    + unfold run_op, loop_flag_check, bind, pthread_mutex_lock, emit, load.
      cbn [val post trace mon]. rewrite Hrun. done.
    + done.
  - unfold no_io_under_lock. rewrite Htr. rewrite !locked_io_app.
    cbn [fold_left held_after]. rewrite !lock_free_held by done.
    rewrite (lock_free_no_locked_io _ Hw), (lock_free_no_locked_io _ Hl). done.
  - exact Hload.
  - rewrite Hacc. apply in_or_app. right.
    apply List.filter_In. split; [exact Hstore|done].
  - unfold accesses_under_lock. intros Hnone. by rewrite Hnone in Hload.
Qed.

Lemma checks_access_fields_without_lock_witness :
  running test_monitor = true /\
  unlocked_accesses false (trace (monitor_iteration env_online (mkCpu test_monitor 0)))
    <> [] /\
  In (EvStore Flast_error)
     (unlocked_accesses false (trace (monitor_iteration env_online (mkCpu test_monitor 0)))).
Proof.
  pose proof (checks_access_fields_without_lock env_online (mkCpu test_monitor 0) eq_refl)
    as (_ & _ & _ & Hstore & Hnot).
  split; [reflexivity|]. split; [exact Hnot|exact Hstore].
Defined.

(** ** Shutdown *)

(** [network_monitor_destroy] is its two parts one after the other. *)
Lemma network_monitor_destroy_split s :
  network_monitor_destroy s = bind destroy_signal (fun _ => destroy_release) s.
Proof. reflexivity. Qed.

(** A call of the API leaves the status alone and never sets [running]. *)
Lemma api_call_status o m e :
  is_api_call o = true ->
  wan_up (exec (run_op o) m e) = wan_up m /\
  lan_up (exec (run_op o) m e) = lan_up m /\
  last_check_time (exec (run_op o) m e) = last_check_time m /\
  last_error (exec (run_op o) m e) = last_error m /\
  (running m = false -> running (exec (run_op o) m e) = false).
Proof. destruct o; try discriminate 1; done. Qed.

(** Every segment but the [close] after the third attempt accesses the
    monitor, whatever the system answers. *)
Lemma segment_accesses env pc s :
  needs_monitor pc = true ->
  exists ev, List.find accesses_monitor (trace (segment env pc s)) = Some ev.
Proof.
  destruct pc as [|interval i|interval i retry fd p|interval new_wan
                  |interval new_wan new_lan|]; cbn [needs_monitor segment]; intros Hpc.
  - rewrite bind_unfold. cbn [trace].
    unfold loop_flag_check. rewrite bind_unfold. cbn. eauto.
  - rewrite bind_unfold. cbn. eauto.
  - rewrite Hpc, bind_unfold. cbn [trace].
    unfold connect_attempt. rewrite bind_unfold.
    unfold sys_connect. destruct (env_wan_connect env i retry) as [[]|e]; cbn; eauto.
  - rewrite bind_unfold. cbn [trace].
    unfold check_lan. rewrite bind_unfold.
    unfold sys_socket. destruct (env_lan_socket env) as [fd|e]; cbn.
    + destruct (Z.ltb_spec (Z.of_N fd) 0); [lia|].
      rewrite bind_unfold. cbn. eauto.
    + eauto.
  - rewrite bind_unfold. cbn [trace].
    unfold loop_publish. rewrite bind_unfold. cbn. eauto.
  - discriminate Hpc.
Qed.

(** On a freed block the loop thread takes no step that needs the
    monitor: it gets as far as the access. *)
Lemma loop_step_released env w :
  destroy_at w = Released ->
  needs_monitor (loop_at w) = true ->
  loop_ready w <= clock w ->
  exists ev, accesses_monitor ev = true /\
             loop_step env w = UseAfterFree LoopThread ev.
Proof.
  intros Hrel Hneeds Hready. unfold loop_step.
  destruct (segment_accesses (with_time (clock w / 1000000) env) (loop_at w)
              (mkCpu (shared w) (loop_errno w)) Hneeds) as [ev Hev].
  exists ev. split; [by apply find_some in Hev as [_ ?]|].
  rewrite Hrel, Hev. destruct (Z.leb_spec (loop_ready w) (clock w)); [|lia].
  by destruct (loop_at w).
Qed.

(** After the release, whatever step the model takes leaves the block
    released, the loop thread short of its return, and the contents of
    the block as they were. *)
Lemma step_after_release a w w' :
  destroy_at w = Released -> ~ exited w ->
  step a w = Fine w' ->
  destroy_at w' = Released /\ ~ exited w' /\ shared w' = shared w.
Proof.
  unfold exited. intros Hrel Hpc Hstep. destruct a as [d|env| |o]; cbn [step] in Hstep.
  - destruct (0 <? d); [|done]. by injection Hstep as <-.
  - unfold loop_step in Hstep. rewrite Hrel in Hstep.
    destruct (needs_monitor (loop_at w)) eqn:Hneeds.
    + destruct (segment_accesses (with_time (clock w / 1000000) env) (loop_at w)
                  (mkCpu (shared w) (loop_errno w)) Hneeds) as [ev Hev].
      rewrite Hev in Hstep.
      destruct (loop_at w); try done; by destruct (loop_ready w <=? clock w).
    + destruct (loop_at w) as [| | interval i retry fd p | | |]; try done.
      cbn [needs_monitor] in Hneeds.
      destruct (loop_ready w <=? clock w); [|done].
      cbn [segment] in Hstep. rewrite Hneeds in Hstep. cbn in Hstep.
      by injection Hstep as <-.
  - unfold destroy_step in Hstep. by rewrite Hrel in Hstep.
  - unfold call_step in Hstep. rewrite Hrel in Hstep.
    destruct o; try done; cbn in Hstep; done.
Qed.

Lemma run_after_release acts w w' :
  destroy_at w = Released -> ~ exited w ->
  run acts w = Fine w' ->
  destroy_at w' = Released /\ ~ exited w' /\ shared w' = shared w.
Proof.
  revert w. induction acts as [|a acts IH]; intros w Hrel Hpc Hrun.
  - by injection Hrun as <-.
  - cbn [run] in Hrun. destruct (step a w) as [w1| |] eqn:Hstep; try done.
    destruct (step_after_release a w w1 Hrel Hpc Hstep) as (Hrel1 & Hpc1 & Hs1).
    destruct (IH w1 Hrel1 Hpc1 Hrun) as (? & ? & Hs). by rewrite Hs.
Qed.

(** The clock moved on to the time the loop thread is due. *)
Definition wake_up (w : world) : list action :=
  if loop_ready w <=? clock w then [] else [Tick (loop_ready w - clock w)].

Lemma run_wake_up w :
  exists w0, run (wake_up w) w = Fine w0 /\
             shared w0 = shared w /\ loop_errno w0 = loop_errno w /\
             loop_at w0 = loop_at w /\ loop_ready w0 = loop_ready w /\
             destroy_at w0 = destroy_at w /\ loop_ready w0 <= clock w0.
Proof.
  unfold wake_up. destruct (Z.leb_spec (loop_ready w) (clock w)) as [Hle|Hgt].
  - exists w. cbn [run]. auto 10.
  - cbn [run step]. destruct (Z.ltb_spec 0 (loop_ready w - clock w)); [|lia].
    eexists. split; [reflexivity|]. cbn. repeat split; lia.
Qed.

Lemma run_app acts1 acts2 w w1 :
  run acts1 w = Fine w1 -> run (acts1 ++ acts2) w = run acts2 w1.
Proof.
  revert w. induction acts1 as [|a acts1 IH]; intros w Hrun.
  - by injection Hrun as <-.
  - cbn [run app] in *. destruct (step a w); try done. by apply IH.
Qed.

(** C3: the loop thread survives the release of the monitor whenever it
    has not returned by then, and [network_monitor_destroy] does not wait
    for it: in no execution does the thread return afterwards, and the
    next time it is scheduled its first access of the monitor, at most two
    segments away, is an access to the freed block.  (The flag is tested
    at the top of a turn only, and the grace period is a fixed 100 ms
    whatever the thread is doing.) *)
Theorem loop_thread_uses_freed_monitor (w : world) :
  destroy_at w = Released ->
  ~ exited w ->
  (forall acts w', run acts w = Fine w' -> ~ exited w') /\
  (forall env, exists ev,
     accesses_monitor ev = true /\
     run (wake_up w ++ [LoopStep env; LoopStep env]) w = UseAfterFree LoopThread ev).
Proof.
  intros Hrel Hpc. split.
  - intros acts w' Hrun. by destruct (run_after_release acts w w' Hrel Hpc Hrun) as (_ & ? & _).
  - intros env.
    destruct (run_wake_up w) as (w0 & Hwake & _ & _ & Hat & _ & Hd & Hready).
    rewrite (run_app _ _ _ _ Hwake). rewrite <- Hd in Hrel.
    unfold exited in Hpc. rewrite <- Hat in Hpc. clear Hwake Hat Hd.
    destruct (needs_monitor (loop_at w0)) eqn:Hneeds.
    + destruct (loop_step_released env w0 Hrel Hneeds Hready) as (ev & Hacc & Hstep).
      exists ev. split; [done|]. cbn [run step]. by rewrite Hstep.
    + destruct w0 as [m e pc ready d t]. cbn [loop_at destroy_at loop_ready clock] in *.
      destruct pc as [| | interval i retry fd p | | |]; try done.
      cbn [needs_monitor] in Hneeds. subst d.
      set (w1 := mkWorld m e (AtServer interval (S i)) t Released t).
      assert (Hstep : loop_step env (mkWorld m e (AtConnect interval i retry fd p)
                                       ready Released t) = Fine w1).
      { unfold loop_step. cbn [loop_at loop_ready clock shared loop_errno destroy_at].
        destruct (Z.leb_spec ready t); [|lia].
        cbn [segment]. rewrite Hneeds. cbn. unfold w1. f_equal. f_equal. lia. }
      destruct (loop_step_released env w1 eq_refl eq_refl) as (ev & Hacc & Hstep1);
        [cbn; lia|].
      exists ev. split; [done|]. cbn [run step]. by rewrite Hstep, Hstep1.
Qed.

Lemma loop_thread_uses_freed_monitor_witness :
  exists w0 w1,
    run stop_during_cycle (started test_monitor boot_clock) = Fine w0 /\
    destroy_at w0 = InGrace (boot_clock + 100000) /\
    clock w0 = boot_clock + 100000 /\
    read_status w0 = Some (false, false, 0, 101) /\
    step DestroyStep w0 = Fine w1 /\
    destroy_at w1 = Released /\
    loop_at w1 = AtConnect 2 0 1 3 53 /\
    step (LoopStep env_offline) w1 = UseAfterFree LoopThread (EvStore Flast_error) /\
    (forall acts w', run acts w1 = Fine w' -> ~ exited w').
Proof.
  destruct (run stop_during_cycle (started test_monitor boot_clock)) as [w0| |] eqn:Hrun;
    [|by vm_compute in Hrun..].
  destruct (step DestroyStep w0) as [w1| |] eqn:Hfree;
    [|by vm_compute in Hrun; injection Hrun as <-; vm_compute in Hfree..].
  exists w0, w1.
  assert (Hw0 : destroy_at w0 = InGrace (boot_clock + 100000) /\
                clock w0 = boot_clock + 100000 /\
                read_status w0 = Some (false, false, 0, 101)).
  { vm_compute in Hrun. by injection Hrun as <-. }
  assert (Hw1 : destroy_at w1 = Released /\
                loop_at w1 = AtConnect 2 0 1 3 53 /\
                step (LoopStep env_offline) w1
                  = UseAfterFree LoopThread (EvStore Flast_error)).
  { vm_compute in Hrun. injection Hrun as <-. vm_compute in Hfree.
    by injection Hfree as <-. }
  destruct Hw0 as (Hgrace & Hclock & Hread). destruct Hw1 as (Hrel & Hat & Hstep).
  assert (Hpc : ~ exited w1) by (unfold exited; by rewrite Hat).
  split; [reflexivity|]. split; [exact Hgrace|]. split; [exact Hclock|].
  split; [exact Hread|]. split; [exact Hfree|]. split; [exact Hrel|].
  split; [exact Hat|]. split; [exact Hstep|].
  exact (proj1 (loop_thread_uses_freed_monitor w1 Hrel Hpc)).
Defined.

(** The usual case: stop requested while the loop sleeps between two
    turns.  The thread wakes up 1.9 s after the release and locks a mutex
    that is destroyed, in a block that is freed. *)
Example stop_during_sleep_locks_freed_mutex :
  exists w1,
    run stop_during_sleep (started test_monitor boot_clock) = Fine w1 /\
    destroy_at w1 = Released /\ loop_at w1 = AtFlagCheck /\
    clock w1 = boot_clock + 2100000 /\ loop_ready w1 = clock w1 /\
    step (LoopStep env_online) w1 = UseAfterFree LoopThread EvLock.
Proof.
  destruct (run stop_during_sleep (started test_monitor boot_clock)) as [w1| |] eqn:Hrun;
    [|by vm_compute in Hrun..].
  exists w1. split; [reflexivity|].
  vm_compute in Hrun. by injection Hrun as <-.
Qed.

(** What the grace period is for: a flag check that falls into it finds
    the flag cleared, and the thread returns before the release. *)
Example stop_before_wakeup_exits_cleanly :
  exists w1,
    run stop_before_wakeup (started test_monitor boot_clock) = Fine w1 /\
    destroy_at w1 = Released /\ loop_at w1 = Exited.
Proof.
  destruct (run stop_before_wakeup (started test_monitor boot_clock)) as [w1| |] eqn:Hrun;
    [|by vm_compute in Hrun..].
  exists w1. split; [reflexivity|].
  vm_compute in Hrun. by injection Hrun as <-.
Qed.

(** While a turn is under way the status is a mixture: on a host that
    goes off-line after a first good turn, [check_wan] has stored its
    error code 100 ms into the second turn, and the accessors return it
    together with the results of the first turn. *)
Example wan_error_read_with_old_status :
  exists w1,
    run [LoopStep env_online; LoopStep env_online; LoopStep env_online; Tick 100000;
         LoopStep env_online; LoopStep env_online; LoopStep env_online;
         Tick 2000000;
         LoopStep env_offline; LoopStep env_offline; LoopStep env_offline;
         Call OpGetLastError; Call OpGetLanStatus]
        (started test_monitor boot_clock) = Fine w1 /\
    destroy_at w1 = NotCalled /\
    read_status w1 = Some (true, true, 1760000000, 101).
Proof.
  eexists. split; [vm_compute; reflexivity|]. split; reflexivity.
Qed.


(** * Further properties *)

(** ** A property of every event of a WAN check *)

(** A property of events that holds of the events of every turn of the
    server loop holds of the events of the whole check. *)
Lemma wan_loop_Forall (P : event -> Prop) env n i s :
  P (EvLoad Fnum_wan_servers) ->
  (forall k s', only_last_error (mon s) (mon s') ->
     Forall P (trace (probe_server env k s'))) ->
  Forall P (trace (wan_loop env n i s)).
Proof.
  intros Hload Hprobe. revert i s Hprobe.
  induction n as [|n IH]; intros i s Hprobe.
  - rewrite wan_loop_O. by repeat constructor.
  - rewrite wan_loop_S. cbn zeta.
    pose proof (Hprobe i s (only_last_error_refl _)) as H1.
    pose proof (frames_probe_server env i s) as Hf.
    destruct (val (probe_server env i s)); cbn [trace].
    + by constructor.
    + constructor; [done|]. apply Forall_app. split; [done|].
      apply IH. intros k s' Hs'. apply Hprobe.
      by eapply only_last_error_trans.
Qed.

Lemma check_wan_Forall (P : event -> Prop) env s :
  P (EvLoad Fnum_wan_servers) ->
  (forall k s', only_last_error (mon s) (mon s') ->
     Forall P (trace (probe_server env k s'))) ->
  Forall P (trace (check_wan env s)).
Proof. intros. unfold check_wan. by apply wan_loop_Forall. Qed.

(** ** Descriptors *)

Lemma fd_run_app open t1 t2 :
  fd_run open (t1 ++ t2) =
    match fd_run open t1 with
    | Some open' => fd_run open' t2
    | None => None
    end.
Proof.
  revert open. induction t1 as [|ev t1 IH]; intros open; [done|].
  cbn [app fd_run]. destruct (fd_step open ev); [apply IH|done].
Qed.

(** Runs the descriptor automaton over a concrete prefix of a trace. *)
Ltac fd_simpl :=
  repeat (progress (cbn [fd_run fd_step val post trace app]; rewrite ?Z.eqb_refl)).

Lemma fd_run_connect_retries env i fd p n retry s :
  fd_run (Some fd) (trace (connect_retries env i fd p n retry s)) =
    Some (if val (connect_retries env i fd p n retry s) then None else Some fd).
Proof.
  revert retry s. induction n as [|n IH]; intros retry s; [done|].
  destruct (env_wan_connect env i retry) as [[]|e] eqn:Hc.
  - rewrite (connect_retries_accept _ _ _ _ _ _ _ Hc). unfold success_tail.
    by fd_simpl.
  - rewrite (connect_retries_reject _ _ _ _ _ _ _ _ Hc). cbn zeta.
    fd_simpl. apply IH.
Qed.

Lemma fd_run_setup_events env m i fd :
  fd_run None (setup_events env m i fd) = Some (Some (Z.of_N fd)).
Proof. unfold setup_events. cbn zeta. by fd_simpl. Qed.

Lemma fd_run_probe_server env i s :
  fd_run None (trace (probe_server env i s)) = Some None.
Proof.
  destruct (env_wan_socket env i) as [fd|e] eqn:Hs.
  2:{ by rewrite (probe_server_no_socket _ _ _ _ Hs). }
  destruct (env_inet_pton env (host (server_at i (mon s)))) eqn:Hp.
  2:{ rewrite (probe_server_bad_host _ _ _ _ Hs Hp). cbn [trace].
      rewrite fd_run_app, fd_run_setup_events. by fd_simpl. }
  rewrite (probe_server_connects _ _ _ _ Hs Hp). cbn zeta. cbn [trace].
  rewrite fd_run_app, fd_run_setup_events, fd_run_app, fd_run_connect_retries.
  destruct (val (connect_retries _ _ _ _ _ _ _)); by fd_simpl.
Qed.

Lemma fd_run_wan_loop env n i s :
  fd_run None (trace (wan_loop env n i s)) = Some None.
Proof.
  revert i s. induction n as [|n IH]; intros i s.
  - by rewrite wan_loop_O.
  - rewrite wan_loop_S. cbn zeta.
    pose proof (fd_run_probe_server env i s) as Hp.
    destruct (val (probe_server env i s)); cbn [trace fd_run fd_step].
    + done.
    + by rewrite fd_run_app, Hp.
Qed.

(** X1: [check_wan] never leaks or misuses a socket, on any exit path: in
    its trace every [socket] that succeeds is followed by its [close]
    before the next [socket] and before the return, [setsockopt] and
    [connect] are only made on the socket that is open, and nothing is
    closed twice. *)
Theorem check_wan_descriptors_balanced (env : Env) (s : cpu) :
  descriptors_balanced (trace (check_wan env s)).
Proof. unfold descriptors_balanced, check_wan. apply fd_run_wan_loop. Qed.

(** X2: [check_lan] closes the socket it opens on both paths that have one
    (failed and successful [ioctl]), makes the [ioctl] on that socket, and
    closes nothing when [socket] itself failed. *)
Theorem check_lan_descriptors_balanced (env : Env) (s : cpu) :
  descriptors_balanced (trace (check_lan env s)).
Proof.
  unfold descriptors_balanced, check_lan, bind, sys_socket.
  destruct (env_lan_socket env) as [fd|e]; cbn -[strncpy_term Z.land]; [|done].
  destruct (Z.ltb_spec (Z.of_N fd) 0); [lia|].
  cbn -[strncpy_term Z.land]. unfold sys_ioctl_flags.
  destruct (env_ioctl_flags env _) as [flags|e]; cbn -[strncpy_term Z.land].
  - destruct (negb (Z.land flags IFF_UP =? 0) && negb (Z.land flags IFF_RUNNING =? 0));
      cbn [val post trace app ret load store]; by fd_simpl.
  - by fd_simpl.
Qed.

(** ** Attempts and backoff time *)

Lemma slept_usec_app t1 t2 : slept_usec (t1 ++ t2) = slept_usec t1 + slept_usec t2.
Proof.
  induction t1 as [|ev t1 IH]; [done|].
  destruct ev; cbn [app slept_usec]; rewrite ?IH; lia.
Qed.

Lemma connect_count_app t1 t2 :
  connect_count (t1 ++ t2) = (connect_count t1 + connect_count t2)%nat.
Proof. unfold connect_count. by rewrite List.filter_app, length_app. Qed.

(** The retry loop of one server: at most three attempts and 700 ms of
    sleep; exactly that when all three are rejected. *)
Lemma connect_retries_bounds env i fd p s :
  let out := connect_retries env i fd p 3 0 s in
  (connect_count (trace out) <= 3)%nat /\
  0 <= slept_usec (trace out) <= 700000 /\
  (val out = false ->
   connect_count (trace out) = 3%nat /\ slept_usec (trace out) = 700000).
Proof.
  cbn zeta.
  destruct (env_wan_connect env i 0) as [[]|e0] eqn:H0.
  { rewrite (connect_retries_accept _ _ _ _ _ _ _ H0). cbn. repeat split; lia || done. }
  rewrite (connect_retries_reject _ _ _ _ _ _ _ _ H0). cbn zeta.
  destruct (env_wan_connect env i 1) as [[]|e1] eqn:H1.
  { rewrite (connect_retries_accept _ _ _ _ _ _ _ H1). cbn. repeat split; lia || done. }
  rewrite (connect_retries_reject _ _ _ _ _ _ _ _ H1). cbn zeta.
  destruct (env_wan_connect env i 2) as [[]|e2] eqn:H2.
  { rewrite (connect_retries_accept _ _ _ _ _ _ _ H2). cbn. repeat split; lia || done. }
  rewrite (connect_retries_reject _ _ _ _ _ _ _ _ H2). cbn. repeat split; lia || done.
Qed.

Lemma setup_events_quiet env m i fd :
  connect_count (setup_events env m i fd) = 0%nat /\
  slept_usec (setup_events env m i fd) = 0.
Proof. done. Qed.

Lemma probe_server_bounds env i s :
  let out := probe_server env i s in
  (connect_count (trace out) <= 3)%nat /\
  0 <= slept_usec (trace out) <= 700000 /\
  (val out = false -> can_connect env (mon s) i = true ->
   connect_count (trace out) = 3%nat /\ slept_usec (trace out) = 700000).
Proof.
  cbn zeta. unfold can_connect.
  destruct (env_wan_socket env i) as [fd|e] eqn:Hs.
  2:{ rewrite (probe_server_no_socket _ _ _ _ Hs). cbn. repeat split; lia || done. }
  destruct (env_inet_pton env (host (server_at i (mon s)))) eqn:Hp.
  2:{ rewrite (probe_server_bad_host _ _ _ _ Hs Hp). cbn [val trace].
      rewrite connect_count_app, slept_usec_app.
      destruct (setup_events_quiet env (mon s) i fd) as [-> ->].
      cbn. repeat split; lia || done. }
  rewrite (probe_server_connects _ _ _ _ Hs Hp). cbn zeta. cbn [val trace].
  rewrite !connect_count_app, !slept_usec_app.
  destruct (setup_events_quiet env (mon s) i fd) as [-> ->].
  pose proof (connect_retries_bounds env i (Z.of_N fd)
                (htons (port (server_at i (mon s)))) s) as (Hc & Hsl & Hworst).
  cbn zeta in *.
  destruct (connect_retries env i (Z.of_N fd) _ 3 0 s) as [[] s' t'];
    cbn [val trace] in *; cbn.
  - repeat split; lia || done.
  - destruct (Hworst eq_refl) as [Hc3 Hs7]. repeat split; lia.
Qed.

Lemma wan_loop_bounds env n i s :
  let out := wan_loop env n i s in
  (connect_count (trace out) <= 3 * n)%nat /\
  0 <= slept_usec (trace out) <= 700000 * Z.of_nat n /\
  (val out = false ->
   (forall j, (i <= j < i + n)%nat -> can_connect env (mon s) j = true) ->
   connect_count (trace out) = (3 * n)%nat /\
   slept_usec (trace out) = 700000 * Z.of_nat n).
Proof.
  revert i s. induction n as [|n IH]; intros i s; cbn zeta.
  - rewrite wan_loop_O. cbn. repeat split; lia || done.
  - rewrite wan_loop_S. cbn zeta.
    pose proof (probe_server_bounds env i s) as (Hc & Hsl & Hworst). cbn zeta in *.
    pose proof (frames_probe_server env i s) as Hf.
    destruct (val (probe_server env i s)) eqn:Hv; cbn [val trace].
    + change (EvLoad Fnum_wan_servers :: ?l) with ([EvLoad Fnum_wan_servers] ++ l).
      rewrite connect_count_app, slept_usec_app. cbn.
      repeat split; lia || done.
    + destruct (IH (S i) (post (probe_server env i s))) as (Hc' & Hsl' & Hworst').
      change (EvLoad Fnum_wan_servers :: ?l) with ([EvLoad Fnum_wan_servers] ++ l).
      rewrite !connect_count_app, !slept_usec_app.
      change (connect_count [EvLoad Fnum_wan_servers]) with 0%nat.
      change (slept_usec [EvLoad Fnum_wan_servers]) with 0.
      split; [lia|]. split; [lia|].
      intros Hfalse Hall.
      destruct (Hworst eq_refl) as [Hc3 Hs7]; [apply Hall; lia|].
      destruct (Hworst' Hfalse) as [Hcn Hsn].
      { intros j Hj. rewrite (can_connect_frame _ _ _ _ Hf). apply Hall. lia. }
      lia.
Qed.

(** X3: one run of [check_wan] over [n] servers makes at most [3 n]
    connection attempts and sleeps at most [700 n] milliseconds between
    them; when every server gets as far as [connect] and the check returns
    [false], it makes exactly [3 n] attempts and sleeps exactly [700 n]
    milliseconds (2.8 s for the four servers of a monitor). *)
Theorem check_wan_attempts_and_backoff_bounded (env : Env) (s : cpu) :
  let n := Z.to_nat (num_wan_servers (mon s)) in
  let out := check_wan env s in
  (connect_count (trace out) <= 3 * n)%nat /\
  0 <= slept_usec (trace out) <= 700000 * Z.of_nat n /\
  (val out = false ->
   (forall j, (j < n)%nat -> can_connect env (mon s) j = true) ->
   connect_count (trace out) = (3 * n)%nat /\
   slept_usec (trace out) = 700000 * Z.of_nat n).
Proof.
  cbn zeta. unfold check_wan.
  destruct (wan_loop_bounds env (Z.to_nat (num_wan_servers (mon s))) 0 s)
    as (Hc & Hs & Hworst).
  split; [done|]. split; [done|].
  intros Hv Hall. apply Hworst; [done|]. intros j Hj. apply Hall. lia.
Qed.

Lemma check_wan_attempts_and_backoff_bounded_witness :
  val (check_wan env_offline (mkCpu test_monitor 0)) = false /\
  (forall j, (j < Z.to_nat (num_wan_servers test_monitor))%nat ->
     can_connect env_offline test_monitor j = true) /\
  connect_count (trace (check_wan env_offline (mkCpu test_monitor 0))) = 12%nat /\
  slept_usec (trace (check_wan env_offline (mkCpu test_monitor 0))) = 2800000.
Proof.
  assert (Hall : forall j, (j < Z.to_nat (num_wan_servers test_monitor))%nat ->
                   can_connect env_offline test_monitor j = true).
  { intros j Hj. change (Z.to_nat (num_wan_servers test_monitor)) with 4%nat in Hj.
    destruct j as [|[|[|[|j]]]]; try reflexivity. lia. }
  split; [vm_compute; reflexivity|]. split; [exact Hall|].
  exact (proj2 (proj2 (check_wan_attempts_and_backoff_bounded env_offline
                         (mkCpu test_monitor 0)))
           ltac:(vm_compute; reflexivity) Hall).
Defined.

(** ** The shape of the events of one server *)

Lemma connect_retries_Forall (P : event -> Prop) env i fd p n retry s :
  (forall r res, P (EvConnect i r fd p res)) ->
  P (EvStore Flast_error) ->
  (forall us, P (EvUsleep us)) ->
  P (EvClose fd) ->
  Forall P (trace (connect_retries env i fd p n retry s)).
Proof.
  intros Hconn Hstore Hsleep Hclose.
  revert retry s. induction n as [|n IH]; intros retry s; [constructor|].
  destruct (env_wan_connect env i retry) as [[]|e] eqn:Hc.
  - rewrite (connect_retries_accept _ _ _ _ _ _ _ Hc). by repeat constructor.
  - rewrite (connect_retries_reject _ _ _ _ _ _ _ _ Hc). cbn zeta. cbn [trace].
    repeat (constructor; [done|]). apply IH.
Qed.

(** The events of one turn of the server loop: [connect] events occur only
    when the socket opened and the address parsed, and they go to the
    port of the entry, as [htons] truncates it. *)
Lemma probe_server_Forall (P : event -> Prop) env i s :
  (forall r, P (EvSocket SOCK_STREAM r)) ->
  P (EvStore Flast_error) ->
  P (EvLoad Ftimeout_ms) ->
  P (EvLoad (Fwan_port i)) ->
  P (EvLoad (Fwan_host i)) ->
  (forall fd opt,
     P (EvSetsockopt fd opt
          (fst (timeval_of_ms (timeout_ms (mon s)) (timeout_ms (mon s))))
          (snd (timeval_of_ms (timeout_ms (mon s)) (timeout_ms (mon s)))))) ->
  (forall h r, P (EvInetPton h r)) ->
  (forall fd, P (EvClose fd)) ->
  (forall us, P (EvUsleep us)) ->
  (can_connect env (mon s) i = true ->
   forall r fd res, P (EvConnect i r fd (htons (port (server_at i (mon s)))) res)) ->
  Forall P (trace (probe_server env i s)).
Proof.
  intros Hsock Hstore Hlt Hlp Hlh Hopt Hpton Hclose Hsleep Hconn.
  unfold can_connect in Hconn.
  destruct (env_wan_socket env i) as [fd|e] eqn:Hs.
  2:{ rewrite (probe_server_no_socket _ _ _ _ Hs). by repeat constructor. }
  destruct (env_inet_pton env (host (server_at i (mon s)))) eqn:Hp.
  2:{ rewrite (probe_server_bad_host _ _ _ _ Hs Hp). cbn [trace].
      unfold setup_events. cbn zeta. by repeat constructor. }
  rewrite (probe_server_connects _ _ _ _ Hs Hp). cbn zeta. cbn [trace].
  apply Forall_app. split.
  { unfold setup_events. cbn zeta. by repeat constructor. }
  apply Forall_app. split.
  { apply connect_retries_Forall; auto. }
  destruct (val _); by repeat constructor.
Qed.

(** ** Socket timeouts *)

Lemma timeval_of_ms_exact (ms : Z) :
  0 < ms ->
  0 <= fst (timeval_of_ms ms ms) /\
  0 <= snd (timeval_of_ms ms ms) < 1000000 /\
  fst (timeval_of_ms ms ms) * 1000000 + snd (timeval_of_ms ms ms) = ms * 1000.
Proof.
  intros Hms. unfold timeval_of_ms. cbn [fst snd].
  pose proof (Z.quot_rem' ms 1000) as Hqr.
  pose proof (Z.rem_bound_pos ms 1000) as Hr.
  pose proof (Z.quot_pos ms 1000) as Hq.
  lia.
Qed.

(** X4: on every monitor handle, each [setsockopt] of [check_wan] is given
    the configured timeout as a well-formed [timeval]: seconds and
    microseconds are non-negative, the microseconds stay below one million,
    and together they are exactly [timeout_ms] milliseconds. *)
Theorem check_wan_timeouts_exact (env : Env) (m : NetworkMonitor) (e : Z) :
  Reachable m ->
  Forall (timeval_is (timeout_ms m)) (trace (check_wan env (mkCpu m e))).
Proof.
  intros Hreach. apply reachable_inv in Hreach. destruct Hreach as ([Ht _] & _).
  apply check_wan_Forall; [done|].
  intros k s' Hs'. cbn [mon] in Hs'.
  assert (Hms : timeout_ms (mon s') = timeout_ms m) by (by rewrite Hs').
  apply probe_server_Forall; try done.
  intros fd opt. rewrite Hms. cbn [timeval_is]. by apply timeval_of_ms_exact.
Qed.

Lemma check_wan_timeouts_exact_witness :
  Reachable test_monitor /\
  In (EvSetsockopt 3 SO_SNDTIMEO 0 500000)
     (trace (check_wan env_online (mkCpu test_monitor 0))) /\
  Forall (timeval_is 500) (trace (check_wan env_online (mkCpu test_monitor 0))).
Proof.
  split; [exact test_monitor_reachable|].
  split; [vm_compute; tauto|].
  exact (check_wan_timeouts_exact env_online test_monitor 0 test_monitor_reachable).
Defined.

(** ** Servers that are skipped *)

(** X5: a server whose socket does not open, or whose host is not an
    address that [inet_pton] takes (a host name, for one), is never
    connected to: [check_wan] makes no [connect] call for it and goes on
    with the next entry. *)
Theorem check_wan_skips_unusable_server (env : Env) (s : cpu) (j : nat) :
  can_connect env (mon s) j = false ->
  Forall (never_connects j) (trace (check_wan env s)).
Proof.
  intros Hno. apply check_wan_Forall; [done|].
  intros k s' Hs'. apply probe_server_Forall; try done.
  intros Hcan r fd res. cbn [never_connects]. intros ->.
  rewrite (can_connect_frame _ _ _ _ Hs') in Hcan. congruence.
Qed.

Lemma check_wan_skips_unusable_server_witness :
  host (server_at 0 hostname_monitor) = "dns.google" /\
  can_connect env_all_accept hostname_monitor 0 = false /\
  Forall (never_connects 0) (trace (check_wan env_all_accept (mkCpu hostname_monitor 0))) /\
  List.filter is_connect (trace (check_wan env_all_accept (mkCpu hostname_monitor 0)))
    = [EvConnect 1 0 4 53 (Ok tt)] /\
  val (check_wan env_all_accept (mkCpu hostname_monitor 0)) = true.
Proof.
  split; [vm_compute; reflexivity|]. split; [vm_compute; reflexivity|].
  split; [|split; vm_compute; reflexivity].
  apply (check_wan_skips_unusable_server env_all_accept (mkCpu hostname_monitor 0) 0).
  vm_compute. reflexivity.
Defined.

(** ** The port of the first server *)

(** X6: [set_wan_test_port] stores a positive argument as it is, with no
    upper bound, and 53 for any other; [check_wan] then connects the first
    server to that value modulo 65536, so that a port above 65535 wraps
    around (65589 reaches port 53). *)
Theorem set_wan_test_port_wraps (env : Env) (m : NetworkMonitor) (p e : Z) :
  Reachable m ->
  let m' := exec (set_wan_test_port p) m e in
  port (server_at 0 m') = (if p >? 0 then p else 53) /\
  host (server_at 0 m') = host (server_at 0 m) /\
  Forall (connects_to_port 0 ((if p >? 0 then p else 53) mod 65536))
    (trace (check_wan env (mkCpu m' e))).
Proof.
  intros Hreach. apply reachable_inv in Hreach.
  destruct Hreach as (_ & _ & first & Hsrv). cbn zeta.
  assert (Hport : port (server_at 0 (exec (set_wan_test_port p) m e))
                  = (if p >? 0 then p else 53)).
  { unfold server_at. cbn -[Z.gtb]. by rewrite Hsrv. }
  split; [done|]. split.
  { unfold server_at. cbn -[Z.gtb]. by rewrite Hsrv. }
  apply check_wan_Forall; [done|].
  intros k s' Hs'. cbn [mon] in Hs'.
  apply probe_server_Forall; try done.
  intros _ r fd res. cbn [connects_to_port]. intros ->.
  unfold htons. rewrite <- Hport. by rewrite Hs'.
Qed.

Lemma set_wan_test_port_wraps_witness :
  Reachable test_monitor /\
  port (server_at 0 (exec (set_wan_test_port 65589) test_monitor 0)) = 65589 /\
  List.filter is_connect
    (trace (check_wan env_all_accept
              (mkCpu (exec (set_wan_test_port 65589) test_monitor 0) 0)))
    = [EvConnect 0 0 3 53 (Ok tt)] /\
  Forall (connects_to_port 0 53)
    (trace (check_wan env_all_accept
              (mkCpu (exec (set_wan_test_port 65589) test_monitor 0) 0))).
Proof.
  split; [exact test_monitor_reachable|].
  split; [vm_compute; reflexivity|]. split; [vm_compute; reflexivity|].
  exact (proj2 (proj2 (set_wan_test_port_wraps env_all_accept test_monitor 65589 0
                         test_monitor_reachable))).
Defined.

(** ** One turn of the loop *)

Lemma check_lan_Forall (P : event -> Prop) env s :
  (forall r, P (EvSocket SOCK_DGRAM r)) ->
  P (EvStore Flast_error) ->
  P (EvLoad Flan_interface) ->
  P (EvLoad Flast_error) ->
  (forall fd name r, P (EvIoctl fd name r)) ->
  (forall fd, P (EvClose fd)) ->
  Forall P (trace (check_lan env s)).
Proof.
  intros Hsock Hstore Hli Hle Hio Hclose.
  unfold check_lan, bind, sys_socket.
  destruct (env_lan_socket env) as [fd|e]; cbn -[strncpy_term Z.land].
  2:{ by repeat constructor. }
  destruct (Z.ltb_spec (Z.of_N fd) 0); [lia|].
  cbn -[strncpy_term Z.land]. unfold sys_ioctl_flags.
  destruct (env_ioctl_flags env _) as [flags|e]; cbn -[strncpy_term Z.land].
  - destruct (negb (Z.land flags IFF_UP =? 0) && negb (Z.land flags IFF_RUNNING =? 0));
      cbn [val post trace app ret load store]; by repeat constructor.
  - by repeat constructor.
Qed.

Lemma monitor_iteration_stopped env s :
  running (mon s) = false ->
  monitor_iteration env s = mkOut false s [EvLock; EvLoad Frunning; EvUnlock].
Proof.
  intros Hrun.
  unfold monitor_iteration, loop_flag_check, pthread_mutex_lock,
    pthread_mutex_unlock, bind, emit, load, ret.
  cbn [val post trace mon]. rewrite Hrun. reflexivity.
Qed.

Lemma monitor_iteration_running env s :
  running (mon s) = true ->
  monitor_iteration env s =
    let o1 := check_wan env s in
    let o2 := check_lan env (post o1) in
    mkOut true
      (mkCpu (with_last_check_time (env_time env)
                (with_lan_up (val o2) (with_wan_up (val o1) (mon (post o2)))))
             (errno (post o2)))
      ([EvLock; EvLoad Frunning; EvLoad Fcheck_interval_sec; EvUnlock]
       ++ trace o1 ++ trace o2
       ++ [EvLock; EvStore Fwan_up; EvStore Flan_up; EvTime (env_time env);
           EvStore Flast_check_time; EvUnlock;
           EvSleep (check_interval_sec (mon s))]).
Proof.
  intros Hrun.
  unfold monitor_iteration, loop_flag_check, loop_run_checks, loop_publish,
    pthread_mutex_lock, pthread_mutex_unlock, sys_time, sys_sleep.
  unfold bind, emit, load, store, ret.
  cbn [val post trace mon]. rewrite Hrun. cbn [negb val post trace mon].
  destruct (check_wan env s) as [w s1 t1]. cbn [val post trace mon].
  destruct (check_lan env s1) as [l s2 t2]. cbn [val post trace mon errno fst snd app].
  by rewrite app_nil_r, <- !app_assoc.
Qed.

(** What the checks of one turn leave of the monitor. *)
Lemma checks_frame env s :
  only_last_error (mon s) (mon (post (check_lan env (post (check_wan env s))))).
Proof.
  eapply only_last_error_trans; [apply frames_check_wan|apply frames_check_lan].
Qed.

Lemma check_wan_true_iff env s :
  val (check_wan env s) = true <-> some_server_accepts env (mon s).
Proof.
  unfold some_server_accepts, check_wan.
  pose proof (wan_loop_spec env (Z.to_nat (num_wan_servers (mon s))) 0 s) as Hspec.
  cbn zeta in Hspec.
  destruct (val (wan_loop env _ 0 s)).
  - destruct Hspec as (j & r & _ & _ & _ & Hj & Hr & Hcan & Hacc & _).
    split; [|done]. intros _. exists j, r. repeat split; lia || done.
  - destruct Hspec as (Hall & _). split; [done|].
    intros (j & r & Hj & Hr & Hcan & Hacc).
    destruct (Hall j) as [Hno|Hrej]; [lia|congruence|].
    rewrite Hrej in Hacc by done. done.
Qed.

(** X7: a turn of the loop that finds the flag set publishes its results:
    afterwards [get_wan_status] returns [true] exactly when some usable
    server of the list accepted one of its three attempts,
    [get_lan_status] returns what [check_lan] found, and
    [get_last_check_time] returns the time of the update; the
    configuration, the interface and the flag are as before. *)
Theorem cycle_publishes_results (env : Env) (s : cpu) (e : Z) :
  running (mon s) = true ->
  let m' := mon (post (monitor_iteration env s)) in
  (result get_wan_status m' e = true <-> some_server_accepts env (mon s)) /\
  result get_lan_status m' e = val (check_lan env (post (check_wan env s))) /\
  result get_last_check_time m' e = env_time env /\
  config_of m' = config_of (mon s) /\
  lan_interface m' = lan_interface (mon s) /\
  running m' = true.
Proof.
  intros Hrun. cbn zeta. rewrite (monitor_iteration_running env s Hrun).
  cbn zeta. cbn [post mon]. unfold result.
  pose proof (checks_frame env s) as Hf. unfold only_last_error in Hf.
  set (m2 := mon (post (check_lan env (post (check_wan env s))))) in *.
  split; [|split; [|split; [|split; [|split]]]].
  - cbn. apply check_wan_true_iff.
  - done.
  - done.
  - cbn. unfold config_of. by rewrite Hf.
  - cbn. by rewrite Hf.
  - cbn. by rewrite Hf.
Qed.

Lemma cycle_publishes_results_witness :
  running test_monitor = true /\
  some_server_accepts env_online test_monitor /\
  result get_wan_status
    (mon (post (monitor_iteration env_online (mkCpu test_monitor 0)))) 0 = true /\
  result get_last_check_time
    (mon (post (monitor_iteration env_online (mkCpu test_monitor 0)))) 0 = 1760000000.
Proof.
  assert (Hacc : some_server_accepts env_online test_monitor).
  { exists 0%nat, 1%nat. repeat split; try (vm_compute; lia). }
  pose proof (cycle_publishes_results env_online (mkCpu test_monitor 0) 0 eq_refl)
    as (Hw & _ & Ht & _).
  split; [reflexivity|]. split; [exact Hacc|].
  split; [exact (proj2 Hw Hacc)|exact Ht].
Defined.

(** X8: in the state that a turn of the loop, run with no other thread
    writing in between, leaves behind when it goes to sleep, [last_error]
    is the error of the LAN check when its [socket] or [ioctl] failed, and
    0 whenever the link was found up, also when the WAN check of the same
    turn failed: in that state an error code of the WAN check is found
    only together with [lan_up = false].  This is the state at the end of
    the turn and no more: when [check_wan] returns, whatever code it
    stored stands next to the [wan_up] and [lan_up] of the turn before,
    until the update. *)
Theorem cycle_last_error (env : Env) (s : cpu) :
  running (mon s) = true ->
  let m' := mon (post (monitor_iteration env s)) in
  (lan_up m' = true -> last_error m' = 0) /\
  (forall e, env_lan_socket env = Fail e ->
     lan_up m' = false /\ last_error m' = e) /\
  (forall fd e, env_lan_socket env = Ok fd ->
     env_ioctl_flags env (ifr_name_of s) = Fail e ->
     lan_up m' = false /\ last_error m' = e) /\
  (let mid := mon (post (check_wan env s)) in
   wan_up mid = wan_up (mon s) /\ lan_up mid = lan_up (mon s)).
Proof.
  intros Hrun. cbn zeta.
  assert (Hmid : wan_up (mon (post (check_wan env s))) = wan_up (mon s) /\
                 lan_up (mon (post (check_wan env s))) = lan_up (mon s)).
  { pose proof (frames_check_wan env s) as Hf. unfold only_last_error in Hf.
    rewrite Hf. by destruct (mon s). }
  rewrite (monitor_iteration_running env s Hrun).
  cbn zeta. cbn [post mon].
  assert (Hname : ifr_name_of (post (check_wan env s)) = ifr_name_of s).
  { unfold ifr_name_of. pose proof (frames_check_wan env s) as Hf.
    unfold only_last_error in Hf. by rewrite Hf. }
  set (s1 := post (check_wan env s)) in *.
  change (lan_up (with_last_check_time ?t (with_lan_up ?l ?m))) with l.
  change (last_error (with_last_check_time ?t (with_lan_up ?l (with_wan_up ?w ?m))))
    with (last_error m).
  split; [|split; [|split; [|exact Hmid]]].
  - intros Hup.
    destruct (env_lan_socket env) as [fd|e] eqn:Hsock.
    2:{ destruct (check_lan_socket_fails env s1 e Hsock). congruence. }
    destruct (env_ioctl_flags env (ifr_name_of s1)) as [flags|e] eqn:Hio.
    2:{ destruct (check_lan_ioctl_fails env s1 fd e Hsock Hio). congruence. }
    destruct (check_lan_flags env s1 fd flags Hsock Hio) as [Hv He].
    rewrite He. rewrite Hv in Hup. by rewrite Hup.
  - intros e Hsock. apply (check_lan_socket_fails env s1 e Hsock).
  - intros fd e Hsock Hio. rewrite <- Hname in Hio.
    apply (check_lan_ioctl_fails env s1 fd e Hsock Hio).
Qed.

Lemma cycle_last_error_witness :
  running test_monitor = true /\
  wan_up (mon (post (monitor_iteration env_offline (mkCpu test_monitor 0)))) = false /\
  lan_up (mon (post (monitor_iteration env_offline (mkCpu test_monitor 0)))) = true /\
  last_error (mon (post (monitor_iteration env_offline (mkCpu test_monitor 0)))) = 0.
Proof.
  split; [reflexivity|]. split; [vm_compute; reflexivity|].
  assert (Hup : lan_up (mon (post (monitor_iteration env_offline (mkCpu test_monitor 0))))
                = true) by (vm_compute; reflexivity).
  split; [exact Hup|].
  exact (proj1 (cycle_last_error env_offline (mkCpu test_monitor 0) eq_refl) Hup).
Defined.

(** ** The loop as a whole *)

(** X9: the first part of [network_monitor_destroy], up to the end of
    the grace period, changes nothing in the monitor but the flag, which
    it clears.  A loop thread that makes its flag check on the monitor in
    that state, the block not yet released, returns there:
    [monitor_thread_func] makes no system call, completes no cycle and
    leaves the monitor as it is, whatever the network would have
    answered. *)
Theorem stopped_loop_does_nothing (envs : list Env) (s : cpu) (e : Z) :
  let m' := mon (post (destroy_signal s)) in
  let s' := mkCpu m' e in
  m' = with_running false (mon s) /\
  trace (destroy_signal s) = [EvLock; EvStore Frunning; EvUnlock; EvUsleep 100000] /\
  post (monitor_thread_func envs s') = s' /\
  syscalls (trace (monitor_thread_func envs s')) = [] /\
  cycle_count (trace (monitor_thread_func envs s')) = 0%nat.
Proof.
  cbn zeta. split; [done|]. split; [done|].
  set (s' := mkCpu (mon (post (destroy_signal s))) e).
  assert (Hstop : running (mon s') = false) by done.
  destruct envs as [|env rest]; [done|].
  cbn [monitor_thread_func]. rewrite bind_unfold.
  rewrite (monitor_iteration_stopped env s' Hstop). done.
Qed.








(** ** The constructor *)

Lemma validate_lan_interface_unfold sys env s :
  validate_lan_interface sys env s =
    match ctor_socket sys with
    | Fail e => mkOut false (mkCpu (mon s) e) [EvSocket SOCK_DGRAM (Fail e)]
    | Ok fd =>
        let o := check_lan env s in
        mkOut (val o) (post o)
          (EvSocket SOCK_DGRAM (Ok fd) :: trace o ++ [EvClose (Z.of_N fd)])
    end.
Proof.
  unfold validate_lan_interface, bind, sys_socket.
  destruct (ctor_socket sys) as [fd|e]; cbn -[check_lan]; [|done].
  destruct (Z.ltb_spec (Z.of_N fd) 0); [lia|].
  destruct (check_lan env s) as [v s' t']. cbn -[check_lan].
  destruct (Z.geb_spec (Z.of_N fd) 0); [|lia]. cbn. by rewrite ?app_nil_r.
Qed.

Lemma network_monitor_new_unfold sys env cfg s :
  ctor_malloc_ok sys = true ->
  network_monitor_new sys env cfg s =
    let o1 := init_config cfg s in
    let o2 := init_lan_interface env cfg (post o1) in
    let o3 := validate_lan_interface sys env (post o2) in
    if val o3 then
      let o4 := init_state (post o3) in
      let o5 := start_thread sys (post o4) in
      mkOut (val o5) (post o5)
        (trace o1 ++ trace o2 ++ trace o3 ++ trace o4 ++ trace o5)
    else
      mkOut false (post o3) (trace o1 ++ trace o2 ++ trace o3 ++ [EvFree]).
Proof.
  intros Hm. unfold network_monitor_new. rewrite Hm. cbn [negb]. cbn zeta.
  unfold bind at 1. destruct (init_config cfg s) as [[] s1 t1]. cbn [val post trace].
  unfold bind at 1. destruct (init_lan_interface env cfg s1) as [[] s2 t2].
  cbn [val post trace].
  unfold bind at 1. destruct (validate_lan_interface sys env s2) as [[] s3 t3];
    cbn [val post trace negb].
  - unfold bind at 1. destruct (init_state s3) as [[] s4 t4]. cbn [val post trace].
    destruct (start_thread sys s4) as [v5 s5 t5]. cbn [val post trace].
    by rewrite <- ?app_assoc.
  - cbn. by rewrite <- ?app_assoc.
Qed.

Lemma start_thread_unfold sys s :
  start_thread sys s =
    if negb (ctor_mutex_init_ok sys) then mkOut false s [EvFree]
    else if negb (ctor_thread_create_ok sys) then mkOut false s [EvMutexDestroy; EvFree]
    else mkOut true s [].
Proof.
  unfold start_thread.
  destruct (ctor_mutex_init_ok sys), (ctor_thread_create_ok sys); reflexivity.
Qed.

Lemma init_state_unfold s :
  init_state s =
    mkOut tt
      (mkCpu (with_running true (with_last_error 0 (with_last_check_time 0
                (with_lan_up false (with_wan_up false (mon s))))))
             (errno s))
      [EvStore Fwan_up; EvStore Flan_up; EvStore Flast_check_time;
       EvStore Flast_error; EvStore Frunning].
Proof. reflexivity. Qed.

(** What a handle tells about the run of the constructor. *)
Lemma network_monitor_new_true_inv sys env cfg s :
  val (network_monitor_new sys env cfg s) = true ->
  ctor_malloc_ok sys = true /\
  (exists fd, ctor_socket sys = Ok fd) /\
  val (check_lan env (configured env cfg s)) = true /\
  ctor_mutex_init_ok sys = true /\
  ctor_thread_create_ok sys = true.
Proof.
  destruct (ctor_malloc_ok sys) eqn:Hm.
  2:{ unfold network_monitor_new. rewrite Hm. cbn. done. }
  rewrite (network_monitor_new_unfold sys env cfg s Hm). cbn zeta.
  rewrite validate_lan_interface_unfold. fold (configured env cfg s).
  destruct (ctor_socket sys) as [fd|e]; cbn zeta; cbn [val post trace]; [|done].
  destruct (val (check_lan env (configured env cfg s))); cbn [val]; [|done].
  rewrite start_thread_unfold.
  destruct (ctor_mutex_init_ok sys), (ctor_thread_create_ok sys); cbn; try done.
  intros _. eauto 10.
Qed.

(** X11: [network_monitor_new] returns a handle exactly when the
    allocation succeeds, the probe socket opens, [check_lan] finds the
    chosen interface up and running, the mutex initialises and the thread
    starts; in particular it returns [NULL] for an interface that is down
    or unknown at that moment. *)
Theorem network_monitor_new_succeeds_iff
    (sys : CtorEnv) (env : Env) (cfg : option NetworkConfig) (s : cpu) :
  val (network_monitor_new sys env cfg s) = true <->
  ctor_malloc_ok sys = true /\
  (exists fd, ctor_socket sys = Ok fd) /\
  val (check_lan env (configured env cfg s)) = true /\
  ctor_mutex_init_ok sys = true /\
  ctor_thread_create_ok sys = true.
Proof.
  split; [apply network_monitor_new_true_inv|].
  intros (Hm & [fd Hfd] & Hlan & Hmx & Hth).
  rewrite (network_monitor_new_unfold sys env cfg s Hm). cbn zeta.
  rewrite validate_lan_interface_unfold, Hfd. fold (configured env cfg s).
  cbn zeta. cbn [val post trace]. rewrite Hlan. cbn [val].
  rewrite start_thread_unfold, Hmx, Hth. reflexivity.
Qed.

Example constructor_fails_on_unplugged_interface :
  val (network_monitor_new ctor_ok env_eth0_unplugged None (mkCpu raw_block 0)) = false /\
  lan_interface (mon (configured env_eth0_unplugged None (mkCpu raw_block 0))) = "eth0".
Proof. split; vm_compute; reflexivity. Qed.

(** ** Reading the routing table *)

Lemma detect_found env s before line after name :
  env_route_file env = Ok (before ++ line :: after) ->
  Forall (fun l => ~ is_default_route_line env l) before ->
  default_route_via env line name ->
  detect_lan_interface env s =
    mkOut true
      (mkCpu (with_last_error 0
                (with_lan_interface (strncpy_term IF_NAMESIZE name) (mon s)))
             (errno s))
      (EvFopen (Ok tt) :: map EvFgets (before ++ [line])
       ++ [EvFclose; EvStore Flan_interface; EvStore Flast_error]).
Proof.
  intros Hfile Hbefore Hline.
  assert (Hscan : scan_routes env (before ++ line :: after) s
                  = mkOut (Some name) s (map EvFgets before ++ [EvFgets line])).
  { rewrite (scan_routes_skip _ _ _ _ Hbefore).
    by rewrite (scan_routes_hit _ _ _ _ _ Hline). }
  unfold detect_lan_interface. rewrite Hfile. unfold bind, emit.
  cbn [val post trace]. rewrite Hscan. cbn -[strncpy_term IF_NAMESIZE].
  by rewrite map_app.
Qed.

Lemma detect_none env s lines :
  env_route_file env = Ok lines ->
  Forall (fun l => ~ is_default_route_line env l) lines ->
  detect_lan_interface env s =
    mkOut false (mkCpu (with_last_error 0 (mon s)) (errno s))
      (EvFopen (Ok tt) :: map EvFgets lines ++ [EvFclose; EvStore Flast_error]).
Proof.
  intros Hfile Hnone.
  assert (Hscan : scan_routes env lines s = mkOut None s (map EvFgets lines ++ [])).
  { rewrite <- (app_nil_r lines) at 1.
    by rewrite (scan_routes_skip _ _ _ _ Hnone), scan_routes_end. }
  unfold detect_lan_interface. rewrite Hfile. unfold bind, emit.
  cbn [val post trace]. rewrite Hscan. cbn. by rewrite app_nil_r.
Qed.

Lemma detect_fail env s e :
  env_route_file env = Fail e ->
  detect_lan_interface env s =
    mkOut false (mkCpu (with_last_error e (mon s)) e)
      [EvFopen (Fail e); EvStore Flast_error].
Proof. intros Hfile. unfold detect_lan_interface. by rewrite Hfile. Qed.

Lemma filter_file_events_fgets lines :
  List.filter is_file_event (map EvFgets lines) = map EvFgets lines.
Proof. induction lines as [|l lines IH]; [done|]. cbn. by rewrite IH. Qed.

(** X12: [detect_lan_interface] stops reading the routing table at the
    first default route (the lines after it are never read), reads all of
    it when there is none, and in both cases closes the file exactly once
    afterwards; when [fopen] fails it neither reads nor closes. *)
Theorem detect_lan_interface_file_handling (env : Env) (s : cpu) :
  let files := List.filter is_file_event (trace (detect_lan_interface env s)) in
  (forall before line after name,
     env_route_file env = Ok (before ++ line :: after) ->
     Forall (fun l => ~ is_default_route_line env l) before ->
     default_route_via env line name ->
     files = EvFopen (Ok tt) :: map EvFgets (before ++ [line]) ++ [EvFclose]) /\
  (forall lines,
     env_route_file env = Ok lines ->
     Forall (fun l => ~ is_default_route_line env l) lines ->
     files = EvFopen (Ok tt) :: map EvFgets lines ++ [EvFclose]) /\
  (forall e, env_route_file env = Fail e -> files = [EvFopen (Fail e)]).
Proof.
  cbn zeta. split; [|split].
  - intros before line after name Hfile Hbefore Hline.
    rewrite (detect_found _ _ _ _ _ _ Hfile Hbefore Hline). cbn [trace List.filter is_file_event].
    by rewrite List.filter_app, filter_file_events_fgets.
  - intros lines Hfile Hnone.
    rewrite (detect_none _ _ _ Hfile Hnone). cbn [trace List.filter is_file_event].
    by rewrite List.filter_app, filter_file_events_fgets.
  - intros e Hfile. by rewrite (detect_fail _ _ _ Hfile).
Qed.

Lemma detect_lan_interface_file_handling_witness :
  List.filter is_file_event
    (trace (detect_lan_interface env_default_first (mkCpu raw_block 0)))
  = [EvFopen (Ok tt); EvFgets route_header; EvFgets route_default_eth0; EvFclose].
Proof.
  refine (proj1 (detect_lan_interface_file_handling env_default_first (mkCpu raw_block 0))
            [route_header] route_default_eth0 [route_local_eth0] "eth0" eq_refl _ _).
  - repeat constructor. intros (name & dest & gw & flags & Hscan & _).
    vm_compute in Hscan. congruence.
  - exists 0x0, 0x0101A8C0, 0x3. repeat split; done.
Defined.

(** ** What the constructor returns *)

(** The monitor behind a handle: the configured monitor with the status
    reset. *)
Lemma network_monitor_new_result sys env cfg s :
  val (network_monitor_new sys env cfg s) = true ->
  mon (post (network_monitor_new sys env cfg s)) =
    with_running true (with_last_error 0 (with_last_check_time 0
      (with_lan_up false (with_wan_up false (mon (configured env cfg s)))))).
Proof.
  intros Hv. pose proof Hv as Hok.
  apply network_monitor_new_true_inv in Hok.
  destruct Hok as (Hm & [fd Hfd] & Hlan & Hmx & Hth).
  rewrite (network_monitor_new_unfold sys env cfg s Hm). cbn zeta.
  rewrite validate_lan_interface_unfold, Hfd. fold (configured env cfg s).
  cbn zeta. cbn [val post trace]. rewrite Hlan.
  rewrite start_thread_unfold, Hmx, Hth. cbn [negb post]. rewrite init_state_unfold.
  cbn [post mon].
  pose proof (frames_check_lan env (configured env cfg s)) as Hf.
  unfold only_last_error in Hf. rewrite Hf.
  by destruct (mon (configured env cfg s)).
Qed.

Lemma init_config_numbers cfg s :
  let m := mon (post (init_config cfg s)) in
  timeout_ms m =
    match cfg with
    | Some c => if cfg_timeout_ms c >? 0 then cfg_timeout_ms c else 1000
    | None => 1000
    end /\
  check_interval_sec m =
    match cfg with
    | Some c => if cfg_check_interval_sec c >? 0 then cfg_check_interval_sec c else 5
    | None => 5
    end /\
  proxy_url m =
    strncpy_term HOST_SIZE
      match cfg with
      | Some c => default "" (cfg_proxy_url c)
      | None => ""
      end /\
  num_wan_servers m = 4.
Proof.
  destruct cfg as [[ct ci cp [h|] cport cl]|]; cbn -[Z.gtb strncpy_term];
    try destruct (cport >? 0); done.
Qed.

Lemma init_config_servers cfg s :
  block_ok s ->
  wan_servers (mon (post (init_config cfg s))) =
    match cfg with
    | Some c =>
        match cfg_wan_test_host c with
        | Some h =>
            if cfg_wan_test_port c >? 0
            then mkWanServer (strncpy_term HOST_SIZE h) (cfg_wan_test_port c)
                 :: drop 1 defaults
            else defaults
        | None => defaults
        end
    | None => defaults
    end.
Proof.
  unfold block_ok. intros Hlen. destruct s as [raw e]. cbn [mon] in Hlen.
  destruct raw as [t i p srvs n l wu lu lc le r]. cbn in Hlen.
  destruct srvs as [|s0 [|s1 [|s2 [|s3 [|s4 srvs]]]]]; try done.
  destruct cfg as [[ct ci cp [h|] cport cl]|]; cbn -[Z.gtb strncpy_term];
    try destruct (cport >? 0); done.
Qed.

Lemma configured_config env cfg s :
  config_of (mon (configured env cfg s)) = config_of (mon (post (init_config cfg s))).
Proof. unfold configured. apply keeps_config_init_lan_interface. Qed.

(** X13: the monitor behind a fresh handle has [wan_up] and [lan_up]
    false, [last_check_time] 0, [last_error] 0 (whatever detection and
    validation recorded on the way) and [running] set; its timeout and
    interval are the configured values when those are positive and 1000
    and 5 otherwise (also without a configuration), and its proxy is the
    configured string, cut to 255 bytes, or empty. *)
Theorem network_monitor_new_initial_state
    (sys : CtorEnv) (env : Env) (cfg : option NetworkConfig) (s : cpu) :
  val (network_monitor_new sys env cfg s) = true ->
  let m := mon (post (network_monitor_new sys env cfg s)) in
  wan_up m = false /\ lan_up m = false /\
  last_check_time m = 0 /\ last_error m = 0 /\ running m = true /\
  timeout_ms m =
    match cfg with
    | Some c => if cfg_timeout_ms c >? 0 then cfg_timeout_ms c else 1000
    | None => 1000
    end /\
  check_interval_sec m =
    match cfg with
    | Some c => if cfg_check_interval_sec c >? 0 then cfg_check_interval_sec c else 5
    | None => 5
    end /\
  proxy_url m =
    strncpy_term HOST_SIZE
      match cfg with
      | Some c => default "" (cfg_proxy_url c)
      | None => ""
      end.
Proof.
  intros Hv. cbn zeta. rewrite (network_monitor_new_result _ _ _ _ Hv).
  pose proof (configured_config env cfg s) as Hc.
  destruct (init_config_numbers cfg s) as (Ht & Hi & Hp & _). cbn zeta in *.
  unfold config_of in Hc. injection Hc as Hct Hci Hcp _ _.
  cbn -[Z.gtb strncpy_term]. rewrite Hct, Hci, Hcp. auto 10.
Qed.

Lemma network_monitor_new_initial_state_witness :
  val (network_monitor_new ctor_ok env_no_route_file (Some sparse_cfg)
         (mkCpu raw_block 0)) = true /\
  last_error (mon (post (detect_lan_interface env_no_route_file (mkCpu raw_block 0)))) = 13 /\
  last_error (mon (post (network_monitor_new ctor_ok env_no_route_file (Some sparse_cfg)
                           (mkCpu raw_block 0)))) = 0 /\
  timeout_ms (mon (post (network_monitor_new ctor_ok env_no_route_file (Some sparse_cfg)
                           (mkCpu raw_block 0)))) = 1000 /\
  check_interval_sec (mon (post (network_monitor_new ctor_ok env_no_route_file
                                   (Some sparse_cfg) (mkCpu raw_block 0)))) = 5.
Proof.
  assert (Hv : val (network_monitor_new ctor_ok env_no_route_file (Some sparse_cfg)
                      (mkCpu raw_block 0)) = true) by (vm_compute; reflexivity).
  destruct (network_monitor_new_initial_state _ _ _ _ Hv)
    as (_ & _ & _ & He & _ & Ht & Hi & _).
  split; [exact Hv|]. split; [vm_compute; reflexivity|].
  split; [exact He|]. split; [exact Ht|exact Hi].
Defined.

(** X14: the first entry of the server list of a fresh handle is the
    configured host (cut to 255 bytes) and port only when the
    configuration gives both a host and a positive port; a host without a
    positive port, a port without a host, or no configuration leave all
    four defaults in place. *)
Theorem network_monitor_new_server_override
    (sys : CtorEnv) (env : Env) (cfg : option NetworkConfig) (s : cpu) :
  block_ok s ->
  val (network_monitor_new sys env cfg s) = true ->
  let m := mon (post (network_monitor_new sys env cfg s)) in
  (forall c h, cfg = Some c -> cfg_wan_test_host c = Some h ->
     0 < cfg_wan_test_port c ->
     wan_servers m =
       mkWanServer (strncpy_term HOST_SIZE h) (cfg_wan_test_port c) :: drop 1 defaults) /\
  (forall c, cfg = Some c -> cfg_wan_test_port c <= 0 -> wan_servers m = defaults) /\
  (forall c, cfg = Some c -> cfg_wan_test_host c = None -> wan_servers m = defaults) /\
  (cfg = None -> wan_servers m = defaults).
Proof.
  intros Hblock Hv. cbn zeta. rewrite (network_monitor_new_result _ _ _ _ Hv).
  pose proof (configured_config env cfg s) as Hc.
  pose proof (init_config_servers cfg s Hblock) as Hs.
  unfold config_of in Hc. injection Hc as _ _ _ Hcs _.
  change (wan_servers (with_running ?a (with_last_error ?b (with_last_check_time ?c
            (with_lan_up ?d (with_wan_up ?f ?m)))))) with (wan_servers m).
  rewrite Hcs, Hs. repeat split.
  - intros c h -> -> Hp. destruct (Z.gtb_spec (cfg_wan_test_port c) 0); [done|lia].
  - intros c -> Hp. destruct (cfg_wan_test_host c); [|done].
    destruct (Z.gtb_spec (cfg_wan_test_port c) 0); [lia|done].
  - by intros c -> ->.
  - by intros ->.
Qed.

Lemma network_monitor_new_server_override_witness :
  block_ok (mkCpu raw_block 0) /\
  val (network_monitor_new ctor_ok env_offline (Some host_only_cfg) (mkCpu raw_block 0))
    = true /\
  cfg_wan_test_host host_only_cfg = Some "192.0.2.7" /\
  wan_servers (mon (post (network_monitor_new ctor_ok env_offline (Some host_only_cfg)
                            (mkCpu raw_block 0)))) = defaults.
Proof.
  assert (Hb : block_ok (mkCpu raw_block 0)) by reflexivity.
  assert (Hv : val (network_monitor_new ctor_ok env_offline (Some host_only_cfg)
                      (mkCpu raw_block 0)) = true) by (vm_compute; reflexivity).
  split; [exact Hb|]. split; [exact Hv|]. split; [reflexivity|].
  refine (proj1 (proj2 (network_monitor_new_server_override _ _ _ _ Hb Hv))
            host_only_cfg eq_refl _).
  vm_compute. discriminate.
Defined.

(** ** The interface that the constructor chooses *)

Lemma init_lan_interface_explicit env cfg s iface :
  explicit_interface cfg = Some iface ->
  init_lan_interface env cfg s =
    mkOut tt (mkCpu (with_lan_interface (strncpy_term IF_NAMESIZE iface) (mon s)) (errno s))
      [EvStore Flan_interface].
Proof.
  unfold explicit_interface, init_lan_interface.
  destruct cfg as [[ct ci cp h cport [l|]]|]; try done.
  cbn [cfg_lan_interface]. destruct (nonempty l); [|done]. by intros [= ->].
Qed.

Lemma init_lan_interface_detect env cfg s :
  explicit_interface cfg = None ->
  init_lan_interface env cfg s = detect_or_loopback env s.
Proof.
  unfold explicit_interface, init_lan_interface.
  destruct cfg as [[ct ci cp h cport [l|]]|]; try done.
  cbn [cfg_lan_interface]. by destruct (nonempty l).
Qed.

Lemma network_monitor_new_interface sys env cfg s :
  val (network_monitor_new sys env cfg s) = true ->
  lan_interface (mon (post (network_monitor_new sys env cfg s)))
  = lan_interface (mon (configured env cfg s)).
Proof. intros Hv. by rewrite (network_monitor_new_result _ _ _ _ Hv). Qed.

(** X15: the interface of a fresh handle is, in this order of priority:
    the interface named by the configuration when that is a non-empty
    string (cut to 15 bytes, and the routing table is then not consulted);
    otherwise the interface of the first default route of the routing
    table; otherwise, when the table cannot be opened or has no default
    route, ["lo"]. *)
Theorem network_monitor_new_interface_choice
    (sys : CtorEnv) (env : Env) (cfg : option NetworkConfig) (s : cpu) :
  val (network_monitor_new sys env cfg s) = true ->
  let m := mon (post (network_monitor_new sys env cfg s)) in
  (forall iface, explicit_interface cfg = Some iface ->
     lan_interface m = strncpy_term IF_NAMESIZE iface) /\
  (forall before line after name,
     explicit_interface cfg = None ->
     env_route_file env = Ok (before ++ line :: after) ->
     Forall (fun l => ~ is_default_route_line env l) before ->
     default_route_via env line name ->
     lan_interface m = strncpy_term IF_NAMESIZE name) /\
  (explicit_interface cfg = None -> no_default_route env ->
   lan_interface m = "lo").
Proof.
  intros Hv. cbn zeta. rewrite (network_monitor_new_interface _ _ _ _ Hv).
  unfold configured. split; [|split].
  - intros iface Hex. by rewrite (init_lan_interface_explicit _ _ _ _ Hex).
  - intros before line after name Hex Hfile Hbefore Hline.
    rewrite (init_lan_interface_detect _ _ _ Hex).
    unfold detect_or_loopback. rewrite bind_unfold.
    by rewrite (detect_found _ _ _ _ _ _ Hfile Hbefore Hline).
  - intros Hex Hno. rewrite (init_lan_interface_detect _ _ _ Hex).
    unfold detect_or_loopback. rewrite bind_unfold.
    destruct Hno as [[e Hfile]|(lines & Hfile & Hnone)].
    + by rewrite (detect_fail _ _ _ Hfile).
    + by rewrite (detect_none _ _ _ Hfile Hnone).
Qed.

Lemma network_monitor_new_interface_choice_witness :
  val (network_monitor_new ctor_ok env_online (Some test_cfg) (mkCpu raw_block 0)) = true /\
  explicit_interface (Some test_cfg) = Some "lo" /\
  lan_interface (mon (post (network_monitor_new ctor_ok env_online (Some test_cfg)
                              (mkCpu raw_block 0)))) = "lo" /\
  val (network_monitor_new ctor_ok env_no_route_file None (mkCpu raw_block 0)) = true /\
  no_default_route env_no_route_file /\
  lan_interface (mon (post (network_monitor_new ctor_ok env_no_route_file None
                              (mkCpu raw_block 0)))) = "lo".
Proof.
  assert (Hv1 : val (network_monitor_new ctor_ok env_online (Some test_cfg)
                       (mkCpu raw_block 0)) = true) by (vm_compute; reflexivity).
  assert (Hv2 : val (network_monitor_new ctor_ok env_no_route_file None
                       (mkCpu raw_block 0)) = true) by (vm_compute; reflexivity).
  assert (Hno : no_default_route env_no_route_file) by (left; by exists 13).
  split; [exact Hv1|]. split; [reflexivity|].
  split; [exact (proj1 (network_monitor_new_interface_choice _ _ _ _ Hv1) "lo" eq_refl)|].
  split; [exact Hv2|]. split; [exact Hno|].
  exact (proj2 (proj2 (network_monitor_new_interface_choice _ _ _ _ Hv2)) eq_refl Hno).
Defined.

(** ** Cleanup on the failure paths of the constructor *)

Lemma scan_routes_Forall (P : event -> Prop) env lines s :
  (forall l, P (EvFgets l)) -> Forall P (trace (scan_routes env lines s)).
Proof.
  intros Hgets. induction lines as [|line rest IH]; [constructor|].
  cbn [scan_routes]. rewrite bind_unfold. cbn [emit val post trace app].
  constructor; [done|].
  destruct (env_route_scan env line) as [[[[name dest] gw] flags]|]; [|done].
  destruct (is_default_route dest gw flags); [constructor|done].
Qed.

Lemma detect_Forall (P : event -> Prop) env s :
  (forall r, P (EvFopen r)) ->
  (forall l, P (EvFgets l)) ->
  P EvFclose ->
  (forall f, P (EvStore f)) ->
  Forall P (trace (detect_lan_interface env s)).
Proof.
  intros Hopen Hgets Hclose Hstore. unfold detect_lan_interface.
  destruct (env_route_file env) as [lines|e].
  2:{ by repeat constructor. }
  rewrite bind_unfold. cbn [emit val post trace app]. constructor; [done|].
  rewrite bind_unfold. apply Forall_app. split; [by apply scan_routes_Forall|].
  destruct (val (scan_routes env lines s)); by repeat constructor.
Qed.

Lemma init_config_Forall (P : event -> Prop) cfg s :
  (forall f, P (EvLoad f)) -> (forall f, P (EvStore f)) ->
  Forall P (trace (init_config cfg s)).
Proof.
  intros Hload Hstore.
  destruct cfg as [[ct ci cp [h|] cport cl]|]; cbn -[Z.gtb strncpy_term];
    try destruct (cport >? 0); cbn; by repeat constructor.
Qed.

Lemma init_lan_interface_Forall (P : event -> Prop) env cfg s :
  (forall r, P (EvFopen r)) ->
  (forall l, P (EvFgets l)) ->
  P EvFclose ->
  (forall f, P (EvStore f)) ->
  Forall P (trace (init_lan_interface env cfg s)).
Proof.
  intros Hopen Hgets Hclose Hstore.
  destruct (explicit_interface cfg) as [iface|] eqn:Hex.
  - rewrite (init_lan_interface_explicit _ _ _ _ Hex). by repeat constructor.
  - rewrite (init_lan_interface_detect _ _ _ Hex).
    unfold detect_or_loopback. rewrite bind_unfold. apply Forall_app.
    split; [by apply detect_Forall|].
    destruct (val (detect_lan_interface env s)); by repeat constructor.
Qed.

Lemma validate_lan_interface_Forall (P : event -> Prop) sys env s :
  (forall ty r, P (EvSocket ty r)) ->
  (forall f, P (EvStore f)) ->
  (forall f, P (EvLoad f)) ->
  (forall fd name r, P (EvIoctl fd name r)) ->
  (forall fd, P (EvClose fd)) ->
  Forall P (trace (validate_lan_interface sys env s)).
Proof.
  intros Hsock Hstore Hload Hio Hclose. rewrite validate_lan_interface_unfold.
  destruct (ctor_socket sys) as [fd|e]; cbn zeta; cbn [trace].
  - constructor; [done|]. apply Forall_app. split; [by apply check_lan_Forall|].
    by repeat constructor.
  - by repeat constructor.
Qed.

Lemma releases_nothing_counts tr :
  Forall releases_nothing tr -> free_count tr = 0%nat /\ mutex_destroy_count tr = 0%nat.
Proof.
  unfold free_count, mutex_destroy_count.
  induction 1 as [|ev tr [Hf Hm] _ [IHf IHm]]; [done|].
  cbn [List.filter]. by rewrite Hf, Hm.
Qed.

Lemma free_count_app t1 t2 : free_count (t1 ++ t2) = (free_count t1 + free_count t2)%nat.
Proof. unfold free_count. by rewrite List.filter_app, length_app. Qed.

Lemma mutex_destroy_count_app t1 t2 :
  mutex_destroy_count (t1 ++ t2) = (mutex_destroy_count t1 + mutex_destroy_count t2)%nat.
Proof. unfold mutex_destroy_count. by rewrite List.filter_app, length_app. Qed.

(** X16: [network_monitor_new] frees the block exactly once on every
    failure that follows a successful allocation and never when it
    returns a handle; it destroys the mutex at most once, and only after
    the mutex was initialised and the thread could not be created; when
    the allocation itself fails it does nothing at all. *)
Theorem network_monitor_new_cleanup
    (sys : CtorEnv) (env : Env) (cfg : option NetworkConfig) (s : cpu) :
  let out := network_monitor_new sys env cfg s in
  (val out = true -> free_count (trace out) = 0%nat /\
                     mutex_destroy_count (trace out) = 0%nat) /\
  (ctor_malloc_ok sys = true -> val out = false -> free_count (trace out) = 1%nat) /\
  (ctor_malloc_ok sys = false -> out = mkOut false s []) /\
  (mutex_destroy_count (trace out) <= 1)%nat /\
  (mutex_destroy_count (trace out) = 1%nat ->
   ctor_mutex_init_ok sys = true /\ ctor_thread_create_ok sys = false).
Proof.
  cbn zeta. destruct (ctor_malloc_ok sys) eqn:Hm.
  2:{ unfold network_monitor_new. rewrite Hm. cbn. repeat split; done || lia. }
  rewrite (network_monitor_new_unfold sys env cfg s Hm). cbn zeta.
  set (s1 := post (init_config cfg s)).
  set (s2 := post (init_lan_interface env cfg s1)).
  destruct (releases_nothing_counts (trace (init_config cfg s))) as [Hf1 Hm1].
  { by apply init_config_Forall. }
  destruct (releases_nothing_counts (trace (init_lan_interface env cfg s1))) as [Hf2 Hm2].
  { by apply init_lan_interface_Forall. }
  destruct (releases_nothing_counts (trace (validate_lan_interface sys env s2)))
    as [Hf3 Hm3].
  { by apply validate_lan_interface_Forall. }
  destruct (val (validate_lan_interface sys env s2)); cbn [val post trace].
  - rewrite init_state_unfold, start_thread_unfold. cbn [post trace].
    rewrite !free_count_app, !mutex_destroy_count_app, Hf1, Hf2, Hf3, Hm1, Hm2, Hm3.
    destruct (ctor_mutex_init_ok sys), (ctor_thread_create_ok sys); cbn;
      repeat split; done || lia.
  - rewrite !free_count_app, !mutex_destroy_count_app, Hf1, Hf2, Hf3, Hm1, Hm2, Hm3.
    cbn. repeat split; done || lia.
Qed.

Lemma network_monitor_new_cleanup_witness :
  ctor_malloc_ok ctor_no_thread = true /\
  val (network_monitor_new ctor_no_thread env_offline None (mkCpu raw_block 0)) = false /\
  free_count (trace (network_monitor_new ctor_no_thread env_offline None
                       (mkCpu raw_block 0))) = 1%nat /\
  mutex_destroy_count (trace (network_monitor_new ctor_no_thread env_offline None
                                (mkCpu raw_block 0))) = 1%nat.
Proof.
  assert (Hv : val (network_monitor_new ctor_no_thread env_offline None
                      (mkCpu raw_block 0)) = false) by (vm_compute; reflexivity).
  split; [reflexivity|]. split; [exact Hv|].
  split; [|vm_compute; reflexivity].
  exact (proj1 (proj2 (network_monitor_new_cleanup ctor_no_thread env_offline None
                         (mkCpu raw_block 0))) eq_refl Hv).
Defined.

(** ** Strings stay within their arrays *)

Lemma substring_length (k : nat) (s : string) :
  (String.length (String.substring 0 k s) <= k)%nat.
Proof.
  revert k. induction s as [|c s IH]; intros k.
  - destruct k; cbn; lia.
  - destruct k as [|k]; cbn; [lia|]. specialize (IH k). lia.
Qed.

Lemma strncpy_term_length (n : nat) (s : string) :
  (0 < n)%nat -> (String.length (strncpy_term n s) < n)%nat.
Proof.
  intros Hn. unfold strncpy_term. pose proof (substring_length (n - 1) s). lia.
Qed.


Lemma detect_found_fits env s :
  val (detect_lan_interface env s) = true ->
  (String.length (lan_interface (mon (post (detect_lan_interface env s)))) < IF_NAMESIZE)%nat.
Proof.
  unfold detect_lan_interface.
  destruct (env_route_file env) as [lines|e]; [|done].
  rewrite !bind_unfold. cbn [emit val post trace].
  destruct (val (scan_routes env lines _)) as [iface|]; [|done].
  intros _. cbn -[strncpy_term IF_NAMESIZE]. apply strncpy_term_length.
  unfold IF_NAMESIZE. lia.
Qed.

Lemma detect_or_loopback_fits env s :
  (String.length (lan_interface (mon (post (detect_or_loopback env s)))) < IF_NAMESIZE)%nat.
Proof.
  unfold detect_or_loopback. rewrite bind_unfold. cbn [post].
  destruct (val (detect_lan_interface env s)) eqn:Hv.
  - cbn [ret post]. by apply detect_found_fits.
  - cbn. unfold IF_NAMESIZE. lia.
Qed.

Lemma configured_interface_fits env cfg s :
  (String.length (lan_interface (mon (configured env cfg s))) < IF_NAMESIZE)%nat.
Proof.
  unfold configured. destruct (explicit_interface cfg) as [iface|] eqn:Hex.
  - rewrite (init_lan_interface_explicit _ _ _ _ Hex). cbn -[strncpy_term IF_NAMESIZE].
    apply strncpy_term_length. unfold IF_NAMESIZE, HOST_SIZE. lia.
  - rewrite (init_lan_interface_detect _ _ _ Hex). apply detect_or_loopback_fits.
Qed.

Lemma strings_fit_new sys env cfg s :
  block_ok s ->
  val (network_monitor_new sys env cfg s) = true ->
  strings_fit (mon (post (network_monitor_new sys env cfg s))).
Proof.
  intros Hblock Hv. rewrite (network_monitor_new_result _ _ _ _ Hv).
  pose proof (configured_config env cfg s) as Hc.
  pose proof (init_config_servers cfg s Hblock) as Hs.
  destruct (init_config_numbers cfg s) as (_ & _ & Hp & _). cbn zeta in Hp.
  unfold config_of in Hc. injection Hc as _ _ Hcp Hcs _.
  unfold strings_fit.
  change (lan_interface (with_running ?a (with_last_error ?b (with_last_check_time ?c
            (with_lan_up ?d (with_wan_up ?f ?m)))))) with (lan_interface m).
  change (proxy_url (with_running ?a (with_last_error ?b (with_last_check_time ?c
            (with_lan_up ?d (with_wan_up ?f ?m)))))) with (proxy_url m).
  change (wan_servers (with_running ?a (with_last_error ?b (with_last_check_time ?c
            (with_lan_up ?d (with_wan_up ?f ?m)))))) with (wan_servers m).
  split; [apply configured_interface_fits|]. split.
  - rewrite Hcp, Hp. apply strncpy_term_length. unfold IF_NAMESIZE, HOST_SIZE. lia.
  - rewrite Hcs, Hs.
    assert (Hd : Forall (fun srv => (String.length (host srv) < HOST_SIZE)%nat) defaults).
    { repeat constructor; cbn; lia. }
    destruct cfg as [c|]; [|done]. destruct (cfg_wan_test_host c) as [h|]; [|done].
    destruct (cfg_wan_test_port c >? 0); [|done].
    constructor.
    + cbn [host]. apply strncpy_term_length. unfold IF_NAMESIZE, HOST_SIZE. lia.
    + by inversion Hd.
Qed.

Lemma strings_fit_config m m' :
  config_of m' = config_of m -> lan_interface m' = lan_interface m ->
  strings_fit m -> strings_fit m'.
Proof.
  unfold config_of, strings_fit. intros [= _ _ Hp Hs _] Hl. by rewrite Hp, Hs, Hl.
Qed.

Lemma strings_fit_op m o e : strings_fit m -> strings_fit (exec (run_op o) m e).
Proof.
  intros Hfit. pose proof Hfit as (Hl & Hp & Hs). unfold exec.
  destruct o as [ | | | |ms|sec|proxy|h|p|iface| |env|env w l| ]; cbn [run_op];
    try (by eapply strings_fit_config).
  - (* set_proxy *)
    split; [done|]. split; [|done].
    cbn -[strncpy_term HOST_SIZE]. apply strncpy_term_length. unfold IF_NAMESIZE, HOST_SIZE. lia.
  - (* set_wan_test_host *)
    split; [done|]. split; [done|].
    cbn -[strncpy_term HOST_SIZE]. apply Forall_alter; [done|].
    intros srv _ _. cbn [host]. apply strncpy_term_length. unfold IF_NAMESIZE, HOST_SIZE. lia.
  - (* set_wan_test_port *)
    split; [done|]. split; [done|].
    cbn -[Z.gtb HOST_SIZE]. apply Forall_alter; [done|]. by intros srv _ Hsrv.
  - (* set_lan_interface *)
    split; [|done].
    cbn -[strncpy_term IF_NAMESIZE]. apply strncpy_term_length. unfold IF_NAMESIZE, HOST_SIZE. lia.
  - (* the flag check of the loop *)
    eapply strings_fit_config; [| |done];
      unfold loop_flag_check, bind, load, pthread_mutex_lock, emit;
      cbn [val post trace mon]; by destruct (running m).
  - (* the checks of the loop *)
    rewrite bind_unfold. cbn [post ret].
    pose proof (frames_loop_run_checks env (mkCpu m e)) as Hf.
    unfold only_last_error in Hf. cbn [mon] in Hf.
    eapply strings_fit_config; [| |done]; by rewrite Hf.
Qed.

(** X17: on every monitor handle each string fits its array: the
    interface name has at most 15 bytes, the proxy and every server host
    at most 255; a longer argument to a constructor field or a mutator is
    cut, never written past the array; so [check_lan] queries exactly the
    stored interface name. *)
Theorem strings_always_fit (m : NetworkMonitor) (e : Z) :
  Reachable m ->
  strings_fit m /\ ifr_name_of (mkCpu m e) = lan_interface m.
Proof.
  intros Hreach.
  assert (Hfit : strings_fit m).
  { induction Hreach as [sys env cfg raw e0 Hlen Hres|m o e0 _ IH].
    - by apply (strings_fit_new sys env cfg (mkCpu raw e0)).
    - by apply strings_fit_op. }
  split; [done|]. unfold ifr_name_of. cbn [mon].
  apply strncpy_term_fits. apply Hfit.
Qed.

Lemma long_name_monitor_reachable : Reachable long_name_monitor.
Proof. apply Reach_op. exact test_monitor_reachable. Defined.

Lemma strings_always_fit_witness :
  Reachable long_name_monitor /\
  lan_interface long_name_monitor = "enx0123456789ab" /\
  strings_fit long_name_monitor.
Proof.
  split; [exact long_name_monitor_reachable|]. split; [vm_compute; reflexivity|].
  exact (proj1 (strings_always_fit long_name_monitor 0 long_name_monitor_reachable)).
Defined.

(** ** An interface that does not exist *)



(** ** What the checks write *)

(** X19: [check_wan] and [check_lan] write no field of the monitor other
    than [last_error]: the configuration, the interface, the published
    status and the flag are the same after a check as before it, whatever
    the network answers. *)
Theorem checks_write_only_last_error (env : Env) (s : cpu) :
  mon (post (check_wan env s))
    = with_last_error (last_error (mon (post (check_wan env s)))) (mon s) /\
  mon (post (check_lan env s))
    = with_last_error (last_error (mon (post (check_lan env s)))) (mon s) /\
  mon (post (loop_run_checks env s))
    = with_last_error (last_error (mon (post (loop_run_checks env s)))) (mon s).
Proof.
  split; [apply frames_check_wan|]. split; [apply frames_check_lan|].
  apply frames_loop_run_checks.
Qed.

(** ** The segments of a turn *)

(** The segments of the interleaving model are a cut of the loop and no
    other program: run one after the other by the thread alone, they make
    the events of [monitor_iteration] in the same order and leave the
    same monitor and the same [errno]. *)

Lemma runs_step env pc s pc' s' tr :
  segment env pc s = mkOut pc' s' tr -> runs_to env pc s tr pc' s'.
Proof.
  intros Hseg. rewrite <- (app_nil_r tr).
  replace tr with (trace (segment env pc s)) by (by rewrite Hseg).
  apply runs_on. rewrite Hseg. apply runs_here.
Qed.

Lemma runs_step_then env pc s pc1 s1 tr1 tr2 pc2 s2 :
  segment env pc s = mkOut pc1 s1 tr1 ->
  runs_to env pc1 s1 tr2 pc2 s2 ->
  runs_to env pc s (tr1 ++ tr2) pc2 s2.
Proof.
  intros Hseg Hrest.
  replace tr1 with (trace (segment env pc s)) by (by rewrite Hseg).
  apply runs_on. by rewrite Hseg.
Qed.

Lemma runs_to_trans env pc s tr1 pc1 s1 tr2 pc2 s2 :
  runs_to env pc s tr1 pc1 s1 ->
  runs_to env pc1 s1 tr2 pc2 s2 ->
  runs_to env pc s (tr1 ++ tr2) pc2 s2.
Proof.
  induction 1 as [|pc s tr pc' s' _ IH]; intros Hrest; [done|].
  rewrite <- app_assoc. apply runs_on. by apply IH.
Qed.

(** The retry loop, entered at [retry] with [k] iterations to go. *)
Lemma runs_connect_retries env interval i fd p k retry s :
  (retry + k = 3)%nat ->
  let r := connect_retries env i fd p k retry s in
  runs_to env (AtConnect interval i retry fd p) s
    (trace r ++ (if val r then [] else [EvClose fd]))
    (if val r then AtLan interval true else AtServer interval (S i))
    (post r).
Proof.
  revert retry s. induction k as [|k IH]; intros retry s Hsum; cbn zeta.
  - assert (retry = 3)%nat as -> by lia. by apply runs_step.
  - assert (Hlt : (retry <? 3)%nat = true) by (apply Nat.ltb_lt; lia).
    destruct (env_wan_connect env i retry) as [[]|e] eqn:Hconn.
    + rewrite (connect_retries_accept _ _ _ _ _ _ _ Hconn). cbn [val post trace].
      rewrite app_nil_r. apply runs_step.
      cbn [segment]. rewrite Hlt. unfold connect_attempt, bind, sys_connect.
      by rewrite Hconn.
    + rewrite (connect_retries_reject _ _ _ _ _ _ _ _ Hconn). cbn zeta.
      cbn [val post trace].
      specialize (IH (S retry) (mkCpu (with_last_error e (mon s)) e) ltac:(lia)).
      cbn zeta in IH.
      refine (runs_step_then env _ _ _ _
               [EvConnect i retry fd p (Fail e); EvStore Flast_error;
                EvUsleep (Z.shiftl 100000 (Z.of_nat retry))] _ _ _ _ IH).
      cbn [segment]. rewrite Hlt. unfold connect_attempt, bind, sys_connect.
      by rewrite Hconn.
Qed.

(** One iteration of the server loop, its loop test included. *)
Lemma runs_probe_server env interval i s :
  Z.of_nat i < num_wan_servers (mon s) ->
  let r := probe_server env i s in
  runs_to env (AtServer interval i) s
    (EvLoad Fnum_wan_servers :: trace r)
    (if val r then AtLan interval true else AtServer interval (S i))
    (post r).
Proof.
  intros Hi. cbn zeta.
  assert (Htest : (Z.of_nat i <? num_wan_servers (mon s)) = true) by (by apply Z.ltb_lt).
  destruct (env_wan_socket env i) as [fd|e] eqn:Hsock.
  2:{ rewrite (probe_server_no_socket _ _ _ _ Hsock). cbn [val post trace].
      apply runs_step. cbn [segment]. unfold bind, load. cbn [val post trace mon].
      rewrite Htest. unfold server_setup, bind, sys_socket. by rewrite Hsock. }
  assert (Hfd : (Z.of_N fd <? 0) = false) by (apply Z.ltb_ge; lia).
  destruct (env_inet_pton env (host (server_at i (mon s)))) eqn:Hp.
  2:{ rewrite (probe_server_bad_host _ _ _ _ Hsock Hp). cbn [val post trace].
      apply runs_step. cbn [segment]. unfold bind, load. cbn [val post trace mon].
      rewrite Htest. unfold server_setup, bind, sys_socket. rewrite Hsock.
      cbn -[timeval_of_ms server_at]. rewrite Hfd.
      cbn -[timeval_of_ms server_at]. rewrite Hp. reflexivity. }
  rewrite (probe_server_connects _ _ _ _ Hsock Hp). cbn zeta. cbn [val post trace].
  pose proof (runs_connect_retries env interval i (Z.of_N fd)
                (htons (port (server_at i (mon s)))) 3 0 s eq_refl) as Hretries.
  cbn zeta in Hretries.
  change (EvLoad Fnum_wan_servers :: ?a ++ ?b)
    with ((EvLoad Fnum_wan_servers :: a) ++ b).
  refine (runs_step_then env _ _ _ _ _ _ _ _ _ Hretries).
  cbn [segment]. unfold bind, load. cbn [val post trace mon].
  rewrite Htest. unfold server_setup, setup_events, bind, sys_socket. rewrite Hsock.
  cbn -[timeval_of_ms server_at]. rewrite Hfd.
  cbn -[timeval_of_ms server_at]. rewrite Hp.
  cbn -[timeval_of_ms server_at]. by destruct s.
Qed.

(** The server loop from iteration [i], with [n] iterations to go. *)
Lemma runs_wan_loop env interval n i s :
  (i + n = Z.to_nat (num_wan_servers (mon s)))%nat ->
  let r := wan_loop env n i s in
  runs_to env (AtServer interval i) s (trace r) (AtLan interval (val r)) (post r).
Proof.
  revert i s. induction n as [|n IH]; intros i s Hsum; cbn zeta.
  - rewrite wan_loop_O. cbn [val post trace]. apply runs_step.
    cbn [segment]. unfold bind, load. cbn [val post trace mon].
    destruct (Z.ltb_spec (Z.of_nat i) (num_wan_servers (mon s))); [lia|done].
  - rewrite wan_loop_S. cbn zeta.
    pose proof (runs_probe_server env interval i s ltac:(lia)) as Hprobe.
    cbn zeta in Hprobe.
    destruct (val (probe_server env i s)) eqn:Hhit; cbn [val post trace]; [done|].
    assert (Hnum : num_wan_servers (mon (post (probe_server env i s)))
                   = num_wan_servers (mon s)).
    { pose proof (frames_probe_server env i s) as Hf. unfold only_last_error in Hf.
      rewrite Hf. by destruct (mon s). }
    specialize (IH (S i) (post (probe_server env i s)) ltac:(rewrite Hnum; lia)).
    cbn zeta in IH.
    change (EvLoad Fnum_wan_servers :: ?a ++ ?b)
      with ((EvLoad Fnum_wan_servers :: a) ++ b).
    exact (runs_to_trans _ _ _ _ _ _ _ _ _ Hprobe IH).
Qed.

(** A turn of the loop is its segments, one after the other. *)
Lemma runs_monitor_iteration env s :
  let r := monitor_iteration env s in
  runs_to env AtFlagCheck s (trace r)
    (if val r then AtFlagCheck else Exited) (post r).
Proof.
  cbn zeta. destruct (running (mon s)) eqn:Hrun.
  2:{ rewrite (monitor_iteration_stopped env s Hrun). cbn [val post trace].
      apply runs_step. cbn [segment].
      unfold loop_flag_check, bind, pthread_mutex_lock, pthread_mutex_unlock,
        emit, load, ret. cbn [val post trace mon]. by rewrite Hrun. }
  rewrite (monitor_iteration_running env s Hrun). cbn zeta. cbn [val post trace].
  set (interval := check_interval_sec (mon s)).
  set (o1 := check_wan env s). set (o2 := check_lan env (post o1)).
  apply (runs_step_then env _ _ (AtServer interval 0) s).
  { cbn [segment].
    unfold loop_flag_check, bind, pthread_mutex_lock, pthread_mutex_unlock,
      emit, load, ret. cbn [val post trace mon]. by rewrite Hrun. }
  apply (runs_to_trans env _ _ _ (AtLan interval (val o1)) (post o1)).
  { apply (runs_wan_loop env interval (Z.to_nat (num_wan_servers (mon s))) 0 s).
    lia. }
  apply (runs_step_then env _ _ (AtPublish interval (val o1) (val o2)) (post o2)).
  { cbn [segment]. rewrite bind_unfold. fold o2. cbn [ret val post trace].
    by rewrite app_nil_r. }
  apply runs_step. cbn [segment].
  assert (Hint : interval = check_interval_sec (mon s)) by done.
  clearbody interval o2. reflexivity.
Qed.
